(** * SurfSense backend: connector checkpointing, write-time uniqueness,
      cascades and route error handling

    A shallow embedding of
      - app/db.py
      - app/routes/search_source_connectors_routes.py
      - app/routes/documents_routes.py
    Handlers are state-passing functions over a session (unit of work on top
    of the persisted store); a raised Python exception is the [Raise] branch
    of [result]. *)

From Stdlib Require Import ZArith Floats List String Ascii Bool Lia.
From Stdlib Require Import DecimalString Permutation.
Import ListNotations.
Open Scope string_scope.
Open Scope list_scope.
Open Scope Z_scope.

(** ** Python values and exceptions *)

(** The exception classes the handlers name or meet.  Every one of them
    derives from [Exception]; [HTTPException] is FastAPI's, [IntegrityError]
    is SQLAlchemy's, [ValidationError] is pydantic's; [RuntimeError] stands
    for any other failure of a collaborator. *)
Inductive exn : Type :=
| HTTPException (status_code : Z) (detail : string)
| IntegrityError (msg : string)
| ValidationError (msg : string)
| AttributeError (msg : string)
| OverflowError (msg : string)
| ValueError (msg : string)
| RuntimeError (msg : string).

Inductive result (A : Type) : Type :=
| Ok (a : A)
| Raise (e : exn).
Arguments Ok {A} a.
Arguments Raise {A} e.

Definition bind {A B : Type} (r : result A) (k : A -> result B) : result B :=
  match r with
  | Ok a => k a
  | Raise e => Raise e
  end.

Notation "x <- r ;; k" := (bind r (fun x => k))
  (at level 61, r at next level, right associativity).

(** [str(n)] for an int. *)
Definition str_int (n : Z) : string := NilZero.string_of_int (Z.to_int n).

(** [str(e)].  Starlette's HTTPException prints as "<status>: <detail>"; the
    other classes print their message. *)
Definition str_exn (e : exn) : string :=
  match e with
  | HTTPException s d => str_int s ++ ": " ++ d
  | IntegrityError m | ValidationError m | AttributeError m
  | OverflowError m | ValueError m | RuntimeError m => m
  end.

(** [needle in hay] on str: substring test, case sensitive. *)
Fixpoint str_in (needle hay : string) : bool :=
  if String.prefix needle hay then true
  else match hay with
       | EmptyString => false
       | String _ rest => str_in needle rest
       end.

(** ** datetime *)

Module date.
Record t : Type := mk { year : Z; month : Z; day : Z }.

Definition eqb (a b : t) : bool :=
  (year a =? year b) && (month a =? month b) && (day a =? day b).

Definition is_leap (y : Z) : bool :=
  (y mod 4 =? 0) && (negb (y mod 100 =? 0) || (y mod 400 =? 0)).

Definition days_in_month (y m : Z) : Z :=
  if m =? 2 then (if is_leap y then 29 else 28)
  else if (m =? 4) || (m =? 6) || (m =? 9) || (m =? 11) then 30 else 31.

Definition days_before_year (y : Z) : Z :=
  let p := y - 1 in p * 365 + p / 4 - p / 100 + p / 400.

Fixpoint days_before_month_aux (y : Z) (m : nat) : Z :=
  match m with
  | O => 0
  | S k => days_before_month_aux y k + days_in_month y (Z.of_nat (S k))
  end.

(** Days of year [y] that precede the first day of month [m]. *)
Definition days_before_month (y m : Z) : Z :=
  days_before_month_aux y (Z.to_nat (m - 1)).

(** [date.toordinal()]: 1 is 0001-01-01. *)
Definition toordinal (d : t) : Z :=
  days_before_year (year d) + days_before_month (year d) (month d) + day d.

(** The month of day-of-year [n] (0-based) of year [y], searched from
    January; [fuel] bounds the twelve months. *)
Fixpoint month_of (fuel : nat) (y m n : Z) : Z * Z :=
  match fuel with
  | O => (m, n)
  | S k => if n <? days_in_month y m then (m, n)
           else month_of k y (m + 1) (n - days_in_month y m)
  end.

(** [date.fromordinal(n)], by the 400/100/4/1-year cycles. *)
Definition fromordinal (n : Z) : t :=
  let n := n - 1 in
  let n400 := n / 146097 in
  let n := n mod 146097 in
  let n100 := n / 36524 in
  let n := n mod 36524 in
  let n4 := n / 1461 in
  let n := n mod 1461 in
  let n1 := n / 365 in
  let n := n mod 365 in
  let y := n400 * 400 + 1 + n100 * 100 + n4 * 4 + n1 in
  if (n1 =? 4) || (n100 =? 4) then mk (y - 1) 12 31
  else let '(m, d) := month_of 11 y 1 n in mk y m (d + 1).

Definition pad (width : nat) (s : string) : string :=
  let fix zeros (k : nat) : string :=
    match k with O => "" | S k' => String "0" (zeros k') end in
  (zeros (width - String.length s)%nat ++ s)%string.

(** [strftime("%Y-%m-%d")], the year zero-padded to four digits. *)
Definition strftime_Ymd (d : t) : string :=
  pad 4 (str_int (year d)) ++ "-" ++ pad 2 (str_int (month d))
    ++ "-" ++ pad 2 (str_int (day d)).
End date.

Module timedelta.
Record t : Type := mk { days : Z }.
End timedelta.

(** [date - timedelta]; leaving year 1..9999 raises OverflowError. *)
Definition date_sub (d : date.t) (td : timedelta.t) : result date.t :=
  let o := date.toordinal d - timedelta.days td in
  if (1 <=? o) && (o <=? 3652059) then Ok (date.fromordinal o)
  else Raise (OverflowError "date value out of range").

Module datetime.
Record t : Type := mk {
  date : date.t;   (* what [.date()] returns *)
  hour : Z; minute : Z; second : Z; microsecond : Z
}.

Definition strftime_Ymd (d : t) : string := date.strftime_Ymd (date d).
End datetime.

(** ** app/db.py: enumerations *)

Module DocumentType.
Inductive t : Type :=
| EXTENSION | CRAWLED_URL | FILE | SLACK_CONNECTOR | NOTION_CONNECTOR
| YOUTUBE_VIDEO | GITHUB_CONNECTOR.

Definition eq_dec (a b : t) : {a = b} + {a <> b}.
Proof. decide equality. Defined.

Definition eqb (a b : t) : bool := if eq_dec a b then true else false.
End DocumentType.

Module SearchSourceConnectorType.
Inductive t : Type :=
| SERPER_API | TAVILY_API | SLACK_CONNECTOR | NOTION_CONNECTOR
| GITHUB_CONNECTOR.

Definition eq_dec (a b : t) : {a = b} + {a <> b}.
Proof. decide equality. Defined.

Definition eqb (a b : t) : bool := if eq_dec a b then true else false.

(** The member's value, as an f-string renders a [str]-mixin enum. *)
Definition value (a : t) : string :=
  match a with
  | SERPER_API => "SERPER_API"
  | TAVILY_API => "TAVILY_API"
  | SLACK_CONNECTOR => "SLACK_CONNECTOR"
  | NOTION_CONNECTOR => "NOTION_CONNECTOR"
  | GITHUB_CONNECTOR => "GITHUB_CONNECTOR"
  end.
End SearchSourceConnectorType.

Module ChatType.
Inductive t : Type := GENERAL | DEEP | DEEPER | DEEPEST.
End ChatType.

(** ** app/db.py: mapped classes *)

(** A user's primary key (a UUID). *)
Definition UUID : Type := N.

(** A JSON column, kept as its serialised text. *)
Definition JSON : Type := string.

(** A pgvector value: its components. *)
Definition Vector : Type := list float.

(** [Integer] (db.py:70 and the foreign keys): a 32-bit integer.  A request
    value compared with such a column, or written to it, is sent as one; the
    driver refuses a value outside the range before the statement runs. *)
Definition fits_Integer (z : Z) : bool := (- 2 ^ 31 <=? z) && (z <? 2 ^ 31).

(** The 64-bit integers: the type the parameters of OFFSET and LIMIT are
    sent as. *)
Definition fits_BigInteger (z : Z) : bool :=
  (- 2 ^ 63 <=? z) && (z <? 2 ^ 63).

(** A text value of PostgreSQL holds no zero character. *)
Fixpoint no_nul (s : string) : bool :=
  match s with
  | EmptyString => true
  | String c rest => negb (Ascii.eqb c zero) && no_nul rest
  end.

(** [String(n)] (db.py:86 and 133): the values the database stores unchanged
    in a [character varying(n)] column: text of at most [n] characters.  The
    length is counted on the encoded text, which has no fewer bytes than the
    value has characters. *)
Definition fits_String (n : nat) (s : string) : bool :=
  (String.length s <=? n)%nat && no_nul s.

Module User.
Record t : Type := mk { id : UUID }.
End User.

Module Chat.
Record t : Type := mk {
  id : Z;
  created_at : datetime.t;
  type : ChatType.t;
  title : string;
  initial_connectors : option (list string);
  messages : JSON;
  search_space_id : Z
}.
End Chat.

Module Document.
Record t : Type := mk {
  id : Z;
  created_at : datetime.t;
  title : string;
  document_type : DocumentType.t;
  document_metadata : option JSON;
  content : string;
  embedding : option Vector;     (* the column is nullable *)
  search_space_id : Z
}.
End Document.

Module Chunk.
Record t : Type := mk {
  id : Z;
  created_at : datetime.t;
  content : string;
  embedding : option Vector;     (* the column is nullable *)
  document_id : Z
}.
End Chunk.

Module Podcast.
Record t : Type := mk {
  id : Z;
  created_at : datetime.t;
  title : string;
  is_generated : bool;
  podcast_content : string;
  file_location : string;
  search_space_id : Z
}.
End Podcast.

Module SearchSpace.
Record t : Type := mk {
  id : Z;
  created_at : datetime.t;
  name : string;
  description : option string;
  user_id : UUID
}.
End SearchSpace.

Module SearchSourceConnector.
Record t : Type := mk {
  id : Z;
  created_at : datetime.t;
  name : string;
  connector_type : SearchSourceConnectorType.t;
  is_indexable : bool;
  last_indexed_at : option datetime.t;
  config : JSON;
  user_id : UUID
}.
End SearchSourceConnector.

(** ** The store and the session *)

(** The tables of [Base.metadata] the routes touch, each in primary-key
    insertion order. *)
Record Store : Type := mkStore {
  searchspaces : list SearchSpace.t;
  documents : list Document.t;
  chunks : list Chunk.t;
  podcasts : list Podcast.t;
  chats : list Chat.t;
  search_source_connectors : list SearchSourceConnector.t
}.

Definition with_search_source_connectors
    (st : Store) (cs : list SearchSourceConnector.t) : Store :=
  mkStore (searchspaces st) (documents st) (chunks st) (podcasts st)
          (chats st) cs.

Definition with_documents (st : Store) (ds : list Document.t) : Store :=
  mkStore (searchspaces st) ds (chunks st) (podcasts st) (chats st)
          (search_source_connectors st).

(** [l] has no repeated element, for a boolean equality. *)
Fixpoint nodupb {A : Type} (eqb : A -> A -> bool) (l : list A) : bool :=
  match l with
  | [] => true
  | x :: r => negb (existsb (eqb x) r) && nodupb eqb r
  end.

(** [connector_type = Column(..., unique=True)] (db.py:134): the table-wide
    unique constraint the database checks when rows are written. *)
Definition unique_connector_type (st : Store) : bool :=
  nodupb SearchSourceConnectorType.eqb
    (map SearchSourceConnector.connector_type (search_source_connectors st)).

(** An [AsyncSession]: the rows as persisted, and the rows as the unit of
    work sees them (persisted rows plus the changes not yet committed). *)
Record Session : Type := mkSession {
  persisted : Store;
  working : Store
}.

(** [await session.commit()]: flushes the unit of work; the flush fails with
    IntegrityError when the unique constraint is violated, and then nothing
    is persisted.  The values a request writes are taken to fit their columns
    ([fits_String], [fits_Integer], an existing row for a foreign key): a
    statement about such a write names what it needs of them, or is about a
    write that went through. *)
Definition commit (s : Session) : Session * result unit :=
  if unique_connector_type (working s)
  then (mkSession (working s) (working s), Ok tt)
  else (s, Raise (IntegrityError
         "duplicate key value violates unique constraint"%string)).

(** [await session.rollback()]: drops the uncommitted changes. *)
Definition rollback (s : Session) : Session :=
  mkSession (persisted s) (persisted s).

(** The id a serial primary key gives a new row of a table whose ids are
    [ids]: above every id in use.  The sequence of the database may have
    moved further; the statements use of the new id only that no row has
    it. *)
Definition next_id (ids : list Z) : Z := 1 + fold_right Z.max 0 ids.

Inductive Level : Type := INFO | ERROR.

(** What a handler runs in: the session it was given, the wall clock that
    [datetime.now()] reads, and the records written to [logger]. *)
Record World : Type := mkWorld {
  session : Session;
  clock : datetime.t;
  log : list (Level * string)
}.

Definition set_session (w : World) (s : Session) : World :=
  mkWorld s (clock w) (log w).

Definition logger (lv : Level) (m : string) (w : World) : World :=
  mkWorld (session w) (clock w) (log w ++ [(lv, m)]).

Definition world_rollback (w : World) : World :=
  set_session w (rollback (session w)).

(** ** Deleting rows: the cascades declared in app/db.py *)

Inductive Table : Type :=
| T_searchspaces | T_documents | T_chunks | T_podcasts | T_chats
| T_search_source_connectors.

Module Table_as.
Definition eq_dec (a b : Table) : {a = b} + {a <> b}.
Proof. decide equality. Defined.

Definition eqb (a b : Table) : bool := if eq_dec a b then true else false.
End Table_as.

(** A row, named by its table and primary key. *)
Definition Ref : Type := (Table * Z)%type.

Definition ref_eqb (a b : Ref) : bool :=
  Table_as.eqb (fst a) (fst b) && (snd a =? snd b).

Definition ref_mem (r : Ref) (l : list Ref) : bool := existsb (ref_eqb r) l.

(** The parent-to-child relationships declared with
    [cascade="all, delete-orphan"], over foreign keys declared with
    [ondelete='CASCADE']: Document.chunks (db.py:95, 103),
    SearchSpace.documents (126, 93), SearchSpace.podcasts (127, 114) and
    SearchSpace.chats (128, 80). *)
Definition cascades : list (Table * Table) :=
  [ (T_documents, T_chunks);
    (T_searchspaces, T_documents);
    (T_searchspaces, T_podcasts);
    (T_searchspaces, T_chats) ].

Definition cascades_to (parent child : Table) : bool :=
  existsb (fun pc => Table_as.eqb (fst pc) parent && Table_as.eqb (snd pc) child)
          cascades.

(** Every row of the store with the row its foreign key points to (the
    foreign keys to [user] point outside these tables). *)
Definition store_rows (st : Store) : list (Ref * option Ref) :=
  map (fun r => ((T_searchspaces, SearchSpace.id r), None)) (searchspaces st)
  ++ map (fun r => ((T_documents, Document.id r),
                    Some (T_searchspaces, Document.search_space_id r)))
         (documents st)
  ++ map (fun r => ((T_chunks, Chunk.id r),
                    Some (T_documents, Chunk.document_id r)))
         (chunks st)
  ++ map (fun r => ((T_podcasts, Podcast.id r),
                    Some (T_searchspaces, Podcast.search_space_id r)))
         (podcasts st)
  ++ map (fun r => ((T_chats, Chat.id r),
                    Some (T_searchspaces, Chat.search_space_id r)))
         (chats st)
  ++ map (fun r => ((T_search_source_connectors, SearchSourceConnector.id r),
                    None))
         (search_source_connectors st).

(** A row follows its parent into [doomed] when the relationship cascades. *)
Definition follows (doomed : list Ref) (row : Ref * option Ref) : bool :=
  match snd row with
  | Some parent =>
      ref_mem parent doomed && cascades_to (fst parent) (fst (fst row))
      && negb (ref_mem (fst row) doomed)
  | None => false
  end.

Definition children (rows : list (Ref * option Ref)) (doomed : list Ref)
  : list Ref :=
  map fst (filter (follows doomed) rows).

(** The rows a delete of [doomed] takes with it, one generation of children
    per step; [fuel] bounds the steps. *)
Fixpoint cascade (fuel : nat) (rows : list (Ref * option Ref))
    (doomed : list Ref) : list Ref :=
  match fuel with
  | O => doomed
  | S fuel' =>
      match children rows doomed with
      | [] => doomed
      | next => cascade fuel' rows (doomed ++ next)
      end
  end.

Definition keep {A : Type} (t : Table) (id_of : A -> Z) (doomed : list Ref)
    (rows : list A) : list A :=
  filter (fun r => negb (ref_mem (t, id_of r) doomed)) rows.

Definition delete_refs (st : Store) (doomed : list Ref) : Store :=
  mkStore (keep T_searchspaces SearchSpace.id doomed (searchspaces st))
          (keep T_documents Document.id doomed (documents st))
          (keep T_chunks Chunk.id doomed (chunks st))
          (keep T_podcasts Podcast.id doomed (podcasts st))
          (keep T_chats Chat.id doomed (chats st))
          (keep T_search_source_connectors SearchSourceConnector.id doomed
                (search_source_connectors st)).

(** [await session.delete(obj)]: marks the row and, through the cascading
    relationships, its descendants as deleted in the unit of work.  A step
    that adds no row ends the cascade, and each other step adds a row, so the
    number of rows is fuel enough. *)
Definition session_delete (s : Session) (r : Ref) : Session :=
  let rows := store_rows (working s) in
  mkSession (persisted s)
            (delete_refs (working s) (cascade (List.length rows) rows [r])).

(** Deleting a search space: [await session.delete(search_space)], then
    [await session.commit()], as the delete handlers do for their rows. *)
Definition delete_search_space (s : Session) (search_space_id : Z)
  : Session * result unit :=
  commit (session_delete s (T_searchspaces, search_space_id)).

(** ** Request schemas and background tasks *)

(** Modelled from the spec: app/schemas/search_source_connector.py is not
    among the sources.  The create schema carries the connector's attributes
    other than its key, timestamp and owner ([**connector.model_dump()] is
    passed with [user_id] to the mapped class, routes:60). *)
Module SearchSourceConnectorCreate.
Record t : Type := mk {
  name : string;
  connector_type : SearchSourceConnectorType.t;
  is_indexable : bool;
  last_indexed_at : option datetime.t;
  config : JSON
}.
End SearchSourceConnectorCreate.

(** Modelled from the spec: the update schema, not among the sources, has
    the same attributes; [connector_type] is read unconditionally
    (routes:143); for the others [None] is a field left unset, which
    [model_dump(exclude_unset=True)] leaves out. *)
Module SearchSourceConnectorUpdate.
Record t : Type := mk {
  name : option string;
  connector_type : SearchSourceConnectorType.t;
  is_indexable : option bool;
  last_indexed_at : option (option datetime.t);
  config : option JSON
}.
End SearchSourceConnectorUpdate.

(** Modelled from the spec: app/schemas/documents.py is not among the
    sources.  A create request names a search space, a document type and a
    list of items (extension captures or URLs), kept as text. *)
Module DocumentsCreate.
Record t : Type := mk {
  document_type : DocumentType.t;
  content : list string;
  search_space_id : Z
}.
End DocumentsCreate.

(** Modelled from the spec: the document update schema, not among the
    sources; [None] is a field left unset. *)
Module DocumentUpdate.
Record t : Type := mk {
  title : option string;
  document_type : option DocumentType.t;
  document_metadata : option (option JSON);
  content : option string;
  search_space_id : option Z
}.
End DocumentUpdate.

Module DocumentRead.
Record t : Type := mk {
  id : Z;
  title : string;
  document_type : DocumentType.t;
  document_metadata : option JSON;
  content : string;
  created_at : datetime.t;
  search_space_id : Z
}.
End DocumentRead.

(** A call queued with [BackgroundTasks.add_task]: the function and its
    arguments after the session. *)
Inductive Task : Type :=
| run_slack_indexing_task (connector_id search_space_id : Z)
| run_notion_indexing_task (connector_id search_space_id : Z)
| add_extension_received_document (individual_document : string)
                                  (search_space_id : Z)
| add_crawled_url_document (url : string) (search_space_id : Z).

(** The response dictionary of the indexing trigger; a key the dictionary
    lacks is [None]. *)
Record IndexResponse : Type := mkIndexResponse {
  success : bool;
  message : string;
  connector_type : SearchSourceConnectorType.t;
  search_space : option string;
  indexing_from : option string;
  indexing_to : option string
}.

(** ** Names bound by the imports of search_source_connectors_routes.py *)

(** What a module-level name [datetime] can denote. *)
Inductive datetime_name : Type :=
| the_datetime_module      (* [import datetime] *)
| the_datetime_class.      (* [from datetime import datetime] *)

(** Line 23 of the routes module: [from datetime import datetime]. *)
Definition routes_datetime : datetime_name := the_datetime_class.

(** [<name>.now()]: a class method of the class; the module has no [now]. *)
Definition datetime_now (name : datetime_name) (w : World)
  : result datetime.t :=
  match name with
  | the_datetime_class => Ok (clock w)
  | the_datetime_module =>
      Raise (AttributeError "module 'datetime' has no attribute 'now'")
  end.

(** [<name>.timedelta(days=n)]: [timedelta] is an attribute of the module;
    the class has none of that name. *)
Definition datetime_timedelta (name : datetime_name) (days : Z)
  : result timedelta.t :=
  match name with
  | the_datetime_module => Ok (timedelta.mk days)
  | the_datetime_class =>
      Raise (AttributeError
        "type object 'datetime.datetime' has no attribute 'timedelta'")
  end.

(** ** app/routes/search_source_connectors_routes.py *)

Section Routes.

(** The exception [check_ownership] raises for a row that is missing or
    owned by someone else: app/utils/check_ownership.py is not among the
    sources. *)
Variable ownership_denied : exn.

(** Modelled from the spec: [check_ownership(session, Model, item_id,
    user)], not among the sources.  Every SearchSpace and
    SearchSourceConnector is owned by exactly one user; the call returns
    the row with that key when the user owns it, and raises otherwise. *)
Definition check_ownership {A : Type} (rows : list A) (id_of : A -> Z)
    (owner_of : A -> UUID) (item_id : Z) (user : User.t) : result A :=
  match find (fun r => (id_of r =? item_id)
                       && N.eqb (owner_of r) (User.id user)) rows with
  | Some r => Ok r
  | None => Raise ownership_denied
  end.

Definition connectors (w : World) : list SearchSourceConnector.t :=
  search_source_connectors (working (session w)).

Definition set_connectors (w : World) (cs : list SearchSourceConnector.t)
  : World :=
  set_session w
    (mkSession (persisted (session w))
               (with_search_source_connectors (working (session w)) cs)).

(** [await session.commit()] inside a handler. *)
Definition world_commit (w : World) : World * result unit :=
  let '(s, r) := commit (session w) in (set_session w s, r).

(** The [except] clauses shared by the create and update handlers
    (routes:65-85 and 166-186); [verb] is "create" or "update". *)
Definition connector_write_except {A : Type} (verb : string)
    (wr : World * result A) : World * result A :=
  let '(w, r) := wr in
  match r with
  | Ok a => (w, Ok a)
  | Raise (ValidationError m) =>
      (world_rollback w,
       Raise (HTTPException 422 ("Validation error: " ++ m)))
  | Raise (IntegrityError m) =>
      (world_rollback w,
       Raise (HTTPException 409
         ("Integrity error: A connector with this type already exists. "
          ++ m)))
  | Raise (HTTPException st d) =>
      (world_rollback w, Raise (HTTPException st d))
  | Raise e =>
      (world_rollback w,
       Raise (HTTPException 500
         ("Failed to " ++ verb ++ " search source connector: "
          ++ str_exn e)))
  end.

Definition already_exists (ct : SearchSourceConnectorType.t) : exn :=
  HTTPException 409
    ("A connector with type " ++ SearchSourceConnectorType.value ct
     ++ " already exists. Each user can have only one connector of each type.").

(** POST /search-source-connectors/ *)
Definition create_search_source_connector
    (connector : SearchSourceConnectorCreate.t) (w : World) (user : User.t)
  : World * result SearchSourceConnector.t :=
  connector_write_except "create"
    (let existing_connector :=
       find (fun c =>
               N.eqb (SearchSourceConnector.user_id c) (User.id user)
               && SearchSourceConnectorType.eqb
                    (SearchSourceConnector.connector_type c)
                    (SearchSourceConnectorCreate.connector_type connector))
            (connectors w) in
     match existing_connector with
     | Some _ =>
         (w, Raise (already_exists
                      (SearchSourceConnectorCreate.connector_type connector)))
     | None =>
         let db_connector :=
           SearchSourceConnector.mk
             (next_id (map SearchSourceConnector.id (connectors w)))
             (clock w)
             (SearchSourceConnectorCreate.name connector)
             (SearchSourceConnectorCreate.connector_type connector)
             (SearchSourceConnectorCreate.is_indexable connector)
             (SearchSourceConnectorCreate.last_indexed_at connector)
             (SearchSourceConnectorCreate.config connector)
             (User.id user) in
         let w1 := set_connectors w (connectors w ++ [db_connector]) in
         match world_commit w1 with
         | (w2, Ok _) => (w2, Ok db_connector)
         | (w2, Raise e) => (w2, Raise e)
         end
     end).

(** [for key, value in update_data.items(): setattr(db_connector, key,
    value)] *)
Definition apply_update (u : SearchSourceConnectorUpdate.t)
    (c : SearchSourceConnector.t) : SearchSourceConnector.t :=
  SearchSourceConnector.mk
    (SearchSourceConnector.id c)
    (SearchSourceConnector.created_at c)
    (match SearchSourceConnectorUpdate.name u with
     | Some v => v | None => SearchSourceConnector.name c end)
    (SearchSourceConnectorUpdate.connector_type u)
    (match SearchSourceConnectorUpdate.is_indexable u with
     | Some v => v | None => SearchSourceConnector.is_indexable c end)
    (match SearchSourceConnectorUpdate.last_indexed_at u with
     | Some v => v | None => SearchSourceConnector.last_indexed_at c end)
    (match SearchSourceConnectorUpdate.config u with
     | Some v => v | None => SearchSourceConnector.config c end)
    (SearchSourceConnector.user_id c).

(** The UPDATE a flush issues for a changed object: by primary key. *)
Definition replace_connector (c' : SearchSourceConnector.t)
    (cs : list SearchSourceConnector.t) : list SearchSourceConnector.t :=
  map (fun c => if SearchSourceConnector.id c =? SearchSourceConnector.id c'
                then c' else c) cs.

(** PUT /search-source-connectors/{connector_id} *)
Definition update_search_source_connector (connector_id : Z)
    (connector_update : SearchSourceConnectorUpdate.t) (w : World)
    (user : User.t) : World * result SearchSourceConnector.t :=
  connector_write_except "update"
    (match check_ownership (connectors w) SearchSourceConnector.id
             SearchSourceConnector.user_id connector_id user with
     | Raise e => (w, Raise e)
     | Ok db_connector =>
         let new_type :=
           SearchSourceConnectorUpdate.connector_type connector_update in
         let existing_connector :=
           if negb (SearchSourceConnectorType.eqb new_type
                      (SearchSourceConnector.connector_type db_connector))
           then find (fun c =>
                        N.eqb (SearchSourceConnector.user_id c) (User.id user)
                        && SearchSourceConnectorType.eqb
                             (SearchSourceConnector.connector_type c) new_type
                        && negb (SearchSourceConnector.id c =? connector_id))
                     (connectors w)
           else None in
         match existing_connector with
         | Some _ => (w, Raise (already_exists new_type))
         | None =>
             let db_connector' := apply_update connector_update db_connector in
             let w1 := set_connectors w
                         (replace_connector db_connector' (connectors w)) in
             match world_commit w1 with
             | (w2, Ok _) => (w2, Ok db_connector')
             | (w2, Raise e) => (w2, Raise e)
             end
         end
     end).

(** DELETE /search-source-connectors/{connector_id} *)
Definition delete_search_source_connector (connector_id : Z) (w : World)
    (user : User.t) : World * result string :=
  let '(w', r) :=
    match check_ownership (connectors w) SearchSourceConnector.id
            SearchSourceConnector.user_id connector_id user with
    | Raise e => (w, Raise e)
    | Ok db_connector =>
        let w1 := set_session w
                    (session_delete (session w)
                       (T_search_source_connectors,
                        SearchSourceConnector.id db_connector)) in
        match world_commit w1 with
        | (w2, Ok _) =>
            (w2, Ok "Search source connector deleted successfully")
        | (w2, Raise e) => (w2, Raise e)
        end
    end in
  match r with
  | Ok m => (w', Ok m)
  | Raise (HTTPException st d) => (w', Raise (HTTPException st d))
  | Raise e =>
      (world_rollback w',
       Raise (HTTPException 500
         ("Failed to delete search source connector: " ++ str_exn e)))
  end.

(** The window start the trigger reports (routes:244-253, repeated at
    281-290). *)
Definition start_date_of (connector : SearchSourceConnector.t) (w : World)
  : result string :=
  match SearchSourceConnector.last_indexed_at connector with
  | None => Ok "365 days ago"
  | Some last_indexed_at =>
      now <- datetime_now routes_datetime w ;;
      let today := datetime.date now in
      if date.eqb (datetime.date last_indexed_at) today
      then
        one_day <- datetime_timedelta routes_datetime 1 ;;
        yesterday <- date_sub today one_day ;;
        Ok (date.strftime_Ymd yesterday)
      else Ok (datetime.strftime_Ymd last_indexed_at)
  end.

(** POST /search-source-connectors/{connector_id}/index.  [None] for
    [background_tasks] is the parameter's default. *)
Definition index_connector_content (connector_id search_space_id : Z)
    (w : World) (user : User.t) (background_tasks : option (list Task))
  : World * option (list Task) * result IndexResponse :=
  let started (queued : Task) (text : string)
      (connector : SearchSourceConnector.t) (space : SearchSpace.t)
    : option (list Task) * result IndexResponse :=
    match start_date_of connector w with
    | Raise e => (background_tasks, Raise e)
    | Ok start_date =>
        match background_tasks with
        | Some tasks =>
            (Some (tasks ++ [queued]),
             now <- datetime_now routes_datetime w ;;
             Ok (mkIndexResponse true text
                   (SearchSourceConnector.connector_type connector)
                   (Some (SearchSpace.name space))
                   (Some start_date)
                   (Some (datetime.strftime_Ymd now))))
        | None =>
            (None,
             Ok (mkIndexResponse false "Background tasks not available"
                   (SearchSourceConnector.connector_type connector)
                   None None None))
        end
    end in
  let '(tasks, r) :=
    match check_ownership (connectors w) SearchSourceConnector.id
            SearchSourceConnector.user_id connector_id user with
    | Raise e => (background_tasks, Raise e)
    | Ok connector =>
        match check_ownership (searchspaces (working (session w)))
                SearchSpace.id SearchSpace.user_id search_space_id user with
        | Raise e => (background_tasks, Raise e)
        | Ok space =>
            match SearchSourceConnector.connector_type connector with
            | SearchSourceConnectorType.SLACK_CONNECTOR =>
                started (run_slack_indexing_task connector_id search_space_id)
                  "Slack indexing started in the background" connector space
            | SearchSourceConnectorType.NOTION_CONNECTOR =>
                started (run_notion_indexing_task connector_id search_space_id)
                  "Notion indexing started in the background" connector space
            | other =>
                (background_tasks,
                 Raise (HTTPException 400
                   ("Indexing not supported for connector type: "
                    ++ SearchSourceConnectorType.value other)))
            end
        end
    end in
  match r with
  | Ok response => (w, tasks, Ok response)
  | Raise (HTTPException st d) => (w, tasks, Raise (HTTPException st d))
  | Raise e =>
      (logger ERROR ("Failed to start indexing: " ++ str_exn e) w,
       tasks,
       Raise (HTTPException 500
         ("Failed to start indexing: " ++ str_exn e)))
  end.

End Routes.

(** ** The background indexing tasks (routes:332-418) *)

(** [index_slack_messages] and [index_notion_pages] live in
    app/tasks/connectors_indexing_tasks.py, which is not among the sources:
    an indexer is any function of the world, the connector, the search space
    and the [update_last_indexed] flag that ends in a later world and either
    returns [(documents_indexed, error_or_warning)] or raises. *)
Definition Indexer : Type :=
  World -> Z -> Z -> bool -> World * result (Z * option string).

(** [str(x)] of an optional message, as an f-string renders it. *)
Definition str_opt (m : option string) : string :=
  match m with Some s => s | None => "None" end.

(** [connector.last_indexed_at = value] *)
Definition set_last_indexed_at (connector : SearchSourceConnector.t)
    (value : option datetime.t) : SearchSourceConnector.t :=
  SearchSourceConnector.mk
    (SearchSourceConnector.id connector)
    (SearchSourceConnector.created_at connector)
    (SearchSourceConnector.name connector)
    (SearchSourceConnector.connector_type connector)
    (SearchSourceConnector.is_indexable connector)
    value
    (SearchSourceConnector.config connector)
    (SearchSourceConnector.user_id connector).

Definition update_connector_last_indexed (w : World) (connector_id : Z)
  : World :=
  let '(w', r) :=
    match find (fun c => SearchSourceConnector.id c =? connector_id)
               (connectors w) with
    | Some connector =>
        match datetime_now routes_datetime w with
        | Raise e => (w, Raise e)
        | Ok now =>
            let connector' := set_last_indexed_at connector (Some now) in
            let w1 := set_connectors w
                        (replace_connector connector' (connectors w)) in
            match world_commit w1 with
            | (w2, Ok _) =>
                (logger INFO ("Updated last_indexed_at for connector "
                              ++ str_int connector_id) w2, Ok tt)
            | (w2, Raise e) => (w2, Raise e)
            end
        end
    | None => (w, Ok tt)
    end in
  match r with
  | Ok _ => w'
  | Raise e =>
      world_rollback
        (logger ERROR ("Failed to update last_indexed_at for connector "
                       ++ str_int connector_id ++ ": " ++ str_exn e) w')
  end.

(** The condition of routes:381 and 412. *)
Definition indexing_was_successful (documents_indexed : Z)
    (error_or_warning : option string) : bool :=
  (documents_indexed >? 0)
  && match error_or_warning with
     | None => true
     | Some m => str_in "Indexed" m
     end.

(** The body shared by [run_slack_indexing] and [run_notion_indexing], which
    differ in the indexer they await and in the source named in the log. *)
Definition run_indexing (source : string) (indexer : Indexer) (w : World)
    (connector_id search_space_id : Z) : World :=
  match indexer w connector_id search_space_id false with
  | (w1, Ok (documents_indexed, error_or_warning)) =>
      if indexing_was_successful documents_indexed error_or_warning
      then
        let w2 := update_connector_last_indexed w1 connector_id in
        logger INFO (source ++ " indexing completed successfully: "
                     ++ str_int documents_indexed ++ " documents indexed") w2
      else
        logger ERROR (source ++ " indexing failed or no documents indexed: "
                      ++ str_opt error_or_warning) w1
  | (w1, Raise e) =>
      logger ERROR ("Error in background " ++ source ++ " indexing task: "
                    ++ str_exn e) w1
  end.

Section IndexingTasks.

Variables index_slack_messages index_notion_pages : Indexer.

Definition run_slack_indexing (w : World) (connector_id search_space_id : Z)
  : World :=
  run_indexing "Slack" index_slack_messages w connector_id search_space_id.

Definition run_notion_indexing (w : World) (connector_id search_space_id : Z)
  : World :=
  run_indexing "Notion" index_notion_pages w connector_id search_space_id.

End IndexingTasks.

(** ** app/routes/documents_routes.py *)

Section DocumentRoutes.

Variable ownership_denied : exn.

(** POST /documents/ *)
Definition create_documents (request : DocumentsCreate.t) (w : World)
    (user : User.t) (fastapi_background_tasks : list Task)
  : World * list Task * result string :=
  let '(w', tasks, r) :=
    match check_ownership ownership_denied
            (searchspaces (working (session w)))
            SearchSpace.id SearchSpace.user_id
            (DocumentsCreate.search_space_id request) user with
    | Raise e => (w, fastapi_background_tasks, Raise e)
    | Ok _ =>
        let queued : result (list Task) :=
          match DocumentsCreate.document_type request with
          | DocumentType.EXTENSION =>
              Ok (fastapi_background_tasks
                  ++ map (fun individual_document =>
                            add_extension_received_document
                              individual_document
                              (DocumentsCreate.search_space_id request))
                         (DocumentsCreate.content request))
          | DocumentType.CRAWLED_URL =>
              Ok (fastapi_background_tasks
                  ++ map (fun url =>
                            add_crawled_url_document url
                              (DocumentsCreate.search_space_id request))
                         (DocumentsCreate.content request))
          | _ => Raise (HTTPException 400 "Invalid document type")
          end in
        match queued with
        | Raise e => (w, fastapi_background_tasks, Raise e)
        | Ok tasks =>
            match world_commit w with
            | (w1, Ok _) => (w1, tasks, Ok "Documents processed successfully")
            | (w1, Raise e) => (w1, tasks, Raise e)
            end
        end
    end in
  match r with
  | Ok m => (w', tasks, Ok m)
  | Raise (HTTPException st d) => (w', tasks, Raise (HTTPException st d))
  | Raise e =>
      (world_rollback w', tasks,
       Raise (HTTPException 500
         ("Failed to process documents: " ++ str_exn e)))
  end.

(** [select(Document).join(SearchSpace).filter(Document.id == document_id,
    SearchSpace.user_id == user.id)], then [.scalars().first()], for a
    [document_id] that fits the [Integer] column it is compared with. *)
Definition select_document (w : World) (document_id : Z) (user : User.t)
  : option Document.t :=
  find (fun d =>
          (Document.id d =? document_id)
          && existsb (fun sp =>
                        (SearchSpace.id sp =? Document.search_space_id d)
                        && N.eqb (SearchSpace.user_id sp) (User.id user))
                     (searchspaces (working (session w))))
       (documents (working (session w))).

Definition not_found (document_id : Z) : exn :=
  HTTPException 404
    ("Document with id " ++ str_int document_id ++ " not found").

Definition to_DocumentRead (d : Document.t) : DocumentRead.t :=
  DocumentRead.mk (Document.id d) (Document.title d)
    (Document.document_type d) (Document.document_metadata d)
    (Document.content d) (Document.created_at d)
    (Document.search_space_id d).

(** GET /documents/{document_id}: its only clause is [except Exception]. *)
Definition read_document (document_id : Z) (w : World) (user : User.t)
  : result DocumentRead.t :=
  let body : result DocumentRead.t :=
    match select_document w document_id user with
    | None => Raise (not_found document_id)
    | Some document => Ok (to_DocumentRead document)
    end in
  match body with
  | Ok d => Ok d
  | Raise e =>
      Raise (HTTPException 500 ("Failed to fetch document: " ++ str_exn e))
  end.

Definition apply_document_update (u : DocumentUpdate.t) (d : Document.t)
  : Document.t :=
  Document.mk
    (Document.id d)
    (Document.created_at d)
    (match DocumentUpdate.title u with
     | Some v => v | None => Document.title d end)
    (match DocumentUpdate.document_type u with
     | Some v => v | None => Document.document_type d end)
    (match DocumentUpdate.document_metadata u with
     | Some v => v | None => Document.document_metadata d end)
    (match DocumentUpdate.content u with
     | Some v => v | None => Document.content d end)
    (Document.embedding d)
    (match DocumentUpdate.search_space_id u with
     | Some v => v | None => Document.search_space_id d end).

Definition set_documents (w : World) (ds : list Document.t) : World :=
  set_session w
    (mkSession (persisted (session w))
               (with_documents (working (session w)) ds)).

(** PUT /documents/{document_id} *)
Definition update_document (document_id : Z)
    (document_update : DocumentUpdate.t) (w : World) (user : User.t)
  : World * result DocumentRead.t :=
  let '(w', r) :=
    match select_document w document_id user with
    | None => (w, Raise (not_found document_id))
    | Some db_document =>
        let db_document' := apply_document_update document_update db_document in
        let w1 :=
          set_documents w
            (map (fun d => if Document.id d =? Document.id db_document'
                           then db_document' else d)
                 (documents (working (session w)))) in
        match world_commit w1 with
        | (w2, Ok _) => (w2, Ok (to_DocumentRead db_document'))
        | (w2, Raise e) => (w2, Raise e)
        end
    end in
  match r with
  | Ok d => (w', Ok d)
  | Raise (HTTPException st d) => (w', Raise (HTTPException st d))
  | Raise e =>
      (world_rollback w',
       Raise (HTTPException 500 ("Failed to update document: " ++ str_exn e)))
  end.

(** DELETE /documents/{document_id} *)
Definition delete_document (document_id : Z) (w : World) (user : User.t)
  : World * result string :=
  let '(w', r) :=
    match select_document w document_id user with
    | None => (w, Raise (not_found document_id))
    | Some document =>
        let w1 := set_session w
                    (session_delete (session w)
                       (T_documents, Document.id document)) in
        match world_commit w1 with
        | (w2, Ok _) => (w2, Ok "Document deleted successfully")
        | (w2, Raise e) => (w2, Raise e)
        end
    end in
  match r with
  | Ok m => (w', Ok m)
  | Raise (HTTPException st d) => (w', Raise (HTTPException st d))
  | Raise e =>
      (world_rollback w',
       Raise (HTTPException 500 ("Failed to delete document: " ++ str_exn e)))
  end.

End DocumentRoutes.

(** ** The embedding columns (db.py:91 and 101) *)

(** app/config.py is not among the sources: the configuration object is a
    parameter, read for [config.embedding_model_instance.dimension]. *)
Module config.
Record t : Type := mk { embedding_model_instance_dimension : Z }.
End config.

(** pgvector's column type [Vector(dim)]. *)
Record VectorType : Type := Vector_of { dim : Z }.

(** [Document.embedding = Column(Vector(config.embedding_model_instance.dimension))] *)
Definition Document_embedding (cfg : config.t) : VectorType :=
  Vector_of (config.embedding_model_instance_dimension cfg).

(** [Chunk.embedding = Column(Vector(config.embedding_model_instance.dimension))] *)
Definition Chunk_embedding (cfg : config.t) : VectorType :=
  Vector_of (config.embedding_model_instance_dimension cfg).

(** Binding a value to a [Vector(dim)] column: NULL passes (the columns are
    nullable), a vector of another length is refused. *)
Definition bind_vector (ty : VectorType) (value : option Vector)
  : result (option Vector) :=
  match value with
  | None => Ok None
  | Some v =>
      if Z.of_nat (List.length v) =? dim ty then Ok (Some v)
      else Raise (ValueError
             ("expected " ++ str_int (dim ty) ++ " dimensions, not "
              ++ str_int (Z.of_nat (List.length v))))
  end.

Definition with_chunks (st : Store) (cs : list Chunk.t) : Store :=
  mkStore (searchspaces st) (documents st) cs (podcasts st) (chats st)
          (search_source_connectors st).

(** [session.add(document)] followed by the flush that binds its columns. *)
Definition add_document (cfg : config.t) (s : Session) (d : Document.t)
  : result Session :=
  _ <- bind_vector (Document_embedding cfg) (Document.embedding d) ;;
  Ok (mkSession (persisted s)
        (with_documents (working s) (documents (working s) ++ [d]))).

(** [session.add(chunk)] followed by the flush that binds its columns. *)
Definition add_chunk (cfg : config.t) (s : Session) (c : Chunk.t)
  : result Session :=
  _ <- bind_vector (Chunk_embedding cfg) (Chunk.embedding c) ;;
  Ok (mkSession (persisted s)
        (with_chunks (working s) (chunks (working s) ++ [c]))).

Definition empty_store : Store := mkStore [] [] [] [] [] [].

(** The sessions the writes of this development lead to from an empty
    database. *)
Inductive reachable (cfg : config.t) : Session -> Prop :=
| reach_empty : reachable cfg (mkSession empty_store empty_store)
| reach_add_document s d s' :
    reachable cfg s -> add_document cfg s d = Ok s' -> reachable cfg s'
| reach_add_chunk s c s' :
    reachable cfg s -> add_chunk cfg s c = Ok s' -> reachable cfg s'
| reach_add_search_space s sp :
    reachable cfg s ->
    reachable cfg
      (mkSession (persisted s)
         (mkStore (searchspaces (working s) ++ [sp]) (documents (working s))
                  (chunks (working s)) (podcasts (working s))
                  (chats (working s)) (search_source_connectors (working s))))
| reach_commit s :
    reachable cfg s -> reachable cfg (fst (commit s))
| reach_rollback s :
    reachable cfg s -> reachable cfg (rollback s)
| reach_delete s r :
    reachable cfg s -> reachable cfg (session_delete s r)
| reach_update_document w id u user :
    reachable cfg (session w) ->
    reachable cfg (session (fst (update_document id u w user)))
| reach_delete_document w id user :
    reachable cfg (session w) ->
    reachable cfg (session (fst (delete_document id w user))).

(** Every stored embedding of the store has the dimension [n]. *)
Definition embeddings_have_dimension (n : Z) (st : Store) : Prop :=
  (forall d v, In d (documents st) -> Document.embedding d = Some v ->
               Z.of_nat (List.length v) = n)
  /\ (forall c v, In c (chunks st) -> Chunk.embedding c = Some v ->
                  Z.of_nat (List.length v) = n).

(** ** The listing and single-row reads *)

(** [.offset(skip).limit(limit)] as PostgreSQL runs it on the selected rows.
    The two values are sent as 64-bit integers: one that does not fit is
    refused by the driver.  A negative OFFSET or LIMIT is an error of the
    statement, the OFFSET checked first. *)
Definition offset_limit {A : Type} (skip limit : Z) (rows : list A)
  : result (list A) :=
  if negb (fits_BigInteger skip && fits_BigInteger limit)
  then Raise (RuntimeError "value out of int64 range")
  else if skip <? 0 then Raise (RuntimeError "OFFSET must not be negative")
  else if limit <? 0 then Raise (RuntimeError "LIMIT must not be negative")
  else Ok (firstn (Z.to_nat limit) (skipn (Z.to_nat skip) rows)).

(** The rows [select(SearchSourceConnector).filter(SearchSourceConnector
    .user_id == user.id)] selects. *)
Definition connectors_of (w : World) (user : User.t)
  : list SearchSourceConnector.t :=
  filter (fun c => N.eqb (SearchSourceConnector.user_id c) (User.id user))
         (connectors w).

(** GET /search-source-connectors/{connector_id} (routes:109-124) *)
Definition read_search_source_connector (ownership_denied : exn)
    (connector_id : Z) (w : World) (user : User.t)
  : result SearchSourceConnector.t :=
  match check_ownership ownership_denied (connectors w)
          SearchSourceConnector.id SearchSourceConnector.user_id
          connector_id user with
  | Ok connector => Ok connector
  | Raise (HTTPException st d) => Raise (HTTPException st d)
  | Raise e =>
      Raise (HTTPException 500
        ("Failed to fetch search source connector: " ++ str_exn e))
  end.

(** The rows [select(Document).join(SearchSpace).filter(SearchSpace.user_id
    == user.id)] selects: the documents whose search space is the user's. *)
Definition documents_of (w : World) (user : User.t) : list Document.t :=
  filter (fun d =>
            existsb (fun sp =>
                       (SearchSpace.id sp =? Document.search_space_id d)
                       && N.eqb (SearchSpace.user_id sp) (User.id user))
                    (searchspaces (working (session w))))
         (documents (working (session w))).

Section Listings.

(** Neither listing has an ORDER BY: the order in which the selected rows
    come is the database's.  [scan] is that order, a rearrangement of the
    selected rows; OFFSET and LIMIT cut the page out of it. *)
Variable scan : forall A : Type, list A -> list A.

(** GET /search-source-connectors/ (routes:87-107); the route's defaults are
    [skip = 0] and [limit = 100]. *)
Definition read_search_source_connectors (skip limit : Z) (w : World)
    (user : User.t) : result (list SearchSourceConnector.t) :=
  match offset_limit skip limit (scan _ (connectors_of w user)) with
  | Ok rows => Ok rows
  | Raise e =>
      Raise (HTTPException 500
        ("Failed to fetch search source connectors: " ++ str_exn e))
  end.

(** GET /documents/ (documents_routes:111-146); the route's defaults are
    [skip = 0] and [limit = 300]. *)
Definition read_documents (skip limit : Z) (w : World) (user : User.t)
  : result (list DocumentRead.t) :=
  match offset_limit skip limit (scan _ (documents_of w user)) with
  | Ok db_documents => Ok (map to_DocumentRead db_documents)
  | Raise e =>
      Raise (HTTPException 500 ("Failed to fetch documents: " ++ str_exn e))
  end.

End Listings.

(** ** The file upload (documents_routes:60-109) *)

(** An uploaded file: its name and its content. *)
Module UploadFile.
Record t : Type := mk { filename : string; file : string }.
End UploadFile.

(** The call the upload queues, and a queue that holds it beside the other
    calls. *)
Inductive UploadTask : Type :=
| add_received_file_document (filename : string)
    (unstructured_processed_elements : list string) (search_space_id : Z).

Definition AnyTask : Type := (Task + UploadTask)%type.

Section FileUpload.

Variable ownership_denied : exn.

(** [await UnstructuredLoader(file=file.file, ...).aload()], a call to the
    Unstructured service: the elements of the file, or a failure. *)
Variable aload : UploadFile.t -> result (list string).

(** The loop over the files (documents_routes:74-98): a file that fails to
    load ends it with 422; the calls queued for the files before it stay
    queued. *)
Fixpoint upload_files (files : list UploadFile.t) (search_space_id : Z)
    (tasks : list AnyTask) : list AnyTask * result unit :=
  match files with
  | [] => (tasks, Ok tt)
  | file :: rest =>
      match aload file with
      | Ok unstructured_processed_elements =>
          upload_files rest search_space_id
            (tasks ++ [inr (add_received_file_document
                              (UploadFile.filename file)
                              unstructured_processed_elements
                              search_space_id)])
      | Raise e =>
          (tasks,
           Raise (HTTPException 422
             ("Failed to process file " ++ UploadFile.filename file ++ ": "
              ++ str_exn e)))
      end
  end.

(** POST /documents/fileupload *)
Definition create_documents_fileupload (files : list UploadFile.t)
    (search_space_id : Z) (w : World) (user : User.t)
    (fastapi_background_tasks : list AnyTask)
  : World * list AnyTask * result string :=
  let '(w', tasks, r) :=
    match check_ownership ownership_denied
            (searchspaces (working (session w)))
            SearchSpace.id SearchSpace.user_id search_space_id user with
    | Raise e => (w, fastapi_background_tasks, Raise e)
    | Ok _ =>
        match files with
        | [] =>
            (w, fastapi_background_tasks,
             Raise (HTTPException 400 "No files provided"))
        | _ =>
            match upload_files files search_space_id
                    fastapi_background_tasks with
            | (tasks, Raise e) => (w, tasks, Raise e)
            | (tasks, Ok _) =>
                match world_commit w with
                | (w1, Ok _) =>
                    (w1, tasks, Ok "Files added for processing successfully")
                | (w1, Raise e) => (w1, tasks, Raise e)
                end
            end
        end
    end in
  match r with
  | Ok m => (w', tasks, Ok m)
  | Raise (HTTPException st d) => (w', tasks, Raise (HTTPException st d))
  | Raise e =>
      (world_rollback w', tasks,
       Raise (HTTPException 500
         ("Failed to process documents: " ++ str_exn e)))
  end.

End FileUpload.

(** ** Vocabulary of the statements *)

(** The checkpoint of connector [connector_id] in a store: [None] when the
    store has no such connector, [Some None] when it was never indexed. *)
Definition checkpoint (st : Store) (connector_id : Z)
  : option (option datetime.t) :=
  option_map SearchSourceConnector.last_indexed_at
    (find (fun c => SearchSourceConnector.id c =? connector_id)
          (search_source_connectors st)).

(** What the database guarantees of a connectors table: the primary key and
    the unique constraint on [connector_type] (db.py:70 and 134). *)
Definition connectors_ok (cs : list SearchSourceConnector.t) : Prop :=
  NoDup (map SearchSourceConnector.id cs)
  /\ nodupb SearchSourceConnectorType.eqb
       (map SearchSourceConnector.connector_type cs) = true.

(** The indexer, called with [update_last_indexed=False] (routes:377 and
    408), ended in world [w1] without touching the connectors table and with
    no uncommitted change to it: persisted and in the unit of work, the table
    is the one persisted in [w]. *)
Definition leaves_connectors (w w1 : World) : Prop :=
  search_source_connectors (persisted (session w1))
    = search_source_connectors (persisted (session w))
  /\ search_source_connectors (working (session w1))
     = search_source_connectors (persisted (session w)).

(** The run reports at least one document and either no message or a message
    that contains "Indexed". *)
Definition reports_success (r : result (Z * option string)) : Prop :=
  exists n m,
    r = Ok (n, m) /\ n >= 1
    /\ (m = None \/ exists s, m = Some s /\ str_in "Indexed" s = true).

(** One connector of each type per owner. *)
Definition one_per_owner_and_type (cs : list SearchSourceConnector.t) : Prop :=
  forall c1 c2,
    In c1 cs -> In c2 cs ->
    SearchSourceConnector.user_id c1 = SearchSourceConnector.user_id c2 ->
    SearchSourceConnector.connector_type c1
      = SearchSourceConnector.connector_type c2 ->
    c1 = c2.

(** The query of the three single-document handlers finds nothing when no
    document with that id lies in a search space of the caller. *)
Definition no_document_for (w : World) (document_id : Z) (user : User.t)
  : Prop :=
  forall d sp,
    In d (documents (working (session w))) ->
    In sp (searchspaces (working (session w))) ->
    Document.id d = document_id ->
    SearchSpace.id sp = Document.search_space_id d ->
    SearchSpace.user_id sp <> User.id user.

(** The exception the class [datetime] raises for [timedelta]. *)
Definition no_timedelta : exn :=
  AttributeError "type object 'datetime.datetime' has no attribute 'timedelta'".

(** The three parts of the checkpoint rule for one run. *)
Definition checkpoint_rule (indexer : Indexer)
    (run : World -> Z -> Z -> World) (w : World)
    (connector_id search_space_id : Z) : Prop :=
  let w1 := fst (indexer w connector_id search_space_id false) in
  let r := snd (indexer w connector_id search_space_id false) in
  let before := persisted (session w) in
  let after := persisted (session (run w connector_id search_space_id)) in
  (reports_success r ->
   checkpoint after connector_id = Some (Some (clock w1)))
  /\ (~ reports_success r ->
      search_source_connectors after = search_source_connectors before)
  /\ (checkpoint after connector_id <> checkpoint before connector_id
      <-> reports_success r).

(** The invariant, of the persisted table and of the unit of work. *)
Definition session_ok (s : Session) : Prop :=
  one_per_owner_and_type (search_source_connectors (persisted s))
  /\ one_per_owner_and_type (search_source_connectors (working s)).

(** The rows not yet doomed: what the fuel is measured against. *)
Definition pending (rows : list (Ref * option Ref)) (doomed : list Ref)
  : list (Ref * option Ref) :=
  filter (fun row => negb (ref_mem (fst row) doomed)) rows.

(** The rows [session.delete] takes with a row. *)
Definition doomed_with (st : Store) (r : Ref) : list Ref :=
  cascade (List.length (store_rows st)) (store_rows st) [r].

(** Every stored embedding of the session has the configured dimension. *)
Definition session_embeddings_ok (cfg : config.t) (s : Session) : Prop :=
  embeddings_have_dimension (config.embedding_model_instance_dimension cfg)
    (persisted s)
  /\ embeddings_have_dimension (config.embedding_model_instance_dimension cfg)
       (working s).

(** ** A small database used in the examples

    Two users; Alice owns search space 1 with two documents, three chunks, a
    podcast and a chat, and two connectors; Bob owns search space 2 with one
    document and one chunk, and a Notion connector indexed this morning. *)

Definition on_day (y m d h : Z) : datetime.t :=
  datetime.mk (date.mk y m d) h 0 0 0.

Definition this_morning : datetime.t := on_day 2025 3 7 9.
Definition this_noon : datetime.t := on_day 2025 3 7 12.
Definition last_week : datetime.t := on_day 2025 2 28 18.

Definition alice : User.t := User.mk 1%N.
Definition bob : User.t := User.mk 2%N.

Definition demo_slack : SearchSourceConnector.t :=
  SearchSourceConnector.mk 1 last_week "slack"
    SearchSourceConnectorType.SLACK_CONNECTOR true None "{}" 1%N.

Definition demo_serper : SearchSourceConnector.t :=
  SearchSourceConnector.mk 2 last_week "serper"
    SearchSourceConnectorType.SERPER_API false None "{}" 1%N.

Definition demo_notion : SearchSourceConnector.t :=
  SearchSourceConnector.mk 3 last_week "notion"
    SearchSourceConnectorType.NOTION_CONNECTOR true (Some this_morning)
    "{}" 2%N.

Definition demo_store : Store :=
  mkStore
    [ SearchSpace.mk 1 last_week "research" None 1%N;
      SearchSpace.mk 2 last_week "notes" (Some "private") 2%N ]
    [ Document.mk 1 last_week "a" DocumentType.FILE None "alpha"
        (Some [1%float; 0%float; 0%float]) 1;
      Document.mk 2 last_week "b" DocumentType.CRAWLED_URL None "beta"
        (Some [0%float; 1%float; 0%float]) 1;
      Document.mk 3 last_week "c" DocumentType.EXTENSION None "gamma" None 2 ]
    [ Chunk.mk 1 last_week "al" (Some [1%float; 0%float; 0%float]) 1;
      Chunk.mk 2 last_week "pha" (Some [0%float; 0%float; 1%float]) 1;
      Chunk.mk 3 last_week "be" None 2;
      Chunk.mk 4 last_week "gamma" (Some [1%float; 1%float; 0%float]) 3 ]
    [ Podcast.mk 1 last_week "weekly" false "" "" 1 ]
    [ Chat.mk 1 last_week ChatType.GENERAL "hello" None "[]" 1 ]
    [ demo_slack; demo_serper; demo_notion ].

Definition demo_session : Session := mkSession demo_store demo_store.

Definition demo_world : World := mkWorld demo_session this_noon [].

(** The exception used for [check_ownership] in the examples. *)
Definition demo_denied : exn := HTTPException 404 "Not found".

(** An indexer that takes an hour, indexes three documents and reports no
    message. *)
Definition slow_indexer : Indexer :=
  fun w _ _ _ =>
    (mkWorld (session w) (on_day 2025 3 7 13) (log w), Ok (3, None)).

(** An indexer whose fetch fails at once. *)
Definition failing_indexer : Indexer :=
  fun w _ _ _ => (w, Ok (0, Some "Failed to get Slack channels")).

(** An indexer that raises. *)
Definition raising_indexer : Indexer :=
  fun w _ _ _ => (w, Raise (RuntimeError "connection reset")).

(** A configuration whose embedding model has three dimensions, a document
    that fits it and one that does not. *)
Definition demo_config : config.t := config.mk 3.

Definition demo_document : Document.t :=
  Document.mk 1 last_week "a" DocumentType.FILE None "alpha"
    (Some [1%float; 0%float; 0%float]) 1.

Definition flat_document : Document.t :=
  Document.mk 2 last_week "b" DocumentType.FILE None "beta"
    (Some [1%float; 0%float]) 1.

Definition empty_session : Session := mkSession empty_store empty_store.

Definition one_document_session : Session :=
  mkSession empty_store (mkStore [] [demo_document] [] [] [] []).

(** A loader that fails on an empty file and otherwise yields the content
    as one element, and three uploads. *)
Definition demo_aload (f : UploadFile.t) : result (list string) :=
  if String.eqb (UploadFile.file f) "" then Raise (ValueError "empty file")
  else Ok [UploadFile.file f].

Definition notes_txt : UploadFile.t := UploadFile.mk "notes.txt" "hello".
Definition blank_txt : UploadFile.t := UploadFile.mk "blank.txt" "".
Definition todo_txt : UploadFile.t := UploadFile.mk "todo.txt" "buy milk".

(** The task a loaded file is queued as. *)
Definition upload_task (search_space_id : Z)
    (loaded : UploadFile.t * list string) : AnyTask :=
  inr (add_received_file_document (UploadFile.filename (fst loaded))
         (snd loaded) search_space_id).

(** The session after a commit that succeeds. *)
Definition committed (w : World) : World :=
  set_session w (mkSession (working (session w)) (working (session w))).

(** The rows below [root] in the store: [root] itself and, step by step,
    every row whose foreign key points to one of them through a cascading
    relationship. *)
Inductive descends (st : Store) (root : Ref) : Ref -> Prop :=
| descends_root : descends st root root
| descends_child key parent :
    descends st root parent ->
    In (key, Some parent) (store_rows st) ->
    cascades_to (fst parent) (fst key) = true ->
    descends st root key.

(** The primary keys of the store: no key twice in a table. *)
Definition primary_keys_ok (st : Store) : Prop :=
  NoDup (map SearchSpace.id (searchspaces st))
  /\ NoDup (map Document.id (documents st))
  /\ NoDup (map Chunk.id (chunks st))
  /\ NoDup (map Podcast.id (podcasts st))
  /\ NoDup (map Chat.id (chats st))
  /\ NoDup (map SearchSourceConnector.id (search_source_connectors st)).

(** A chunk belongs to search space [sid] through its document. *)
Definition chunk_in_space (st : Store) (sid : Z) (c : Chunk.t) : bool :=
  existsb (fun d => (Document.id d =? Chunk.document_id c)
                    && (Document.search_space_id d =? sid))
          (documents st).

(** The row POST /search-source-connectors/ builds from the request
    (routes:60): the next key, the creation time, the request's attributes
    and the caller as owner. *)
Definition new_connector (connector : SearchSourceConnectorCreate.t)
    (w : World) (user : User.t) : SearchSourceConnector.t :=
  SearchSourceConnector.mk
    (next_id (map SearchSourceConnector.id (connectors w)))
    (clock w)
    (SearchSourceConnectorCreate.name connector)
    (SearchSourceConnectorCreate.connector_type connector)
    (SearchSourceConnectorCreate.is_indexable connector)
    (SearchSourceConnectorCreate.last_indexed_at connector)
    (SearchSourceConnectorCreate.config connector)
    (User.id user).

(** * Properties *)

(** ** The date and string primitives on examples *)

Example fromordinal_leap :
  date_sub (date.mk 2024 3 1) (timedelta.mk 1) = Ok (date.mk 2024 2 29).
Proof. reflexivity. Qed.

Example fromordinal_new_year :
  date_sub (date.mk 2025 1 1) (timedelta.mk 1) = Ok (date.mk 2024 12 31).
Proof. reflexivity. Qed.

Example strftime_example :
  date.strftime_Ymd (date.mk 2025 3 7) = "2025-03-07".
Proof. reflexivity. Qed.

Example str_in_examples :
  str_in "Indexed" "Indexed 3 pages, 1 failed" = true /\
  str_in "Indexed" "Failed: indexed nothing" = false /\
  str_in "Indexed" "" = false.
Proof. repeat split. Qed.

(** ** Shared facts about queries *)

Lemma find_none_of_all_false {A : Type} (f : A -> bool) (l : list A) :
  (forall x, In x l -> f x = false) -> find f l = None.
Proof.
  induction l as [|a l IH]; intros H; simpl; [reflexivity|].
  rewrite (H a (or_introl eq_refl)). apply IH.
  intros x Hx. apply H. now right.
Qed.

Lemma date_eqb_eq (a b : date.t) : date.eqb a b = true <-> a = b.
Proof.
  destruct a as [y m d], b as [y' m' d']; unfold date.eqb; simpl.
  rewrite !andb_true_iff, !Z.eqb_eq. split.
  - intros [[-> ->] ->]. reflexivity.
  - intros H. inversion H. auto.
Qed.

Lemma date_eqb_neq (a b : date.t) : date.eqb a b = false <-> a <> b.
Proof.
  rewrite <- date_eqb_eq. destruct (date.eqb a b); split; congruence.
Qed.

Lemma connector_type_eqb_eq (a b : SearchSourceConnectorType.t) :
  SearchSourceConnectorType.eqb a b = true <-> a = b.
Proof.
  unfold SearchSourceConnectorType.eqb.
  destruct (SearchSourceConnectorType.eq_dec a b); split; congruence.
Qed.

(** A row [check_ownership] returns is a row of the table, with the key asked
    for and owned by the caller. *)
Lemma check_ownership_sound {A : Type} (rows : list A)
    (id_of : A -> Z) (owner_of : A -> UUID) (item_id : Z) (user : User.t)
    (r : A) :
  find (fun x => (id_of x =? item_id)
                 && N.eqb (owner_of x) (User.id user)) rows = Some r ->
  In r rows /\ id_of r = item_id /\ owner_of r = User.id user.
Proof.
  intros H. apply find_some in H. destruct H as [Hin H].
  apply andb_true_iff in H. destruct H as [H1 H2].
  apply Z.eqb_eq in H1. apply N.eqb_eq in H2. auto.
Qed.

(** ** Documents routes: the status of a missing document *)

Lemma select_document_none (w : World) (document_id : Z) (user : User.t) :
  no_document_for w document_id user ->
  select_document w document_id user = None.
Proof.
  intros H. unfold select_document. apply find_none_of_all_false.
  intros d Hd. destruct (Document.id d =? document_id) eqn:E; [|reflexivity].
  apply Z.eqb_eq in E. simpl.
  destruct (existsb _ _) eqn:Ex; [|reflexivity].
  apply existsb_exists in Ex. destruct Ex as [sp [Hsp Hc]].
  apply andb_true_iff in Hc. destruct Hc as [H1 H2].
  apply Z.eqb_eq in H1. apply N.eqb_eq in H2.
  exfalso. exact (H d sp Hd Hsp E H1 H2).
Qed.

(** C10: for a document id, a value of the key column's [Integer] type, that
    does not exist or is not owned by the caller, GET /documents/{id}
    answers 500 (the 404 raised inside is caught by [except Exception] and
    wrapped), while PUT and DELETE answer 404 and leave the world as it
    was. *)
Theorem C10_missing_document_statuses
    (w : World) (document_id : Z) (user : User.t) (u : DocumentUpdate.t) :
  fits_Integer document_id = true ->
  no_document_for w document_id user ->
  read_document document_id w user
    = Raise (HTTPException 500
        ("Failed to fetch document: "
         ++ str_exn (HTTPException 404
              ("Document with id " ++ str_int document_id ++ " not found"))))
  /\ update_document document_id u w user
     = (w, Raise (HTTPException 404
             ("Document with id " ++ str_int document_id ++ " not found")))
  /\ delete_document document_id w user
     = (w, Raise (HTTPException 404
             ("Document with id " ++ str_int document_id ++ " not found"))).
Proof.
  intros _ H. apply select_document_none in H.
  unfold read_document, update_document, delete_document, not_found.
  rewrite H. repeat split.
Qed.

Lemma C10_missing_document_statuses_witness :
  fits_Integer 3 = true
  /\ no_document_for demo_world 3 alice
  /\ read_document 3 demo_world alice
     = Raise (HTTPException 500
         "Failed to fetch document: 404: Document with id 3 not found")
  /\ snd (delete_document 3 demo_world alice)
     = Raise (HTTPException 404 "Document with id 3 not found").
Proof.
  assert (H : no_document_for demo_world 3 alice).
  { intros d sp Hd Hsp Hid Hfk. simpl in Hd, Hsp.
    destruct Hd as [<-|[<-|[<-|[]]]]; simpl in Hid; try discriminate.
    destruct Hsp as [<-|[<-|[]]]; simpl in *; discriminate. }
  split; [reflexivity|]. split; [exact H|].
  destruct (C10_missing_document_statuses demo_world 3 alice
              (DocumentUpdate.mk None None None None None) eq_refl H)
    as [Hr [_ Hd]].
  split; [exact Hr|]. rewrite Hd. reflexivity.
Defined.

(** ** Documents routes: document types that cannot be created *)

(** C9: a create-documents request whose type is neither EXTENSION nor
    CRAWLED_URL schedules no ingestion task, and, once the search space is
    the caller's, fails with status 400 "Invalid document type" leaving the
    world as it was. *)
Theorem C9_invalid_document_type
    (denied : exn) (request : DocumentsCreate.t) (w : World) (user : User.t)
    (tasks : list Task) :
  DocumentsCreate.document_type request <> DocumentType.EXTENSION ->
  DocumentsCreate.document_type request <> DocumentType.CRAWLED_URL ->
  snd (fst (create_documents denied request w user tasks)) = tasks
  /\ forall sp,
       check_ownership denied (searchspaces (working (session w)))
         SearchSpace.id SearchSpace.user_id
         (DocumentsCreate.search_space_id request) user = Ok sp ->
       create_documents denied request w user tasks
       = (w, tasks, Raise (HTTPException 400 "Invalid document type")).
Proof.
  intros Hext Hurl. unfold create_documents.
  destruct (check_ownership denied _ _ _ _ user) as [sp|e].
  - destruct (DocumentsCreate.document_type request); try congruence;
      (split; [reflexivity | intros sp' _; reflexivity]).
  - split; [destruct e; reflexivity | intros sp' H; discriminate H].
Qed.

Lemma C9_invalid_document_type_witness :
  create_documents demo_denied
    (DocumentsCreate.mk DocumentType.FILE ["report.pdf"] 1)
    demo_world alice []
  = (demo_world, [], Raise (HTTPException 400 "Invalid document type")).
Proof.
  refine (proj2 (C9_invalid_document_type demo_denied
                   (DocumentsCreate.mk DocumentType.FILE ["report.pdf"] 1)
                   demo_world alice [] _ _) _ _);
    [discriminate | discriminate | reflexivity].
Defined.

(** ** Indexing trigger: connector types without an indexer *)

(** C8: for a connector of the caller whose type is neither SLACK_CONNECTOR
    nor NOTION_CONNECTOR the trigger queues no task and leaves the session,
    hence the connector and its last_indexed_at, as it was; once the search
    space is the caller's too, it fails with status 400. *)
Theorem C8_unsupported_connector_type
    (denied : exn) (connector_id search_space_id : Z) (w : World)
    (user : User.t) (background_tasks : option (list Task))
    (connector : SearchSourceConnector.t) :
  check_ownership denied (connectors w) SearchSourceConnector.id
    SearchSourceConnector.user_id connector_id user = Ok connector ->
  SearchSourceConnector.connector_type connector
    <> SearchSourceConnectorType.SLACK_CONNECTOR ->
  SearchSourceConnector.connector_type connector
    <> SearchSourceConnectorType.NOTION_CONNECTOR ->
  let out := index_connector_content denied connector_id search_space_id w
               user background_tasks in
  snd (fst out) = background_tasks
  /\ session (fst (fst out)) = session w
  /\ forall space,
       check_ownership denied (searchspaces (working (session w)))
         SearchSpace.id SearchSpace.user_id search_space_id user = Ok space ->
       out = (w, background_tasks,
              Raise (HTTPException 400
                ("Indexing not supported for connector type: "
                 ++ SearchSourceConnectorType.value
                      (SearchSourceConnector.connector_type connector)))).
Proof.
  intros Hc Hslack Hnotion out. subst out. unfold index_connector_content.
  rewrite Hc.
  destruct (check_ownership denied (searchspaces _) _ _ _ user) as [sp|e].
  - destruct (SearchSourceConnector.connector_type connector);
      try congruence;
      (split; [reflexivity | split; [reflexivity | intros s _; reflexivity]]).
  - split; [destruct e; reflexivity|].
    split; [destruct e; reflexivity|]. intros s H. discriminate H.
Qed.

Lemma C8_unsupported_connector_type_witness :
  index_connector_content demo_denied 2 1 demo_world alice (Some [])
  = (demo_world, Some [],
     Raise (HTTPException 400
       "Indexing not supported for connector type: SERPER_API")).
Proof.
  refine (proj2 (proj2 (C8_unsupported_connector_type demo_denied 2 1
            demo_world alice (Some []) demo_serper eq_refl _ _)) _ eq_refl);
    discriminate.
Defined.

(** ** Indexing trigger: the window start *)

Lemma start_date_of_never_indexed (connector : SearchSourceConnector.t)
    (w : World) :
  SearchSourceConnector.last_indexed_at connector = None ->
  start_date_of connector w = Ok "365 days ago".
Proof. intros H. unfold start_date_of. now rewrite H. Qed.

Lemma start_date_of_earlier_day (connector : SearchSourceConnector.t)
    (w : World) (t : datetime.t) :
  SearchSourceConnector.last_indexed_at connector = Some t ->
  datetime.date t <> datetime.date (clock w) ->
  start_date_of connector w = Ok (datetime.strftime_Ymd t).
Proof.
  intros H Hd. unfold start_date_of. rewrite H. cbn [datetime_now routes_datetime bind].
  apply date_eqb_neq in Hd. now rewrite Hd.
Qed.

Lemma start_date_of_same_day (connector : SearchSourceConnector.t)
    (w : World) (t : datetime.t) :
  SearchSourceConnector.last_indexed_at connector = Some t ->
  datetime.date t = datetime.date (clock w) ->
  start_date_of connector w = Raise no_timedelta.
Proof.
  intros H Hd. unfold start_date_of. rewrite H. cbn [datetime_now routes_datetime bind].
  apply date_eqb_eq in Hd. rewrite Hd. reflexivity.
Qed.

(** C2: the window start the trigger computes.  Never indexed: the label
    "365 days ago".  Indexed on another day: the date of last_indexed_at.
    Indexed on the current calendar day: the step back by one day evaluates
    [datetime.timedelta] on the class bound by [from datetime import
    datetime] and raises AttributeError, so no window start (in particular
    not yesterday's date) is computed. *)
Theorem C2_window_start (connector : SearchSourceConnector.t) (w : World) :
  (SearchSourceConnector.last_indexed_at connector = None ->
   start_date_of connector w = Ok "365 days ago")
  /\ (forall t,
        SearchSourceConnector.last_indexed_at connector = Some t ->
        datetime.date t <> datetime.date (clock w) ->
        start_date_of connector w = Ok (datetime.strftime_Ymd t))
  /\ (forall t,
        SearchSourceConnector.last_indexed_at connector = Some t ->
        datetime.date t = datetime.date (clock w) ->
        start_date_of connector w = Raise no_timedelta).
Proof.
  split; [apply start_date_of_never_indexed|].
  split; intros t; [apply start_date_of_earlier_day
                   | apply start_date_of_same_day].
Qed.

(** Bob's Notion connector was indexed this morning; at noon the window
    start raises, where one day before today is 2025-03-06. *)
Lemma C2_window_start_witness :
  start_date_of demo_notion demo_world = Raise no_timedelta
  /\ bind (date_sub (datetime.date (clock demo_world)) (timedelta.mk 1))
          (fun d => Ok (date.strftime_Ymd d))
     = Ok "2025-03-06".
Proof.
  split; [|reflexivity].
  exact (proj2 (proj2 (C2_window_start demo_notion demo_world))
           this_morning eq_refl eq_refl).
Defined.

(** ** Indexing trigger: dispatch and response *)

(** C7: the trigger on a Slack or Notion connector of the caller, with a
    search space of the caller and background tasks available.  When the
    window start is computed, the indexing task is queued (not run) and the
    success response carries the window start and the current date.  When
    the connector was last indexed on the current calendar day, the window
    start raises: nothing is queued and the call fails with status 500. *)
Theorem C7_trigger_dispatch
    (denied : exn) (connector_id search_space_id : Z) (w : World)
    (user : User.t) (tasks : list Task)
    (connector : SearchSourceConnector.t) (space : SearchSpace.t) :
  check_ownership denied (connectors w) SearchSourceConnector.id
    SearchSourceConnector.user_id connector_id user = Ok connector ->
  check_ownership denied (searchspaces (working (session w)))
    SearchSpace.id SearchSpace.user_id search_space_id user = Ok space ->
  let out := index_connector_content denied connector_id search_space_id w
               user (Some tasks) in
  (forall start,
     start_date_of connector w = Ok start ->
     (SearchSourceConnector.connector_type connector
        = SearchSourceConnectorType.SLACK_CONNECTOR ->
      out = (w,
             Some (tasks ++ [run_slack_indexing_task connector_id
                               search_space_id]),
             Ok (mkIndexResponse true
                   "Slack indexing started in the background"
                   SearchSourceConnectorType.SLACK_CONNECTOR
                   (Some (SearchSpace.name space)) (Some start)
                   (Some (datetime.strftime_Ymd (clock w))))))
     /\ (SearchSourceConnector.connector_type connector
           = SearchSourceConnectorType.NOTION_CONNECTOR ->
         out = (w,
                Some (tasks ++ [run_notion_indexing_task connector_id
                                  search_space_id]),
                Ok (mkIndexResponse true
                      "Notion indexing started in the background"
                      SearchSourceConnectorType.NOTION_CONNECTOR
                      (Some (SearchSpace.name space)) (Some start)
                      (Some (datetime.strftime_Ymd (clock w)))))))
  /\ (forall t,
        SearchSourceConnector.connector_type connector
          = SearchSourceConnectorType.SLACK_CONNECTOR
        \/ SearchSourceConnector.connector_type connector
          = SearchSourceConnectorType.NOTION_CONNECTOR ->
        SearchSourceConnector.last_indexed_at connector = Some t ->
        datetime.date t = datetime.date (clock w) ->
        out = (logger ERROR
                 ("Failed to start indexing: " ++ str_exn no_timedelta) w,
               Some tasks,
               Raise (HTTPException 500
                        ("Failed to start indexing: "
                         ++ str_exn no_timedelta)))).
Proof.
  intros Hc Hs out. subst out. unfold index_connector_content.
  rewrite Hc, Hs. split.
  - intros start Hstart. split; intros Hty; rewrite Hty, Hstart; reflexivity.
  - intros t Hty Hlast Hday.
    rewrite (start_date_of_same_day connector w t Hlast Hday).
    destruct Hty as [Hty|Hty]; rewrite Hty; reflexivity.
Qed.

(** Bob triggers his Notion connector, indexed this morning, at noon. *)
Lemma C7_trigger_dispatch_witness :
  index_connector_content demo_denied 3 2 demo_world bob (Some [])
  = (logger ERROR
       "Failed to start indexing: type object 'datetime.datetime' has no attribute 'timedelta'"
       demo_world,
     Some [],
     Raise (HTTPException 500
       "Failed to start indexing: type object 'datetime.datetime' has no attribute 'timedelta'")).
Proof.
  exact (proj2 (C7_trigger_dispatch demo_denied 3 2 demo_world bob []
                  demo_notion (SearchSpace.mk 2 last_week "notes"
                                 (Some "private") 2%N) eq_refl eq_refl)
           this_morning (or_intror eq_refl) eq_refl eq_refl).
Defined.

(** Alice triggers her Slack connector, never indexed: the task is queued
    and the response carries the window. *)
Example trigger_never_indexed :
  index_connector_content demo_denied 1 1 demo_world alice (Some [])
  = (demo_world,
     Some [run_slack_indexing_task 1 1],
     Ok (mkIndexResponse true "Slack indexing started in the background"
           SearchSourceConnectorType.SLACK_CONNECTOR (Some "research")
           (Some "365 days ago") (Some "2025-03-07"))).
Proof. reflexivity. Qed.

(** ** The checkpoint written by a background run *)

Lemma NoDup_map_eq {A B : Type} (f : A -> B) (l : list A) (x y : A) :
  NoDup (map f l) -> In x l -> In y l -> f x = f y -> x = y.
Proof.
  induction l as [|a l IH]; simpl; intros Hnd Hx Hy Hf; [contradiction|].
  inversion Hnd as [|? ? Hnotin Hnd']; subst.
  destruct Hx as [->|Hx], Hy as [->|Hy]; auto.
  - exfalso. apply Hnotin. rewrite Hf. now apply in_map.
  - exfalso. apply Hnotin. rewrite <- Hf. now apply in_map.
Qed.

(** Rewriting, by key, a row with a row of the same type leaves the column
    of types as it was. *)
Lemma replace_connector_types (c c' : SearchSourceConnector.t)
    (cs : list SearchSourceConnector.t) :
  NoDup (map SearchSourceConnector.id cs) ->
  In c cs ->
  SearchSourceConnector.id c' = SearchSourceConnector.id c ->
  SearchSourceConnector.connector_type c'
    = SearchSourceConnector.connector_type c ->
  map SearchSourceConnector.connector_type (replace_connector c' cs)
  = map SearchSourceConnector.connector_type cs.
Proof.
  intros Hnd Hin Hid Hty. unfold replace_connector. rewrite map_map.
  apply map_ext_in. intros a Ha.
  destruct (SearchSourceConnector.id a =? SearchSourceConnector.id c') eqn:E;
    [|reflexivity].
  apply Z.eqb_eq in E. rewrite Hid in E.
  rewrite (NoDup_map_eq _ _ a c Hnd Ha Hin E). exact Hty.
Qed.

(** After the rewrite, the query by key finds the new row. *)
Lemma find_replace_connector (c c' : SearchSourceConnector.t)
    (cs : list SearchSourceConnector.t) (connector_id : Z) :
  find (fun x => SearchSourceConnector.id x =? connector_id) cs = Some c ->
  SearchSourceConnector.id c' = SearchSourceConnector.id c ->
  find (fun x => SearchSourceConnector.id x =? connector_id)
       (replace_connector c' cs) = Some c'.
Proof.
  intros Hfind Hid.
  assert (Hc : SearchSourceConnector.id c' = connector_id).
  { apply find_some in Hfind. rewrite Hid. now apply Z.eqb_eq. }
  induction cs as [|a cs IH]; simpl in *; [discriminate|].
  destruct (SearchSourceConnector.id a =? connector_id) eqn:E.
  - rewrite Hc, E. simpl. now rewrite Hc, Z.eqb_refl.
  - rewrite Hc, E. simpl. rewrite E. now apply IH.
Qed.

(** The checkpoint write, for a connector the session holds and a table the
    constraints hold of: the row is rewritten with the clock's reading and
    the session committed. *)
Lemma update_connector_last_indexed_commits (w : World) (connector_id : Z)
    (c : SearchSourceConnector.t) :
  connectors_ok (connectors w) ->
  find (fun x => SearchSourceConnector.id x =? connector_id) (connectors w)
    = Some c ->
  let st := with_search_source_connectors (working (session w))
              (replace_connector (set_last_indexed_at c (Some (clock w)))
                 (connectors w)) in
  update_connector_last_indexed w connector_id
  = logger INFO ("Updated last_indexed_at for connector "
                 ++ str_int connector_id)
      (set_session w (mkSession st st)).
Proof.
  intros [Hpk Huq] Hfind st. unfold update_connector_last_indexed.
  rewrite Hfind. cbn [datetime_now routes_datetime].
  unfold world_commit, commit.
  assert (Hu : unique_connector_type
                 (working (session (set_connectors w
                    (replace_connector (set_last_indexed_at c (Some (clock w)))
                       (connectors w))))) = true).
  { unfold unique_connector_type. cbn.
    rewrite (replace_connector_types c); auto.
    apply find_some in Hfind. tauto. }
  rewrite Hu. reflexivity.
Qed.

(** A connector that is gone when the run ends gets no checkpoint. *)
Lemma update_connector_last_indexed_missing (w : World) (connector_id : Z) :
  find (fun x => SearchSourceConnector.id x =? connector_id) (connectors w)
    = None ->
  update_connector_last_indexed w connector_id = w.
Proof. intros H. unfold update_connector_last_indexed. now rewrite H. Qed.

Lemma reports_success_iff (r : result (Z * option string)) :
  reports_success r
  <-> exists n m, r = Ok (n, m) /\ indexing_was_successful n m = true.
Proof.
  unfold reports_success, indexing_was_successful. split.
  - intros (n & m & -> & Hn & Hm). exists n, m. split; [reflexivity|].
    apply andb_true_iff. split; [apply Z.gtb_lt; lia|].
    destruct Hm as [->|(s & -> & Hs)]; auto.
  - intros (n & m & -> & H). apply andb_true_iff in H. destruct H as [Hn Hm].
    exists n, m. split; [reflexivity|]. split; [apply Z.gtb_lt in Hn; lia|].
    destruct m as [s|]; [right; eauto | now left].
Qed.

(** A run that reports success ends with the checkpoint at the clock's
    reading when the indexer returned. *)
Lemma run_indexing_success (source : string) (indexer : Indexer) (w : World)
    (connector_id search_space_id : Z) (c : SearchSourceConnector.t) :
  let w1 := fst (indexer w connector_id search_space_id false) in
  connectors_ok (search_source_connectors (persisted (session w))) ->
  find (fun x => SearchSourceConnector.id x =? connector_id)
       (search_source_connectors (persisted (session w))) = Some c ->
  leaves_connectors w w1 ->
  reports_success (snd (indexer w connector_id search_space_id false)) ->
  checkpoint
    (persisted (session (run_indexing source indexer w connector_id
                           search_space_id)))
    connector_id
  = Some (Some (clock w1)).
Proof.
  intros w1 Hok Hfind [_ Hwork] Hs. subst w1.
  apply reports_success_iff in Hs. destruct Hs as (n & m & Hr & Hb).
  unfold run_indexing.
  destruct (indexer w connector_id search_space_id false) as [w1 r].
  simpl in *. subst r. rewrite Hb.
  assert (Hcs : connectors w1
                = search_source_connectors (persisted (session w)))
    by exact Hwork.
  rewrite (update_connector_last_indexed_commits w1 connector_id c);
    [| now rewrite Hcs | now rewrite Hcs].
  unfold checkpoint. cbn.
  rewrite (find_replace_connector c); [reflexivity | now rewrite Hcs
                                      | reflexivity].
Qed.

(** A run that does not report success, or whose indexer raises, leaves the
    persisted connectors table as it was. *)
Lemma run_indexing_no_success (source : string) (indexer : Indexer)
    (w : World) (connector_id search_space_id : Z) :
  let w1 := fst (indexer w connector_id search_space_id false) in
  leaves_connectors w w1 ->
  ~ reports_success (snd (indexer w connector_id search_space_id false)) ->
  search_source_connectors
    (persisted (session (run_indexing source indexer w connector_id
                           search_space_id)))
  = search_source_connectors (persisted (session w)).
Proof.
  intros w1 [Hpers _] Hs. subst w1. unfold run_indexing.
  destruct (indexer w connector_id search_space_id false) as [w1 r].
  simpl in *. destruct r as [[n m]|e]; [|exact Hpers].
  destruct (indexing_was_successful n m) eqn:Hb; [|exact Hpers].
  exfalso. apply Hs. apply reports_success_iff. eauto.
Qed.

Lemma reports_success_dec (r : result (Z * option string)) :
  reports_success r \/ ~ reports_success r.
Proof.
  rewrite reports_success_iff. destruct r as [[n m]|e].
  - destruct (indexing_was_successful n m) eqn:Hb.
    + left. eauto.
    + right. intros (n' & m' & Heq & Hb'). inversion Heq; subst. congruence.
  - right. intros (n' & m' & Heq & _). discriminate.
Qed.

Lemma run_indexing_checkpoint_rule (source : string) (indexer : Indexer)
    (w : World) (connector_id search_space_id : Z)
    (c : SearchSourceConnector.t) :
  connectors_ok (search_source_connectors (persisted (session w))) ->
  find (fun x => SearchSourceConnector.id x =? connector_id)
       (search_source_connectors (persisted (session w))) = Some c ->
  leaves_connectors w (fst (indexer w connector_id search_space_id false)) ->
  SearchSourceConnector.last_indexed_at c
    <> Some (clock (fst (indexer w connector_id search_space_id false))) ->
  checkpoint_rule indexer (run_indexing source indexer) w connector_id
    search_space_id.
Proof.
  intros Hok Hfind Hleave Htime. unfold checkpoint_rule.
  split; [|split].
  - intros Hs. now apply (run_indexing_success source indexer w _ _ c).
  - intros Hs. now apply run_indexing_no_success.
  - split.
    + intros Hne.
      destruct (reports_success_dec
                  (snd (indexer w connector_id search_space_id false)))
        as [Hs|Hs]; [exact Hs|].
      exfalso. apply Hne. unfold checkpoint.
      now rewrite (run_indexing_no_success source indexer w connector_id
                     search_space_id Hleave Hs).
    + intros Hs.
      rewrite (run_indexing_success source indexer w _ _ c Hok Hfind Hleave Hs).
      unfold checkpoint. rewrite Hfind. simpl. congruence.
Qed.

(** C1: for a Slack run and for a Notion run alike, on a connector the store
    holds and with an indexer that leaves the connectors table alone, the
    persisted checkpoint is updated if and only if the run reports at least
    one document and a message that is absent or contains "Indexed"; it then
    holds the clock's reading at the write.  A run that reports no document,
    or a message without "Indexed", or whose indexer raises, leaves the
    connectors table unchanged. *)
Theorem C1_checkpoint_updated_iff
    (index_slack_messages index_notion_pages : Indexer) (w : World)
    (connector_id search_space_id : Z) (c : SearchSourceConnector.t) :
  connectors_ok (search_source_connectors (persisted (session w))) ->
  find (fun x => SearchSourceConnector.id x =? connector_id)
       (search_source_connectors (persisted (session w))) = Some c ->
  (forall indexer,
     In indexer [index_slack_messages; index_notion_pages] ->
     let w1 := fst (indexer w connector_id search_space_id false) in
     leaves_connectors w w1
     /\ SearchSourceConnector.last_indexed_at c <> Some (clock w1)) ->
  checkpoint_rule index_slack_messages
    (run_slack_indexing index_slack_messages) w connector_id search_space_id
  /\ checkpoint_rule index_notion_pages
       (run_notion_indexing index_notion_pages) w connector_id
       search_space_id.
Proof.
  intros Hok Hfind Hidx. split.
  - destruct (Hidx index_slack_messages (or_introl eq_refl)) as [Hl Ht].
    now apply (run_indexing_checkpoint_rule "Slack" _ _ _ _ c).
  - destruct (Hidx index_notion_pages (or_intror (or_introl eq_refl)))
      as [Hl Ht].
    now apply (run_indexing_checkpoint_rule "Notion" _ _ _ _ c).
Qed.

Lemma demo_connectors_ok :
  connectors_ok (search_source_connectors (persisted (session demo_world))).
Proof.
  split; [|reflexivity]. simpl.
  repeat constructor; simpl; intuition discriminate.
Qed.

(** Alice's Slack connector, never indexed: the slow Slack run moves its
    checkpoint to 13:00, the failing Notion-side run leaves it. *)
Lemma C1_checkpoint_updated_iff_witness :
  checkpoint
    (persisted (session (run_slack_indexing slow_indexer demo_world 1 1))) 1
  = Some (Some (on_day 2025 3 7 13))
  /\ search_source_connectors
       (persisted (session (run_notion_indexing failing_indexer
                              demo_world 1 1)))
     = search_source_connectors demo_store
  /\ checkpoint_rule slow_indexer (run_slack_indexing slow_indexer)
       demo_world 1 1
  /\ checkpoint_rule failing_indexer (run_notion_indexing failing_indexer)
       demo_world 1 1.
Proof.
  split; [reflexivity|]. split; [reflexivity|].
  apply (C1_checkpoint_updated_iff slow_indexer failing_indexer demo_world
           1 1 demo_slack demo_connectors_ok eq_refl).
  intros indexer [<-|[<-|[]]]; simpl; (split; [split; reflexivity|discriminate]).
Defined.

(** ** The time a checkpoint holds *)

(** C3, amended: a Slack or Notion run that reports at least one document
    and no message sets the connector's last_indexed_at to the clock's
    reading taken when the checkpoint is written, that is after the indexer
    has returned. *)
Theorem C3_checkpoint_is_write_time
    (indexer : Indexer) (w : World)
    (connector_id search_space_id : Z) (c : SearchSourceConnector.t)
    (documents_indexed : Z) :
  let w1 := fst (indexer w connector_id search_space_id false) in
  connectors_ok (search_source_connectors (persisted (session w))) ->
  find (fun x => SearchSourceConnector.id x =? connector_id)
       (search_source_connectors (persisted (session w))) = Some c ->
  leaves_connectors w w1 ->
  snd (indexer w connector_id search_space_id false)
    = Ok (documents_indexed, None) ->
  documents_indexed >= 1 ->
  checkpoint
    (persisted (session (run_slack_indexing indexer w connector_id
                           search_space_id)))
    connector_id
  = Some (Some (clock w1))
  /\ checkpoint
       (persisted (session (run_notion_indexing indexer w connector_id
                              search_space_id)))
       connector_id
     = Some (Some (clock w1)).
Proof.
  intros w1 Hok Hfind Hleave Hr Hn.
  assert (Hs : reports_success
                 (snd (indexer w connector_id search_space_id false))).
  { rewrite Hr. exists documents_indexed, None. auto. }
  split.
  - now apply (run_indexing_success "Slack" _ _ _ _ c).
  - now apply (run_indexing_success "Notion" _ _ _ _ c).
Qed.

Lemma C3_checkpoint_is_write_time_witness :
  checkpoint
    (persisted (session (run_slack_indexing slow_indexer demo_world 1 1))) 1
  = Some (Some (clock (fst (slow_indexer demo_world 1 1 false)))).
Proof.
  apply (C3_checkpoint_is_write_time slow_indexer demo_world 1 1 demo_slack 3
           demo_connectors_ok eq_refl).
  - split; reflexivity.
  - reflexivity.
  - lia.
Defined.

(** C3 as stated fails: the run starts at noon, the indexer reports three
    documents and no message, and the checkpoint holds 13:00, the time of
    the write, not the run's start time. *)
Lemma C3_not_the_start_time :
  clock demo_world = on_day 2025 3 7 12
  /\ snd (slow_indexer demo_world 1 1 false) = Ok (3, None)
  /\ checkpoint
       (persisted (session (run_slack_indexing slow_indexer demo_world 1 1)))
       1
     = Some (Some (on_day 2025 3 7 13))
  /\ checkpoint
       (persisted (session (run_slack_indexing slow_indexer demo_world 1 1)))
       1
     <> Some (Some (clock demo_world)).
Proof.
  split; [reflexivity|]. split; [reflexivity|]. split; [reflexivity|].
  discriminate.
Qed.

(** ** One connector of each type per owner *)

Lemma session_ok_rollback (s : Session) :
  session_ok s -> session_ok (rollback s).
Proof. intros [H _]. split; exact H. Qed.

Lemma one_per_owner_add (cs : list SearchSourceConnector.t)
    (new : SearchSourceConnector.t) :
  one_per_owner_and_type cs ->
  (forall c, In c cs ->
     SearchSourceConnector.user_id c = SearchSourceConnector.user_id new ->
     SearchSourceConnector.connector_type c
       <> SearchSourceConnector.connector_type new) ->
  one_per_owner_and_type (cs ++ [new]).
Proof.
  intros Hinv Hnew c1 c2 H1 H2 Hu Ht.
  apply in_app_or in H1. apply in_app_or in H2. simpl in H1, H2.
  destruct H1 as [H1|[<-|[]]], H2 as [H2|[<-|[]]].
  - now apply Hinv.
  - exfalso. exact (Hnew c1 H1 Hu Ht).
  - exfalso. symmetry in Hu, Ht. exact (Hnew c2 H2 Hu Ht).
  - reflexivity.
Qed.

Lemma one_per_owner_filter (f : SearchSourceConnector.t -> bool)
    (cs : list SearchSourceConnector.t) :
  one_per_owner_and_type cs -> one_per_owner_and_type (filter f cs).
Proof.
  intros Hinv c1 c2 H1 H2. apply filter_In in H1, H2.
  apply Hinv; tauto.
Qed.

(** Rewriting the row [c] by key keeps the invariant when no other row of
    the owner has the new type. *)
Lemma one_per_owner_replace (c c' : SearchSourceConnector.t)
    (cs : list SearchSourceConnector.t) :
  one_per_owner_and_type cs ->
  SearchSourceConnector.id c' = SearchSourceConnector.id c ->
  SearchSourceConnector.user_id c' = SearchSourceConnector.user_id c ->
  (forall b, In b cs ->
     SearchSourceConnector.id b <> SearchSourceConnector.id c ->
     SearchSourceConnector.user_id b = SearchSourceConnector.user_id c ->
     SearchSourceConnector.connector_type b
       <> SearchSourceConnector.connector_type c') ->
  one_per_owner_and_type (replace_connector c' cs).
Proof.
  intros Hinv Hid Hu Hother x y Hx Hy Hux Hty.
  unfold replace_connector in Hx, Hy.
  apply in_map_iff in Hx, Hy.
  destruct Hx as [a [Ha Hina]], Hy as [b [Hb Hinb]].
  rewrite Hid in Ha, Hb.
  destruct (SearchSourceConnector.id a =? SearchSourceConnector.id c) eqn:Ea,
           (SearchSourceConnector.id b =? SearchSourceConnector.id c) eqn:Eb;
    subst x y.
  - reflexivity.
  - exfalso. apply Z.eqb_neq in Eb.
    apply (Hother b Hinb Eb); [congruence | congruence].
  - exfalso. apply Z.eqb_neq in Ea.
    apply (Hother a Hina Ea); [congruence | congruence].
  - now apply Hinv.
Qed.

Lemma create_keeps_invariant (connector : SearchSourceConnectorCreate.t)
    (w : World) (user : User.t) :
  session_ok (session w) ->
  session_ok (session (fst (create_search_source_connector connector w user))).
Proof.
  intros Hok. unfold create_search_source_connector.
  destruct (find _ (connectors w)) as [existing|] eqn:Hfind.
  - simpl. now apply session_ok_rollback.
  - unfold world_commit, commit.
    destruct (unique_connector_type _) eqn:Hu; simpl.
    + assert (H : one_per_owner_and_type
                    (connectors w ++
                       [SearchSourceConnector.mk
                          (next_id (map SearchSourceConnector.id (connectors w)))
                          (clock w)
                          (SearchSourceConnectorCreate.name connector)
                          (SearchSourceConnectorCreate.connector_type connector)
                          (SearchSourceConnectorCreate.is_indexable connector)
                          (SearchSourceConnectorCreate.last_indexed_at connector)
                          (SearchSourceConnectorCreate.config connector)
                          (User.id user)])).
      { apply one_per_owner_add; [exact (proj2 Hok)|].
        intros c Hc Huser Hty. simpl in Huser, Hty.
        pose proof (find_none _ _ Hfind c Hc) as Hf. simpl in Hf.
        rewrite Huser, N.eqb_refl in Hf. simpl in Hf.
        apply (proj2 (connector_type_eqb_eq _ _)) in Hty. congruence. }
      split; exact H.
    + split; exact (proj1 Hok).
Qed.

Lemma update_keeps_invariant (denied : exn) (connector_id : Z)
    (u : SearchSourceConnectorUpdate.t) (w : World) (user : User.t) :
  session_ok (session w) ->
  session_ok (session (fst (update_search_source_connector denied
                              connector_id u w user))).
Proof.
  intros Hok. unfold update_search_source_connector, check_ownership.
  destruct (find _ (connectors w)) as [c|] eqn:Hown.
  2:{ destruct denied; simpl; now apply session_ok_rollback. }
  apply check_ownership_sound in Hown. destruct Hown as (Hin & Hid & Huser).
  match goal with
  | |- context [match ?e with Some _ => _ | None => _ end] =>
      destruct e as [existing|] eqn:Hfind
  end.
  - simpl. now apply session_ok_rollback.
  - unfold world_commit, commit.
    destruct (unique_connector_type _) eqn:Hu; simpl.
    + assert (H : one_per_owner_and_type
                    (replace_connector (apply_update u c) (connectors w))).
      { apply (one_per_owner_replace c); [exact (proj2 Hok)| reflexivity
                                        | reflexivity |].
        intros b Hb Hidb Hub Htb. simpl in Htb.
        destruct (SearchSourceConnectorType.eqb
                    (SearchSourceConnectorUpdate.connector_type u)
                    (SearchSourceConnector.connector_type c)) eqn:Esame;
          simpl in Hfind.
        - apply connector_type_eqb_eq in Esame.
          apply Hidb. f_equal.
          apply (proj2 Hok); [exact Hb | exact Hin | congruence | congruence].
        - pose proof (find_none _ _ Hfind b Hb) as Hf. simpl in Hf.
          rewrite Hub, Huser, N.eqb_refl in Hf.
          rewrite (proj2 (connector_type_eqb_eq _ _) Htb) in Hf.
          rewrite <- Hid in Hf.
          apply Z.eqb_neq in Hidb. rewrite Hidb in Hf. discriminate. }
      split; exact H.
    + split; exact (proj1 Hok).
Qed.

Lemma delete_keeps_invariant (denied : exn) (connector_id : Z) (w : World)
    (user : User.t) :
  session_ok (session w) ->
  session_ok (session (fst (delete_search_source_connector denied
                              connector_id w user))).
Proof.
  intros Hok. unfold delete_search_source_connector, check_ownership.
  destruct (find _ (connectors w)) as [c|] eqn:Hown.
  2:{ destruct denied; simpl; auto using session_ok_rollback. }
  unfold world_commit, commit.
  destruct (unique_connector_type _) eqn:Hu; simpl.
  - assert (H : one_per_owner_and_type
                  (keep T_search_source_connectors SearchSourceConnector.id
                     (cascade
                        (List.length (store_rows (working (session w))))
                        (store_rows (working (session w)))
                        [(T_search_source_connectors,
                          SearchSourceConnector.id c)])
                     (search_source_connectors (working (session w)))))
      by (apply one_per_owner_filter; exact (proj2 Hok)).
    split; exact H.
  - split; exact (proj1 Hok).
Qed.

Lemma checkpoint_write_keeps_invariant (w : World) (connector_id : Z) :
  session_ok (session w) ->
  session_ok (session (update_connector_last_indexed w connector_id)).
Proof.
  intros Hok. unfold update_connector_last_indexed.
  destruct (find _ (connectors w)) as [c|] eqn:Hfind; [|exact Hok].
  cbn [datetime_now routes_datetime]. unfold world_commit, commit.
  apply find_some in Hfind. destruct Hfind as [Hin _].
  destruct (unique_connector_type _) eqn:Hu; simpl.
  - assert (H : one_per_owner_and_type
                  (replace_connector (set_last_indexed_at c (Some (clock w)))
                     (connectors w))).
    { apply (one_per_owner_replace c); [exact (proj2 Hok) | reflexivity
                                      | reflexivity |].
      intros b Hb Hidb Hub Htb. simpl in Htb. apply Hidb. f_equal.
      apply (proj2 Hok); assumption. }
    split; exact H.
  - split; exact (proj1 Hok).
Qed.

(** The create handler refuses a type the owner already has, at its own
    check: nothing was added to the session and nothing committed. *)
Lemma create_rejects_duplicate (connector : SearchSourceConnectorCreate.t)
    (w : World) (user : User.t) (existing : SearchSourceConnector.t) :
  In existing (connectors w) ->
  SearchSourceConnector.user_id existing = User.id user ->
  SearchSourceConnector.connector_type existing
    = SearchSourceConnectorCreate.connector_type connector ->
  create_search_source_connector connector w user
  = (world_rollback w,
     Raise (already_exists
              (SearchSourceConnectorCreate.connector_type connector))).
Proof.
  intros Hin Hu Ht. unfold create_search_source_connector.
  destruct (find _ (connectors w)) as [x|] eqn:Hfind; [reflexivity|].
  pose proof (find_none _ _ Hfind existing Hin) as Hf. simpl in Hf.
  rewrite Hu, N.eqb_refl, (proj2 (connector_type_eqb_eq _ _) Ht) in Hf.
  discriminate.
Qed.

(** The update handler refuses a type the owner holds on another connector,
    at its own check: no attribute was set and nothing committed. *)
Lemma update_rejects_duplicate (denied : exn) (connector_id : Z)
    (u : SearchSourceConnectorUpdate.t) (w : World) (user : User.t)
    (c other : SearchSourceConnector.t) :
  check_ownership denied (connectors w) SearchSourceConnector.id
    SearchSourceConnector.user_id connector_id user = Ok c ->
  In other (connectors w) ->
  SearchSourceConnector.user_id other = User.id user ->
  SearchSourceConnector.connector_type other
    = SearchSourceConnectorUpdate.connector_type u ->
  SearchSourceConnector.id other <> connector_id ->
  SearchSourceConnectorUpdate.connector_type u
    <> SearchSourceConnector.connector_type c ->
  update_search_source_connector denied connector_id u w user
  = (world_rollback w,
     Raise (already_exists (SearchSourceConnectorUpdate.connector_type u))).
Proof.
  intros Hown Hin Hu Ht Hid Hne. unfold update_search_source_connector.
  rewrite Hown.
  destruct (SearchSourceConnectorType.eqb
              (SearchSourceConnectorUpdate.connector_type u)
              (SearchSourceConnector.connector_type c)) eqn:Esame.
  { apply connector_type_eqb_eq in Esame. contradiction. }
  simpl.
  destruct (find _ (connectors w)) as [x|] eqn:Hfind; [reflexivity|].
  pose proof (find_none _ _ Hfind other Hin) as Hf. simpl in Hf.
  rewrite Hu, N.eqb_refl, (proj2 (connector_type_eqb_eq _ _) Ht) in Hf.
  apply Z.eqb_neq in Hid. rewrite Hid in Hf. discriminate.
Qed.

(** A rollback of a session without uncommitted changes changes nothing. *)
Lemma world_rollback_clean (w : World) :
  working (session w) = persisted (session w) -> world_rollback w = w.
Proof.
  destruct w as [[p wk] c l]. simpl. intros ->. reflexivity.
Qed.

(** C4: every write to the connectors table keeps one connector of each type
    per owner, in the persisted table and in the unit of work: create,
    update, delete and the checkpoint write.  A create for a type the owner
    already has, and an update to a type the owner holds on another
    connector, fail with status 409 at the handler's own check; the world is
    left rolled back, so the persisted store is the one before the call, and
    a session that had no uncommitted change is wholly unchanged. *)
Theorem C4_uniqueness_at_write_time (denied : exn) (w : World)
    (user : User.t) :
  (session_ok (session w) ->
   (forall connector,
      session_ok
        (session (fst (create_search_source_connector connector w user))))
   /\ (forall connector_id u,
         session_ok
           (session (fst (update_search_source_connector denied connector_id
                            u w user))))
   /\ (forall connector_id,
         session_ok
           (session (fst (delete_search_source_connector denied connector_id
                            w user))))
   /\ (forall connector_id,
         session_ok
           (session (update_connector_last_indexed w connector_id))))
  /\ (forall connector existing,
        In existing (connectors w) ->
        SearchSourceConnector.user_id existing = User.id user ->
        SearchSourceConnector.connector_type existing
          = SearchSourceConnectorCreate.connector_type connector ->
        create_search_source_connector connector w user
        = (world_rollback w,
           Raise (HTTPException 409
             ("A connector with type "
              ++ SearchSourceConnectorType.value
                   (SearchSourceConnectorCreate.connector_type connector)
              ++ " already exists. Each user can have only one connector of each type."))))
  /\ (forall connector_id u c other,
        check_ownership denied (connectors w) SearchSourceConnector.id
          SearchSourceConnector.user_id connector_id user = Ok c ->
        In other (connectors w) ->
        SearchSourceConnector.user_id other = User.id user ->
        SearchSourceConnector.connector_type other
          = SearchSourceConnectorUpdate.connector_type u ->
        SearchSourceConnector.id other <> connector_id ->
        SearchSourceConnectorUpdate.connector_type u
          <> SearchSourceConnector.connector_type c ->
        update_search_source_connector denied connector_id u w user
        = (world_rollback w,
           Raise (HTTPException 409
             ("A connector with type "
              ++ SearchSourceConnectorType.value
                   (SearchSourceConnectorUpdate.connector_type u)
              ++ " already exists. Each user can have only one connector of each type."))))
  /\ persisted (session (world_rollback w)) = persisted (session w)
  /\ (working (session w) = persisted (session w) -> world_rollback w = w).
Proof.
  split; [intros Hok; split; [|split; [|split]]|].
  - intros connector. now apply create_keeps_invariant.
  - intros connector_id u. now apply update_keeps_invariant.
  - intros connector_id. now apply delete_keeps_invariant.
  - intros connector_id. now apply checkpoint_write_keeps_invariant.
  - split; [intros connector existing; apply create_rejects_duplicate|].
    split; [intros connector_id u c other; apply update_rejects_duplicate|].
    split; [reflexivity | apply world_rollback_clean].
Qed.

(** Alice, who has a Slack connector, asks for a second one, and asks to
    turn her Serper connector into a Slack connector: both are refused and
    the world is as before. *)
Lemma C4_uniqueness_at_write_time_witness :
  create_search_source_connector
    (SearchSourceConnectorCreate.mk "slack 2"
       SearchSourceConnectorType.SLACK_CONNECTOR true None "{}")
    demo_world alice
  = (demo_world,
     Raise (HTTPException 409
       "A connector with type SLACK_CONNECTOR already exists. Each user can have only one connector of each type."))
  /\ update_search_source_connector demo_denied 2
       (SearchSourceConnectorUpdate.mk None
          SearchSourceConnectorType.SLACK_CONNECTOR None None None)
       demo_world alice
     = (demo_world,
        Raise (HTTPException 409
          "A connector with type SLACK_CONNECTOR already exists. Each user can have only one connector of each type.")).
Proof.
  pose proof (C4_uniqueness_at_write_time demo_denied demo_world alice)
    as (_ & Hcreate & Hupdate & _).
  split.
  - exact (Hcreate
             (SearchSourceConnectorCreate.mk "slack 2"
                SearchSourceConnectorType.SLACK_CONNECTOR true None "{}")
             demo_slack (or_introl eq_refl) eq_refl eq_refl).
  - refine (Hupdate 2
              (SearchSourceConnectorUpdate.mk None
                 SearchSourceConnectorType.SLACK_CONNECTOR None None None)
              demo_serper demo_slack eq_refl (or_introl eq_refl) eq_refl
              eq_refl _ _); discriminate.
Defined.

(** ** Cascading deletes *)

Lemma ref_eqb_eq (a b : Ref) : ref_eqb a b = true <-> a = b.
Proof.
  destruct a as [ta ia], b as [tb ib]. unfold ref_eqb, Table_as.eqb. simpl.
  destruct (Table_as.eq_dec ta tb) as [->|Hne]; simpl.
  - rewrite Z.eqb_eq. split; [intros ->; reflexivity | congruence].
  - split; [discriminate | congruence].
Qed.

Lemma ref_mem_In (r : Ref) (l : list Ref) : ref_mem r l = true <-> In r l.
Proof.
  unfold ref_mem. rewrite existsb_exists. split.
  - intros [x [Hx He]]. apply ref_eqb_eq in He. now subst.
  - intros H. exists r. split; [exact H | now apply ref_eqb_eq].
Qed.

Lemma ref_mem_app (r : Ref) (l1 l2 : list Ref) :
  ref_mem r (l1 ++ l2) = ref_mem r l1 || ref_mem r l2.
Proof. apply existsb_app. Qed.

(** The cascade only adds rows. *)
Lemma cascade_grows (fuel : nat) (rows : list (Ref * option Ref))
    (doomed : list Ref) (r : Ref) :
  In r doomed -> In r (cascade fuel rows doomed).
Proof.
  revert doomed. induction fuel as [|fuel IH]; intros doomed Hr; simpl;
    [exact Hr|].
  destruct (children rows doomed) as [|k next]; [exact Hr|].
  apply IH. apply in_or_app. now left.
Qed.

Lemma filter_length_mono {A : Type} (p q : A -> bool) (l : list A) :
  (forall x, In x l -> q x = true -> p x = true) ->
  (List.length (filter q l) <= List.length (filter p l))%nat.
Proof.
  induction l as [|a l IH]; intros H; simpl; [lia|].
  assert (IH' := IH (fun x Hx => H x (or_intror Hx))).
  destruct (q a) eqn:Eq.
  - rewrite (H a (or_introl eq_refl) Eq). simpl. lia.
  - destruct (p a); simpl; lia.
Qed.

Lemma filter_length_strict {A : Type} (p q : A -> bool) (l : list A) (a : A) :
  (forall x, In x l -> q x = true -> p x = true) ->
  In a l -> p a = true -> q a = false ->
  (List.length (filter q l) < List.length (filter p l))%nat.
Proof.
  induction l as [|b l IH]; intros H Hin Hp Hq; simpl; [contradiction|].
  assert (Hl : forall x, In x l -> q x = true -> p x = true)
    by (intros x Hx; apply H; now right).
  destruct Hin as [->|Hin].
  - rewrite Hp, Hq. simpl.
    pose proof (filter_length_mono p q l Hl). lia.
  - specialize (IH Hl Hin Hp Hq).
    destruct (q b) eqn:Eq.
    + rewrite (H b (or_introl eq_refl) Eq). simpl. lia.
    + destruct (p b); simpl; lia.
Qed.

(** With fuel for every pending row, the cascade ends closed: no row is left
    to follow a doomed parent. *)
Lemma cascade_closed (fuel : nat) (rows : list (Ref * option Ref))
    (doomed : list Ref) :
  (List.length (pending rows doomed) <= fuel)%nat ->
  children rows (cascade fuel rows doomed) = [].
Proof.
  revert doomed. induction fuel as [|fuel IH]; intros doomed Hfuel; simpl.
  - unfold children.
    replace (filter (follows doomed) rows) with (@nil (Ref * option Ref));
      [reflexivity|].
    symmetry. apply List.length_zero_iff_nil.
    assert (Hle : (List.length (filter (follows doomed) rows)
                   <= List.length (pending rows doomed))%nat).
    { apply filter_length_mono. intros row _ Hf. unfold follows in Hf.
      destruct (snd row); [|discriminate].
      apply andb_true_iff in Hf. tauto. }
    lia.
  - destruct (children rows doomed) as [|k next] eqn:Hch; [exact Hch|].
    apply IH.
    assert (Hk : In k (children rows doomed)) by (rewrite Hch; now left).
    unfold children in Hk. apply in_map_iff in Hk.
    destruct Hk as [row [Hfst Hrow]]. apply filter_In in Hrow.
    destruct Hrow as [Hin Hf].
    assert (Hnot : negb (ref_mem (fst row) doomed) = true).
    { unfold follows in Hf. destruct (snd row); [|discriminate].
      apply andb_true_iff in Hf. tauto. }
    assert (Hlt : (List.length (pending rows (doomed ++ k :: next))
                   < List.length (pending rows doomed))%nat).
    { apply (filter_length_strict _ _ rows row); auto.
      - intros x _ Hx. rewrite ref_mem_app in Hx.
        apply negb_true_iff in Hx. apply orb_false_iff in Hx.
        apply negb_true_iff. tauto.
      - apply negb_false_iff. rewrite ref_mem_app. apply orb_true_iff.
        right. apply ref_mem_In. rewrite Hfst. now left. }
    lia.
Qed.

(** In a closed set of rows, a row whose parent is doomed through a
    cascading relationship is doomed. *)
Lemma closed_follows (rows : list (Ref * option Ref)) (doomed : list Ref)
    (key parent : Ref) :
  children rows doomed = [] ->
  In (key, Some parent) rows ->
  In parent doomed ->
  cascades_to (fst parent) (fst key) = true ->
  In key doomed.
Proof.
  intros Hclosed Hrow Hparent Hrel. apply ref_mem_In.
  destruct (ref_mem key doomed) eqn:E; [reflexivity|]. exfalso.
  assert (Hin : In key (children rows doomed)).
  { unfold children. apply in_map_iff. exists (key, Some parent).
    split; [reflexivity|]. apply filter_In. split; [exact Hrow|].
    unfold follows. simpl. rewrite E, Hrel.
    rewrite (proj2 (ref_mem_In parent doomed) Hparent). reflexivity. }
  rewrite Hclosed in Hin. contradiction.
Qed.

Lemma doomed_with_closed (st : Store) (r : Ref) :
  children (store_rows st) (doomed_with st r) = [].
Proof.
  apply cascade_closed. unfold pending.
  apply (Nat.le_trans _ _ _
           (filter_length_mono (fun _ => true) _ (store_rows st)
              (fun _ _ _ => eq_refl))).
  clear. induction (store_rows st) as [|a l IH]; simpl; lia.
Qed.

Lemma nodupb_filter {A B : Type} (eqb : B -> B -> bool) (g : A -> B)
    (f : A -> bool) (l : list A) :
  nodupb eqb (map g l) = true -> nodupb eqb (map g (filter f l)) = true.
Proof.
  induction l as [|a l IH]; simpl; intros H; [reflexivity|].
  apply andb_true_iff in H. destruct H as [Hnot Hrest].
  destruct (f a); simpl; [|now apply IH].
  apply andb_true_iff. split; [|now apply IH].
  apply negb_true_iff. apply negb_true_iff in Hnot.
  destruct (existsb (eqb (g a)) (map g (filter f l))) eqn:E; [|reflexivity].
  apply existsb_exists in E. destruct E as [b [Hb He]].
  apply in_map_iff in Hb. destruct Hb as [x [Hx Hin]].
  apply filter_In in Hin.
  assert (existsb (eqb (g a)) (map g l) = true); [|congruence].
  apply existsb_exists. exists b. split; [|exact He].
  apply in_map_iff. exists x. tauto.
Qed.

(** Deleting rows keeps the unique constraint. *)
Lemma delete_refs_unique (st : Store) (doomed : list Ref) :
  unique_connector_type st = true ->
  unique_connector_type (delete_refs st doomed) = true.
Proof. unfold unique_connector_type, delete_refs, keep. apply nodupb_filter. Qed.

Lemma store_rows_document (st : Store) (d : Document.t) :
  In d (documents st) ->
  In ((T_documents, Document.id d),
      Some (T_searchspaces, Document.search_space_id d)) (store_rows st).
Proof.
  intros H. unfold store_rows. apply in_or_app. right. apply in_or_app. left.
  apply in_map_iff. exists d. auto.
Qed.

Lemma store_rows_chunk (st : Store) (c : Chunk.t) :
  In c (chunks st) ->
  In ((T_chunks, Chunk.id c), Some (T_documents, Chunk.document_id c))
     (store_rows st).
Proof.
  intros H. unfold store_rows. do 2 (apply in_or_app; right).
  apply in_or_app. left. apply in_map_iff. exists c. auto.
Qed.

Lemma store_rows_podcast (st : Store) (p : Podcast.t) :
  In p (podcasts st) ->
  In ((T_podcasts, Podcast.id p),
      Some (T_searchspaces, Podcast.search_space_id p)) (store_rows st).
Proof.
  intros H. unfold store_rows. do 3 (apply in_or_app; right).
  apply in_or_app. left. apply in_map_iff. exists p. auto.
Qed.

Lemma store_rows_chat (st : Store) (c : Chat.t) :
  In c (chats st) ->
  In ((T_chats, Chat.id c), Some (T_searchspaces, Chat.search_space_id c))
     (store_rows st).
Proof.
  intros H. unfold store_rows. do 4 (apply in_or_app; right).
  apply in_or_app. left. apply in_map_iff. exists c. auto.
Qed.

Lemma keep_In {A : Type} (t : Table) (id_of : A -> Z) (doomed : list Ref)
    (rows : list A) (r : A) :
  In r (keep t id_of doomed rows) <-> In r rows /\ ~ In (t, id_of r) doomed.
Proof.
  unfold keep. rewrite filter_In, negb_true_iff.
  rewrite <- ref_mem_In. destruct (ref_mem (t, id_of r) doomed);
    intuition congruence.
Qed.

(** C5: deleting a search space and committing, in a session whose
    connectors satisfy the unique constraint, succeeds and leaves no row of
    the search space: not the space itself, no Document, Podcast or Chat that
    points to it, and no Chunk of a Document that pointed to it. *)
Theorem C5_search_space_cascade (s : Session) (search_space_id : Z) :
  unique_connector_type (working s) = true ->
  let before := working s in
  let after := persisted (fst (delete_search_space s search_space_id)) in
  snd (delete_search_space s search_space_id) = Ok tt
  /\ (forall sp, In sp (searchspaces after) ->
                 SearchSpace.id sp <> search_space_id)
  /\ (forall d, In d (documents after) ->
                Document.search_space_id d <> search_space_id)
  /\ (forall p, In p (podcasts after) ->
                Podcast.search_space_id p <> search_space_id)
  /\ (forall c, In c (chats after) ->
                Chat.search_space_id c <> search_space_id)
  /\ (forall ch d, In ch (chunks after) -> In d (documents before) ->
                   Document.search_space_id d = search_space_id ->
                   Chunk.document_id ch <> Document.id d).
Proof.
  intros Hu before after. subst before after.
  unfold delete_search_space, commit, session_delete.
  cbn [working persisted].
  fold (doomed_with (working s) (T_searchspaces, search_space_id)).
  set (D := doomed_with (working s) (T_searchspaces, search_space_id)).
  rewrite (delete_refs_unique _ D Hu). cbn [fst snd persisted].
  assert (Hroot : In (T_searchspaces, search_space_id) D)
    by (apply cascade_grows; now left).
  assert (Hclosed := doomed_with_closed (working s)
                       (T_searchspaces, search_space_id)).
  fold D in Hclosed.
  assert (Hdoc : forall d, In d (documents (working s)) ->
                   Document.search_space_id d = search_space_id ->
                   In (T_documents, Document.id d) D).
  { intros d Hd Hsp.
    apply (closed_follows _ _ _ (T_searchspaces, search_space_id) Hclosed);
      [rewrite <- Hsp; now apply store_rows_document | exact Hroot
      | reflexivity]. }
  split; [reflexivity|]. unfold delete_refs. cbn. repeat split.
  - intros sp Hsp Hid. apply keep_In in Hsp. destruct Hsp as [_ Hn].
    apply Hn. now rewrite Hid.
  - intros d Hd Hsp. apply keep_In in Hd. destruct Hd as [Hin Hn].
    apply Hn. now apply Hdoc.
  - intros p Hp Hsp. apply keep_In in Hp. destruct Hp as [Hin Hn].
    apply Hn.
    apply (closed_follows _ _ _ (T_searchspaces, search_space_id) Hclosed);
      [rewrite <- Hsp; now apply store_rows_podcast | exact Hroot
      | reflexivity].
  - intros c Hc Hsp. apply keep_In in Hc. destruct Hc as [Hin Hn].
    apply Hn.
    apply (closed_follows _ _ _ (T_searchspaces, search_space_id) Hclosed);
      [rewrite <- Hsp; now apply store_rows_chat | exact Hroot
      | reflexivity].
  - intros ch d Hch Hd Hsp Hfk. apply keep_In in Hch.
    destruct Hch as [Hin Hn]. apply Hn.
    apply (closed_follows _ _ _ (T_documents, Document.id d) Hclosed);
      [rewrite <- Hfk; now apply store_rows_chunk | now apply Hdoc
      | reflexivity].
Qed.

(** Deleting Alice's search space 1 leaves Bob's space, document and chunk,
    and the connectors. *)
Lemma C5_search_space_cascade_witness :
  persisted (fst (delete_search_space demo_session 1))
  = mkStore
      [ SearchSpace.mk 2 last_week "notes" (Some "private") 2%N ]
      [ Document.mk 3 last_week "c" DocumentType.EXTENSION None "gamma" None 2 ]
      [ Chunk.mk 4 last_week "gamma" (Some [1%float; 1%float; 0%float]) 3 ]
      [] []
      [ demo_slack; demo_serper; demo_notion ]
  /\ forall d, In d (documents
                       (persisted (fst (delete_search_space demo_session 1)))) ->
               Document.search_space_id d <> 1.
Proof.
  split; [reflexivity|].
  exact (proj1 (proj2 (proj2 (C5_search_space_cascade demo_session 1
                                eq_refl)))).
Defined.

(** ** Embedding dimensions *)

Lemma bind_vector_ok (ty : VectorType) (value : option Vector)
    (bound : option Vector) (v : Vector) :
  bind_vector ty value = Ok bound -> value = Some v ->
  Z.of_nat (List.length v) = dim ty.
Proof.
  intros H ->. simpl in H.
  destruct (Z.of_nat (List.length v) =? dim ty) eqn:E; [|discriminate].
  now apply Z.eqb_eq.
Qed.

Lemma embeddings_after_delete (n : Z) (st : Store) (doomed : list Ref) :
  embeddings_have_dimension n st ->
  embeddings_have_dimension n (delete_refs st doomed).
Proof.
  intros [Hd Hc]. split; simpl.
  - intros d v Hin. apply keep_In in Hin. apply Hd. tauto.
  - intros c v Hin. apply keep_In in Hin. apply Hc. tauto.
Qed.

Lemma embeddings_after_commit (cfg : config.t) (s : Session) :
  session_embeddings_ok cfg s -> session_embeddings_ok cfg (fst (commit s)).
Proof.
  intros [Hp Hw]. unfold commit.
  destruct (unique_connector_type (working s)); split; assumption.
Qed.

Lemma embeddings_after_rollback (cfg : config.t) (s : Session) :
  session_embeddings_ok cfg s -> session_embeddings_ok cfg (rollback s).
Proof. intros [Hp _]. split; exact Hp. Qed.

Lemma embeddings_after_update_document (cfg : config.t) (w : World)
    (document_id : Z) (u : DocumentUpdate.t) (user : User.t) :
  session_embeddings_ok cfg (session w) ->
  session_embeddings_ok cfg
    (session (fst (update_document document_id u w user))).
Proof.
  intros Hok. unfold update_document.
  destruct (select_document w document_id user) as [d|] eqn:Hsel;
    [|exact Hok].
  unfold select_document in Hsel. apply find_some in Hsel.
  destruct Hsel as [Hin _].
  unfold world_commit, commit.
  destruct (unique_connector_type _) eqn:Hu; simpl.
  - assert (H : embeddings_have_dimension
                  (config.embedding_model_instance_dimension cfg)
                  (with_documents (working (session w))
                     (map (fun x => if Document.id x =? Document.id d
                                    then apply_document_update u d else x)
                          (documents (working (session w)))))).
    { destruct Hok as [_ [Hd Hc]]. split; simpl; [|exact Hc].
      intros x v Hx Hv. apply in_map_iff in Hx. destruct Hx as [y [Hy Hiny]].
      destruct (Document.id y =? Document.id d); subst x.
      - apply (Hd d v Hin). exact Hv.
      - now apply (Hd y v). }
    split; exact H.
  - split; exact (proj1 Hok).
Qed.

Lemma embeddings_after_delete_document (cfg : config.t) (w : World)
    (document_id : Z) (user : User.t) :
  session_embeddings_ok cfg (session w) ->
  session_embeddings_ok cfg
    (session (fst (delete_document document_id w user))).
Proof.
  intros Hok. unfold delete_document.
  destruct (select_document w document_id user) as [d|]; [|exact Hok].
  unfold world_commit, commit.
  destruct (unique_connector_type _) eqn:Hu; simpl.
  - assert (H := embeddings_after_delete _ _
                   (cascade
                      (List.length (store_rows (working (session w))))
                      (store_rows (working (session w)))
                      [(T_documents, Document.id d)])
                   (proj2 Hok)).
    split; exact H.
  - split; exact (proj1 Hok).
Qed.

Lemma reachable_embeddings_ok (cfg : config.t) (s : Session) :
  reachable cfg s -> session_embeddings_ok cfg s.
Proof.
  induction 1 as [ | s d s' _ IH Hadd | s c s' _ IH Hadd | s sp _ IH
                 | s _ IH | s _ IH | s r _ IH | w id u user _ IH
                 | w id user _ IH ].
  - split; split; simpl; contradiction.
  - unfold add_document in Hadd.
    destruct (bind_vector _ (Document.embedding d)) as [b|e] eqn:Hb;
      [|discriminate].
    simpl in Hadd. inversion Hadd; subst s'; clear Hadd.
    destruct IH as [Hp [Hd Hc]]. split; [exact Hp|]. split; simpl; [|exact Hc].
    intros x v Hx Hv. apply in_app_or in Hx. destruct Hx as [Hx|[<-|[]]].
    + now apply (Hd x v).
    + exact (bind_vector_ok _ _ _ v Hb Hv).
  - unfold add_chunk in Hadd.
    destruct (bind_vector _ (Chunk.embedding c)) as [b|e] eqn:Hb;
      [|discriminate].
    simpl in Hadd. inversion Hadd; subst s'; clear Hadd.
    destruct IH as [Hp [Hd Hc]]. split; [exact Hp|]. split; simpl; [exact Hd|].
    intros x v Hx Hv. apply in_app_or in Hx. destruct Hx as [Hx|[<-|[]]].
    + now apply (Hc x v).
    + exact (bind_vector_ok _ _ _ v Hb Hv).
  - destruct IH as [Hp [Hd Hc]]. split; [exact Hp|]. split; assumption.
  - now apply embeddings_after_commit.
  - now apply embeddings_after_rollback.
  - destruct IH as [Hp Hw]. split; [exact Hp|].
    unfold session_delete. simpl. now apply embeddings_after_delete.
  - now apply embeddings_after_update_document.
  - now apply embeddings_after_delete_document.
Qed.

(** C6: in every session reached by writes that bind the embedding columns,
    each stored Document embedding and each stored Chunk embedding has the
    configured dimension, persisted and in the unit of work; so a Chunk's
    embedding and a Document's embedding have the same dimension. *)
Theorem C6_embedding_dimension (cfg : config.t) (s : Session) :
  reachable cfg s ->
  forall st, st = persisted s \/ st = working s ->
  (forall d v, In d (documents st) -> Document.embedding d = Some v ->
               Z.of_nat (List.length v)
               = config.embedding_model_instance_dimension cfg)
  /\ (forall c v, In c (chunks st) -> Chunk.embedding c = Some v ->
                  Z.of_nat (List.length v)
                  = config.embedding_model_instance_dimension cfg)
  /\ (forall d c vd vc,
        In d (documents st) -> In c (chunks st) ->
        Document.embedding d = Some vd -> Chunk.embedding c = Some vc ->
        List.length vc = List.length vd).
Proof.
  intros Hreach st Hst. apply reachable_embeddings_ok in Hreach.
  assert (H : embeddings_have_dimension
                (config.embedding_model_instance_dimension cfg) st)
    by (destruct Hreach, Hst; subst; assumption).
  destruct H as [Hd Hc]. split; [exact Hd|]. split; [exact Hc|].
  intros d c vd vc Hind Hinc Hvd Hvc.
  specialize (Hd d vd Hind Hvd). specialize (Hc c vc Hinc Hvc). lia.
Qed.

(** With three configured dimensions a three-component embedding is stored
    and a two-component one is refused. *)
Lemma C6_embedding_dimension_witness :
  add_document demo_config empty_session flat_document
  = Raise (ValueError "expected 3 dimensions, not 2")
  /\ add_document demo_config empty_session demo_document
     = Ok one_document_session
  /\ reachable demo_config one_document_session
  /\ (forall d v, In d (documents (working one_document_session)) ->
                  Document.embedding d = Some v ->
                  Z.of_nat (List.length v) = 3).
Proof.
  assert (Hreach : reachable demo_config one_document_session)
    by exact (reach_add_document demo_config empty_session demo_document
                one_document_session (reach_empty demo_config) eq_refl).
  split; [reflexivity|]. split; [reflexivity|]. split; [exact Hreach|].
  exact (proj1 (C6_embedding_dimension demo_config one_document_session
                  Hreach (working one_document_session)
                  (or_intror eq_refl))).
Defined.

(** ** The handlers on the example database *)

(** Bob has no Slack connector, so the handler's check passes; the table-wide
    unique constraint on [connector_type] then refuses the row at commit, and
    the handler answers 409 from its IntegrityError clause. *)
Example create_across_owners :
  create_search_source_connector
    (SearchSourceConnectorCreate.mk "slack"
       SearchSourceConnectorType.SLACK_CONNECTOR true None "{}")
    demo_world bob
  = (demo_world,
     Raise (HTTPException 409
       "Integrity error: A connector with this type already exists. duplicate key value violates unique constraint")).
Proof. reflexivity. Qed.

(** Alice adds a GitHub connector: it is stored with the next key. *)
Example create_new_type :
  snd (create_search_source_connector
         (SearchSourceConnectorCreate.mk "github"
            SearchSourceConnectorType.GITHUB_CONNECTOR true None "{}")
         demo_world alice)
  = Ok (SearchSourceConnector.mk 4 this_noon "github"
          SearchSourceConnectorType.GITHUB_CONNECTOR true None "{}" 1%N).
Proof. reflexivity. Qed.

(** A run that indexes nothing leaves Alice's Slack connector never
    indexed. *)
Example run_without_documents :
  checkpoint
    (persisted (session (run_slack_indexing failing_indexer demo_world 1 1)))
    1
  = Some None.
Proof. reflexivity. Qed.

(** A run whose indexer raises logs the error and writes nothing. *)
Example run_that_raises :
  run_notion_indexing raising_indexer demo_world 3 2
  = logger ERROR
      "Error in background Notion indexing task: connection reset" demo_world.
Proof. reflexivity. Qed.

(** Deleting document 1 takes its two chunks with it. *)
Example delete_document_cascades :
  map Chunk.id
    (chunks (persisted (session (fst (delete_document 1 demo_world alice)))))
  = [3; 4].
Proof. reflexivity. Qed.

(** * Further properties of the routes *)

(** ** The listings *)

Lemma offset_limit_in_range {A : Type} (skip limit : Z) (rows : list A) :
  0 <= skip < 2 ^ 63 /\ 0 <= limit < 2 ^ 63 ->
  offset_limit skip limit rows
  = Ok (firstn (Z.to_nat limit) (skipn (Z.to_nat skip) rows)).
Proof.
  intros [Hs Hl]. unfold offset_limit, fits_BigInteger.
  replace (- 2 ^ 63 <=? skip) with true by (symmetry; apply Z.leb_le; lia).
  replace (skip <? 2 ^ 63) with true by (symmetry; apply Z.ltb_lt; lia).
  replace (- 2 ^ 63 <=? limit) with true by (symmetry; apply Z.leb_le; lia).
  replace (limit <? 2 ^ 63) with true by (symmetry; apply Z.ltb_lt; lia).
  replace (skip <? 0) with false by (symmetry; apply Z.ltb_ge; lia).
  replace (limit <? 0) with false by (symmetry; apply Z.ltb_ge; lia).
  reflexivity.
Qed.

Lemma offset_limit_out_of_range {A : Type} (skip limit : Z) (rows : list A) :
  ~ (0 <= skip < 2 ^ 63 /\ 0 <= limit < 2 ^ 63) ->
  exists m, offset_limit skip limit rows = Raise (RuntimeError m).
Proof.
  intros Hout. unfold offset_limit, fits_BigInteger.
  destruct (negb _) eqn:Efit; [eauto|].
  apply negb_false_iff in Efit.
  repeat (apply andb_true_iff in Efit; destruct Efit as [Efit ?]).
  destruct (skip <? 0) eqn:E1; [eauto|].
  destruct (limit <? 0) eqn:E2; [eauto|].
  exfalso. apply Hout.
  repeat match goal with
         | H : (_ <=? _) = true |- _ => apply Z.leb_le in H
         | H : (_ <? _) = true |- _ => apply Z.ltb_lt in H
         | H : (_ <? _) = false |- _ => apply Z.ltb_ge in H
         end.
  lia.
Qed.

Lemma page_length {A : Type} (skip limit : Z) (rows : list A) :
  0 <= limit ->
  Z.of_nat (List.length (firstn (Z.to_nat limit) (skipn (Z.to_nat skip) rows)))
  <= limit.
Proof.
  intros Hl. pose proof (firstn_le_length (Z.to_nat limit)
                           (skipn (Z.to_nat skip) rows)). lia.
Qed.

Lemma page_incl {A : Type} (n m : nat) (rows : list A) (x : A) :
  In x (firstn n (skipn m rows)) -> In x rows.
Proof.
  intros H. rewrite <- (firstn_skipn m rows). apply in_or_app. right.
  rewrite <- (firstn_skipn n (skipn m rows)). apply in_or_app. now left.
Qed.

(** A first page as long as the selection is the whole selection. *)
Lemma page_covers {A : Type} (limit : Z) (rows : list A) :
  Z.of_nat (List.length rows) <= limit ->
  firstn (Z.to_nat limit) (skipn (Z.to_nat 0) rows) = rows.
Proof.
  intros H. simpl. apply firstn_all2. lia.
Qed.

Lemma connectors_of_In (w : World) (user : User.t)
    (c : SearchSourceConnector.t) :
  In c (connectors_of w user)
  <-> In c (connectors w) /\ SearchSourceConnector.user_id c = User.id user.
Proof.
  unfold connectors_of. rewrite filter_In, N.eqb_eq. reflexivity.
Qed.

(** X1: GET /search-source-connectors/ answers with rows exactly for a skip
    and a limit between 0 and 2^63 - 1, and with status 500 otherwise.  In
    whatever order the database gives the selected rows, the answer has at
    most [limit] connectors, each a connector of the table that the caller
    owns: no other user's connector is ever listed; and a first page at
    least as long as the caller's connectors holds every one of them. *)
Theorem read_connectors_owned_and_bounded
    (scan : forall A : Type, list A -> list A) (skip limit : Z) (w : World)
    (user : User.t) :
  (forall (A : Type) (l : list A), Permutation (scan A l) l) ->
  (0 <= skip < 2 ^ 63 /\ 0 <= limit < 2 ^ 63 ->
   exists rows,
     read_search_source_connectors scan skip limit w user = Ok rows
     /\ Z.of_nat (List.length rows) <= limit
     /\ (forall c, In c rows ->
           In c (connectors w)
           /\ SearchSourceConnector.user_id c = User.id user)
     /\ (skip = 0 ->
         Z.of_nat (List.length (connectors_of w user)) <= limit ->
         forall c, In c (connectors w) ->
           SearchSourceConnector.user_id c = User.id user -> In c rows))
  /\ (~ (0 <= skip < 2 ^ 63 /\ 0 <= limit < 2 ^ 63) ->
      exists detail,
        read_search_source_connectors scan skip limit w user
        = Raise (HTTPException 500 detail)).
Proof.
  intros Hscan. unfold read_search_source_connectors. split.
  - intros Hin. rewrite (offset_limit_in_range _ _ _ Hin).
    eexists. split; [reflexivity|]. split; [apply page_length; lia|]. split.
    + intros c Hc. apply page_incl in Hc.
      apply (Permutation_in _ (Hscan _ _)) in Hc.
      now apply connectors_of_In.
    + intros -> Hall c Hc Hu. rewrite page_covers.
      * apply (Permutation_in _ (Permutation_sym (Hscan _ _))).
        now apply connectors_of_In.
      * now rewrite (Permutation_length (Hscan _ _)).
  - intros Hout.
    destruct (offset_limit_out_of_range skip limit
                (scan _ (connectors_of w user)) Hout) as [m ->].
    eauto.
Qed.

Lemma read_connectors_owned_and_bounded_witness :
  read_search_source_connectors (fun A => @rev A) 0 100 demo_world alice
  = Ok [demo_serper; demo_slack]
  /\ read_search_source_connectors (fun A => @rev A) 1 1 demo_world alice
     = Ok [demo_slack]
  /\ exists rows,
       read_search_source_connectors (fun A => @rev A) 1 1 demo_world alice
       = Ok rows
       /\ Z.of_nat (List.length rows) <= 1
       /\ forall c, In c rows ->
            In c (connectors demo_world)
            /\ SearchSourceConnector.user_id c = User.id alice.
Proof.
  split; [reflexivity|]. split; [reflexivity|].
  destruct (read_connectors_owned_and_bounded (fun A => @rev A) 1 1
              demo_world alice
              (fun A l => Permutation_sym (Permutation_rev l)))
    as [Hok _].
  destruct Hok as (rows & Hrows & Hlen & Hown & _); [lia|].
  exists rows. auto.
Defined.

Lemma documents_of_In (w : World) (user : User.t) (d : Document.t) :
  In d (documents_of w user)
  <-> In d (documents (working (session w)))
      /\ exists sp, In sp (searchspaces (working (session w)))
                    /\ SearchSpace.id sp = Document.search_space_id d
                    /\ SearchSpace.user_id sp = User.id user.
Proof.
  unfold documents_of. rewrite filter_In, existsb_exists. split.
  - intros [Hin (sp & Hsp & Hc)]. apply andb_true_iff in Hc.
    destruct Hc as [H1 H2]. apply Z.eqb_eq in H1. apply N.eqb_eq in H2.
    eauto.
  - intros [Hin (sp & Hsp & H1 & H2)]. split; [exact Hin|]. exists sp.
    split; [exact Hsp|]. apply andb_true_iff.
    split; [now apply Z.eqb_eq | now apply N.eqb_eq].
Qed.

(** X3: GET /documents/ answers with rows exactly for a skip and a limit
    between 0 and 2^63 - 1, and with status 500 otherwise.  In whatever
    order the database gives the selected rows, the answer has at most
    [limit] documents, each the API form of a stored document whose search
    space belongs to the caller: no document of another user's search space
    is ever listed; and a first page at least as long as the caller's
    documents holds every one of them. *)
Theorem read_documents_owned_and_bounded
    (scan : forall A : Type, list A -> list A) (skip limit : Z) (w : World)
    (user : User.t) :
  (forall (A : Type) (l : list A), Permutation (scan A l) l) ->
  (0 <= skip < 2 ^ 63 /\ 0 <= limit < 2 ^ 63 ->
   exists docs,
     read_documents scan skip limit w user = Ok (map to_DocumentRead docs)
     /\ Z.of_nat (List.length docs) <= limit
     /\ (forall d, In d docs ->
           In d (documents (working (session w)))
           /\ exists sp, In sp (searchspaces (working (session w)))
                         /\ SearchSpace.id sp = Document.search_space_id d
                         /\ SearchSpace.user_id sp = User.id user)
     /\ (skip = 0 ->
         Z.of_nat (List.length (documents_of w user)) <= limit ->
         forall d, In d (documents_of w user) -> In d docs))
  /\ (~ (0 <= skip < 2 ^ 63 /\ 0 <= limit < 2 ^ 63) ->
      exists detail,
        read_documents scan skip limit w user
        = Raise (HTTPException 500 detail)).
Proof.
  intros Hscan. unfold read_documents. split.
  - intros Hin. rewrite (offset_limit_in_range _ _ _ Hin).
    eexists. split; [reflexivity|]. split; [apply page_length; lia|]. split.
    + intros d Hd. apply page_incl in Hd.
      apply (Permutation_in _ (Hscan _ _)) in Hd.
      now apply documents_of_In.
    + intros -> Hall d Hd. rewrite page_covers.
      * exact (Permutation_in _ (Permutation_sym (Hscan _ _)) Hd).
      * now rewrite (Permutation_length (Hscan _ _)).
  - intros Hout.
    destruct (offset_limit_out_of_range skip limit
                (scan _ (documents_of w user)) Hout) as [m ->].
    eauto.
Qed.

Lemma read_documents_owned_and_bounded_witness :
  read_documents (fun A => @rev A) 0 300 demo_world bob
  = Ok [DocumentRead.mk 3 "c" DocumentType.EXTENSION None "gamma" last_week 2]
  /\ exists docs,
       read_documents (fun A => @rev A) 0 300 demo_world bob
       = Ok (map to_DocumentRead docs)
       /\ Z.of_nat (List.length docs) <= 300
       /\ forall d, In d docs ->
            In d (documents (working (session demo_world)))
            /\ exists sp, In sp (searchspaces (working (session demo_world)))
                          /\ SearchSpace.id sp = Document.search_space_id d
                          /\ SearchSpace.user_id sp = User.id bob.
Proof.
  split; [reflexivity|].
  destruct (read_documents_owned_and_bounded (fun A => @rev A) 0 300
              demo_world bob
              (fun A l => Permutation_sym (Permutation_rev l)))
    as [Hok _].
  destruct Hok as (docs & Hdocs & Hlen & Hown & _); [lia|].
  exists docs. auto.
Defined.

Lemma select_document_some (w : World) (document_id : Z) (user : User.t)
    (d : Document.t) :
  select_document w document_id user = Some d ->
  In d (documents_of w user) /\ Document.id d = document_id.
Proof.
  unfold select_document, documents_of. intros H. apply find_some in H.
  destruct H as [Hin H]. apply andb_true_iff in H. destruct H as [Hid Hsp].
  apply Z.eqb_eq in Hid. split; [|exact Hid]. apply filter_In. auto.
Qed.

(** X4: GET /documents/{document_id} succeeds exactly when a document with
    that id lies in a search space of the caller, and what it returns is the
    API form of such a document: it carries the requested id and never a
    document of another user's search space. *)
Theorem read_document_returns_own_document (document_id : Z) (w : World)
    (user : User.t) :
  (forall r,
     read_document document_id w user = Ok r ->
     DocumentRead.id r = document_id
     /\ exists d, In d (documents_of w user) /\ r = to_DocumentRead d)
  /\ (forall d,
        In d (documents_of w user) -> Document.id d = document_id ->
        exists r, read_document document_id w user = Ok r).
Proof.
  unfold read_document. split.
  - intros r H.
    destruct (select_document w document_id user) as [d|] eqn:Hsel;
      [|discriminate].
    apply select_document_some in Hsel. destruct Hsel as [Hin Hid].
    inversion H; subst r. split; [exact Hid|]. now exists d.
  - intros d Hin Hid.
    destruct (select_document w document_id user) as [d'|] eqn:Hsel;
      [eauto|].
    exfalso. apply documents_of_In in Hin. destruct Hin as [Hd Hsp].
    unfold select_document in Hsel.
    pose proof (find_none _ _ Hsel d Hd) as Hf. simpl in Hf.
    rewrite (proj2 (Z.eqb_eq _ _) Hid) in Hf. simpl in Hf.
    destruct Hsp as (sp & Hsp & H1 & H2).
    assert (Hex : existsb
                    (fun sp0 =>
                       (SearchSpace.id sp0 =? Document.search_space_id d)
                       && N.eqb (SearchSpace.user_id sp0) (User.id user))
                    (searchspaces (working (session w))) = true).
    { apply existsb_exists. exists sp. split; [exact Hsp|].
      apply andb_true_iff.
      split; [now apply Z.eqb_eq | now apply N.eqb_eq]. }
    congruence.
Qed.

Lemma read_document_returns_own_document_witness :
  read_document 2 demo_world alice
  = Ok (DocumentRead.mk 2 "b" DocumentType.CRAWLED_URL None "beta"
          last_week 1)
  /\ DocumentRead.id
       (DocumentRead.mk 2 "b" DocumentType.CRAWLED_URL None "beta"
          last_week 1) = 2.
Proof.
  split; [reflexivity|].
  exact (proj1 (proj1 (read_document_returns_own_document 2 demo_world alice)
                  _ eq_refl)).
Defined.

(** ** Queueing documents *)

Lemma world_commit_ok (w : World) :
  unique_connector_type (working (session w)) = true ->
  world_commit w = (committed w, Ok tt).
Proof. intros H. unfold world_commit, commit, committed. now rewrite H. Qed.

(** X5: a create-documents request of type EXTENSION or CRAWLED_URL for a
    search space of the caller commits and appends to the queue one task per
    item of the request, in the request's order and for the request's search
    space, after the tasks already queued; a request with no item succeeds
    and queues nothing. *)
Theorem create_documents_queues_each_item
    (denied : exn) (request : DocumentsCreate.t) (w : World) (user : User.t)
    (tasks : list Task) (sp : SearchSpace.t) :
  check_ownership denied (searchspaces (working (session w)))
    SearchSpace.id SearchSpace.user_id
    (DocumentsCreate.search_space_id request) user = Ok sp ->
  unique_connector_type (working (session w)) = true ->
  (DocumentsCreate.document_type request = DocumentType.EXTENSION ->
   create_documents denied request w user tasks
   = (committed w,
      tasks ++ map (fun item =>
                      add_extension_received_document item
                        (DocumentsCreate.search_space_id request))
                   (DocumentsCreate.content request),
      Ok "Documents processed successfully"))
  /\ (DocumentsCreate.document_type request = DocumentType.CRAWLED_URL ->
      create_documents denied request w user tasks
      = (committed w,
         tasks ++ map (fun url =>
                         add_crawled_url_document url
                           (DocumentsCreate.search_space_id request))
                      (DocumentsCreate.content request),
         Ok "Documents processed successfully"))
  /\ (DocumentsCreate.document_type request = DocumentType.EXTENSION
      \/ DocumentsCreate.document_type request = DocumentType.CRAWLED_URL ->
      List.length (snd (fst (create_documents denied request w user tasks)))
      = (List.length tasks
         + List.length (DocumentsCreate.content request))%nat).
Proof.
  intros Hown Hu. unfold create_documents. rewrite Hown.
  rewrite (world_commit_ok w Hu).
  split; [|split].
  - intros ->. reflexivity.
  - intros ->. reflexivity.
  - intros [-> | ->]; simpl; now rewrite length_app, length_map.
Qed.

Lemma create_documents_queues_each_item_witness :
  create_documents demo_denied
    (DocumentsCreate.mk DocumentType.CRAWLED_URL
       ["https://a.example"; "https://b.example"] 1)
    demo_world alice [run_slack_indexing_task 1 1]
  = (demo_world,
     [run_slack_indexing_task 1 1;
      add_crawled_url_document "https://a.example" 1;
      add_crawled_url_document "https://b.example" 1],
     Ok "Documents processed successfully")
  /\ create_documents demo_denied
       (DocumentsCreate.mk DocumentType.EXTENSION [] 1) demo_world alice []
     = (demo_world, [], Ok "Documents processed successfully").
Proof.
  split.
  - exact (proj1 (proj2 (create_documents_queues_each_item demo_denied
                           (DocumentsCreate.mk DocumentType.CRAWLED_URL
                              ["https://a.example"; "https://b.example"] 1)
                           demo_world alice [run_slack_indexing_task 1 1]
                           (SearchSpace.mk 1 last_week "research" None 1%N)
                           eq_refl eq_refl)) eq_refl).
  - reflexivity.
Defined.

(** ** The file upload *)

Section UploadFacts.

Variable aload : UploadFile.t -> result (list string).

Lemma upload_files_loaded (loaded : list (UploadFile.t * list string))
    (search_space_id : Z) (tasks : list AnyTask) :
  Forall (fun fe => aload (fst fe) = Ok (snd fe)) loaded ->
  upload_files aload (map fst loaded) search_space_id tasks
  = (tasks ++ map (upload_task search_space_id) loaded, Ok tt).
Proof.
  intros H. revert tasks.
  induction H as [|fe loaded Hfe _ IH]; intros tasks; simpl.
  - now rewrite app_nil_r.
  - rewrite Hfe, IH, <- app_assoc. reflexivity.
Qed.

Lemma upload_files_stops (loaded : list (UploadFile.t * list string))
    (bad : UploadFile.t) (e : exn) (rest : list UploadFile.t)
    (search_space_id : Z) (tasks : list AnyTask) :
  Forall (fun fe => aload (fst fe) = Ok (snd fe)) loaded ->
  aload bad = Raise e ->
  upload_files aload (map fst loaded ++ bad :: rest) search_space_id tasks
  = (tasks ++ map (upload_task search_space_id) loaded,
     Raise (HTTPException 422
       ("Failed to process file " ++ UploadFile.filename bad ++ ": "
        ++ str_exn e))).
Proof.
  intros H Hbad. revert tasks.
  induction H as [|fe loaded Hfe _ IH]; intros tasks; simpl.
  - now rewrite Hbad, app_nil_r.
  - rewrite Hfe, IH, <- app_assoc. reflexivity.
Qed.

End UploadFacts.

(** X6: an upload stops at the first file the loader fails on and answers
    422 naming that file; the files after it are not loaded, nothing is
    committed, and the tasks queued for the files before it stay in the
    queue. *)
Theorem fileupload_stops_at_first_failure
    (denied : exn) (aload : UploadFile.t -> result (list string))
    (loaded : list (UploadFile.t * list string)) (bad : UploadFile.t)
    (e : exn) (rest : list UploadFile.t) (search_space_id : Z) (w : World)
    (user : User.t) (tasks : list AnyTask) (sp : SearchSpace.t) :
  check_ownership denied (searchspaces (working (session w)))
    SearchSpace.id SearchSpace.user_id search_space_id user = Ok sp ->
  Forall (fun fe => aload (fst fe) = Ok (snd fe)) loaded ->
  aload bad = Raise e ->
  create_documents_fileupload denied aload
    (map fst loaded ++ bad :: rest) search_space_id w user tasks
  = (w,
     tasks ++ map (upload_task search_space_id) loaded,
     Raise (HTTPException 422
       ("Failed to process file " ++ UploadFile.filename bad ++ ": "
        ++ str_exn e))).
Proof.
  intros Hown Hloaded Hbad. unfold create_documents_fileupload.
  rewrite Hown.
  rewrite (upload_files_stops aload loaded bad e rest search_space_id tasks
             Hloaded Hbad).
  destruct loaded; reflexivity.
Qed.

Lemma fileupload_stops_at_first_failure_witness :
  create_documents_fileupload demo_denied demo_aload
    [notes_txt; blank_txt; todo_txt] 1 demo_world alice []
  = (demo_world,
     [inr (add_received_file_document "notes.txt" ["hello"] 1)],
     Raise (HTTPException 422
       "Failed to process file blank.txt: empty file")).
Proof.
  refine (fileupload_stops_at_first_failure demo_denied demo_aload
            [(notes_txt, ["hello"])] blank_txt (ValueError "empty file")
            [todo_txt] 1 demo_world alice []
            (SearchSpace.mk 1 last_week "research" None 1%N)
            eq_refl _ eq_refl).
  repeat constructor.
Defined.

(** X7: an upload with no file answers 400 "No files provided" and changes
    nothing; an upload whose files all load commits and queues one task per
    file, in order, each with the file's name and elements. *)
Theorem fileupload_all_or_none
    (denied : exn) (aload : UploadFile.t -> result (list string))
    (search_space_id : Z) (w : World) (user : User.t)
    (tasks : list AnyTask) (sp : SearchSpace.t) :
  check_ownership denied (searchspaces (working (session w)))
    SearchSpace.id SearchSpace.user_id search_space_id user = Ok sp ->
  create_documents_fileupload denied aload [] search_space_id w user tasks
  = (w, tasks, Raise (HTTPException 400 "No files provided"))
  /\ forall loaded,
       loaded <> [] ->
       Forall (fun fe => aload (fst fe) = Ok (snd fe)) loaded ->
       unique_connector_type (working (session w)) = true ->
       create_documents_fileupload denied aload (map fst loaded)
         search_space_id w user tasks
       = (committed w,
          tasks ++ map (upload_task search_space_id) loaded,
          Ok "Files added for processing successfully").
Proof.
  intros Hown. unfold create_documents_fileupload. rewrite Hown.
  split; [reflexivity|].
  intros loaded Hne Hloaded Hu.
  rewrite (upload_files_loaded aload loaded search_space_id tasks Hloaded).
  rewrite (world_commit_ok w Hu).
  destruct loaded; [contradiction | reflexivity].
Qed.

Lemma fileupload_all_or_none_witness :
  create_documents_fileupload demo_denied demo_aload [] 1 demo_world alice []
  = (demo_world, [], Raise (HTTPException 400 "No files provided"))
  /\ create_documents_fileupload demo_denied demo_aload
       [notes_txt; todo_txt] 1 demo_world alice []
     = (demo_world,
        [inr (add_received_file_document "notes.txt" ["hello"] 1);
         inr (add_received_file_document "todo.txt" ["buy milk"] 1)],
        Ok "Files added for processing successfully").
Proof.
  pose proof (fileupload_all_or_none demo_denied demo_aload 1 demo_world
                alice [] (SearchSpace.mk 1 last_week "research" None 1%N)
                eq_refl) as [Hnone Hall].
  split; [exact Hnone|].
  refine (Hall [(notes_txt, ["hello"]); (todo_txt, ["buy milk"])] _ _ eq_refl);
    [discriminate | repeat constructor].
Defined.

(** ** What a delete takes with it *)

Lemma cascade_sound (st : Store) (root : Ref) (fuel : nat)
    (rows : list (Ref * option Ref)) (doomed : list Ref) :
  rows = store_rows st ->
  (forall r, In r doomed -> descends st root r) ->
  forall r, In r (cascade fuel rows doomed) -> descends st root r.
Proof.
  intros Hrows. revert doomed.
  induction fuel as [|fuel IH]; intros doomed Hd r Hr; simpl in Hr;
    [now apply Hd|].
  destruct (children rows doomed) as [|k next] eqn:Hch; [now apply Hd|].
  apply (IH (doomed ++ k :: next)); [|exact Hr].
  intros x Hx. apply in_app_or in Hx. destruct Hx as [Hx|Hx]; [now apply Hd|].
  rewrite <- Hch in Hx. unfold children in Hx. apply in_map_iff in Hx.
  destruct Hx as [[key parent] [Hkey Hrow]]. simpl in Hkey. subst x.
  apply filter_In in Hrow. destruct Hrow as [Hin Hf].
  unfold follows in Hf. simpl in Hf.
  destruct parent as [parent|]; [|discriminate].
  apply andb_true_iff in Hf. destruct Hf as [Hf _].
  apply andb_true_iff in Hf. destruct Hf as [Hmem Hrel].
  apply ref_mem_In in Hmem.
  apply (descends_child st root key parent); [now apply Hd | now subst rows
                                             | exact Hrel].
Qed.

(** The rows doomed with [root] are exactly the rows below it. *)
Lemma doomed_with_descends (st : Store) (root r : Ref) :
  In r (doomed_with st root) <-> descends st root r.
Proof.
  split.
  - apply (cascade_sound st root _ _ [root] eq_refl).
    intros x [<-|[]]. constructor.
  - intros H. induction H as [|key parent _ IH Hrow Hrel].
    + apply cascade_grows. now left.
    + exact (closed_follows _ _ key parent (doomed_with_closed st root)
               Hrow IH Hrel).
Qed.

Lemma keep_ext {A : Type} (t : Table) (id_of : A -> Z) (doomed : list Ref)
    (f : A -> bool) (rows : list A) :
  (forall r, In r rows -> (In (t, id_of r) doomed <-> f r = false)) ->
  keep t id_of doomed rows = filter f rows.
Proof.
  intros H. unfold keep. apply filter_ext_in. intros r Hr.
  specialize (H r Hr). rewrite <- ref_mem_In in H.
  destruct (ref_mem (t, id_of r) doomed), (f r); simpl; try reflexivity.
  - destruct H as [H _]. specialize (H eq_refl). discriminate.
  - destruct H as [_ H]. specialize (H eq_refl). discriminate.
Qed.

Lemma keep_all {A : Type} (t : Table) (id_of : A -> Z) (doomed : list Ref)
    (rows : list A) :
  (forall r, In r rows -> ~ In (t, id_of r) doomed) ->
  keep t id_of doomed rows = rows.
Proof.
  intros H. rewrite (keep_ext t id_of doomed (fun _ => true)).
  - apply filter_true.
  - intros r Hr. split; [intros Hin; exfalso; exact (H r Hr Hin)
                        | discriminate].
Qed.

(** The rows of the store that have a parent, by table. *)
Lemma store_rows_parent (st : Store) (key parent : Ref) :
  In (key, Some parent) (store_rows st) ->
  (exists d, In d (documents st) /\ key = (T_documents, Document.id d)
             /\ parent = (T_searchspaces, Document.search_space_id d))
  \/ (exists c, In c (chunks st) /\ key = (T_chunks, Chunk.id c)
                /\ parent = (T_documents, Chunk.document_id c))
  \/ (exists p, In p (podcasts st) /\ key = (T_podcasts, Podcast.id p)
                /\ parent = (T_searchspaces, Podcast.search_space_id p))
  \/ (exists c, In c (chats st) /\ key = (T_chats, Chat.id c)
                /\ parent = (T_searchspaces, Chat.search_space_id c)).
Proof.
  unfold store_rows. intros H.
  repeat (apply in_app_or in H; destruct H as [H|H]);
    apply in_map_iff in H; destruct H as [x [Hx Hin]];
    inversion Hx; subst; eauto 8.
Qed.

(** Below a document: the document and its chunks. *)
Lemma descends_from_document (st : Store) (n : Z) (r : Ref) :
  descends st (T_documents, n) r
  <-> r = (T_documents, n)
      \/ exists c, In c (chunks st) /\ r = (T_chunks, Chunk.id c)
                   /\ Chunk.document_id c = n.
Proof.
  split.
  - intros H. induction H as [|key parent _ IH Hrow Hrel]; [now left|].
    right. apply store_rows_parent in Hrow.
    destruct IH as [->|(c0 & _ & -> & _)];
      destruct Hrow as [(d & _ & -> & Hp)|[(c & Hc & -> & Hp)
                       |[(p & _ & -> & Hp)|(c & _ & -> & Hp)]]];
      try discriminate Hp; try discriminate Hrel.
    inversion Hp. eauto.
  - intros [->|(c & Hc & -> & Hn)]; [constructor|].
    apply (descends_child st _ _ (T_documents, n)); [constructor | | reflexivity].
    rewrite <- Hn. now apply store_rows_chunk.
Qed.

(** X8: [session.delete] of a row removes from the unit of work exactly the
    rows below it along the cascading relationships of db.py, in every
    table, and touches nothing persisted: a row is kept if and only if it is
    neither the deleted row nor one of its descendants. *)
Theorem session_delete_removes_descendants (s : Session) (root : Ref) :
  let before := working s in
  let after := working (session_delete s root) in
  persisted (session_delete s root) = persisted s
  /\ (forall x, In x (searchspaces after) <->
        In x (searchspaces before)
        /\ ~ descends before root (T_searchspaces, SearchSpace.id x))
  /\ (forall x, In x (documents after) <->
        In x (documents before)
        /\ ~ descends before root (T_documents, Document.id x))
  /\ (forall x, In x (chunks after) <->
        In x (chunks before)
        /\ ~ descends before root (T_chunks, Chunk.id x))
  /\ (forall x, In x (podcasts after) <->
        In x (podcasts before)
        /\ ~ descends before root (T_podcasts, Podcast.id x))
  /\ (forall x, In x (chats after) <->
        In x (chats before)
        /\ ~ descends before root (T_chats, Chat.id x))
  /\ (forall x, In x (search_source_connectors after) <->
        In x (search_source_connectors before)
        /\ ~ descends before root
               (T_search_source_connectors, SearchSourceConnector.id x)).
Proof.
  intros before after. subst before after. unfold session_delete.
  cbn [working persisted].
  fold (doomed_with (working s) root). unfold delete_refs. cbn.
  split; [reflexivity|].
  repeat match goal with |- _ /\ _ => split end; intros x;
    (split;
     [ intros H; apply keep_In in H; destruct H as [Hin Hn];
       split; [exact Hin|]; intros Hd; apply Hn;
       now apply doomed_with_descends
     | intros [Hin Hn]; apply keep_In; split; [exact Hin|];
       intros Hd; apply Hn; now apply doomed_with_descends ]).
Qed.

Lemma delete_refs_document (st : Store) (n : Z) :
  NoDup (map Chunk.id (chunks st)) ->
  delete_refs st (doomed_with st (T_documents, n))
  = mkStore (searchspaces st)
      (filter (fun d => negb (Document.id d =? n)) (documents st))
      (filter (fun c => negb (Chunk.document_id c =? n)) (chunks st))
      (podcasts st) (chats st) (search_source_connectors st).
Proof.
  intros Hpk. unfold delete_refs. f_equal.
  - apply keep_all. intros r _ H. apply doomed_with_descends in H.
    apply descends_from_document in H.
    destruct H as [H|(c & _ & H & _)]; discriminate H.
  - apply keep_ext. intros d _. rewrite doomed_with_descends,
      descends_from_document, negb_false_iff, Z.eqb_eq. split.
    + intros [H|(c & _ & H & _)]; [now inversion H | discriminate H].
    + intros ->. now left.
  - apply keep_ext. intros c Hc. rewrite doomed_with_descends,
      descends_from_document, negb_false_iff, Z.eqb_eq. split.
    + intros [H|(c2 & Hc2 & H & Hn)]; [discriminate H|].
      inversion H as [Hid].
      now rewrite (NoDup_map_eq Chunk.id _ c c2 Hpk Hc Hc2 Hid).
    + intros Hn. right. eauto.
  - apply keep_all. intros r _ H. apply doomed_with_descends in H.
    apply descends_from_document in H.
    destruct H as [H|(c & _ & H & _)]; discriminate H.
  - apply keep_all. intros r _ H. apply doomed_with_descends in H.
    apply descends_from_document in H.
    destruct H as [H|(c & _ & H & _)]; discriminate H.
  - apply keep_all. intros r _ H. apply doomed_with_descends in H.
    apply descends_from_document in H.
    destruct H as [H|(c & _ & H & _)]; discriminate H.
Qed.

(** X9: DELETE /documents/{document_id}, for a document in a search space of
    the caller, commits a store that differs from the one before in exactly
    two tables: the documents with that id are gone, and the chunks that
    point to that id are gone; every other document and chunk, and all
    search spaces, podcasts, chats and connectors, stay. *)
Theorem delete_document_removes_document_and_chunks
    (document_id : Z) (w : World) (user : User.t) (d : Document.t) :
  select_document w document_id user = Some d ->
  unique_connector_type (working (session w)) = true ->
  NoDup (map Chunk.id (chunks (working (session w)))) ->
  let st := working (session w) in
  let st' :=
    mkStore (searchspaces st)
      (filter (fun x => negb (Document.id x =? document_id)) (documents st))
      (filter (fun c => negb (Chunk.document_id c =? document_id))
              (chunks st))
      (podcasts st) (chats st) (search_source_connectors st) in
  delete_document document_id w user
  = (set_session w (mkSession st' st'), Ok "Document deleted successfully").
Proof.
  intros Hsel Hu Hpk st st'. subst st st'. unfold delete_document.
  rewrite Hsel. apply select_document_some in Hsel. destruct Hsel as [_ Hid].
  unfold world_commit, commit, session_delete. cbn [session set_session
    working persisted].
  fold (doomed_with (working (session w)) (T_documents, Document.id d)).
  rewrite (delete_refs_unique _ _ Hu).
  rewrite Hid, (delete_refs_document _ document_id Hpk). reflexivity.
Qed.

Lemma delete_document_removes_document_and_chunks_witness :
  map Document.id
    (documents (persisted (session (fst (delete_document 1 demo_world
                                           alice)))))
  = [2; 3]
  /\ fst (delete_document 1 demo_world alice)
     = set_session demo_world
         (mkSession
            (mkStore (searchspaces demo_store)
               (filter (fun x => negb (Document.id x =? 1))
                       (documents demo_store))
               (filter (fun c => negb (Chunk.document_id c =? 1))
                       (chunks demo_store))
               (podcasts demo_store) (chats demo_store)
               (search_source_connectors demo_store))
            (mkStore (searchspaces demo_store)
               (filter (fun x => negb (Document.id x =? 1))
                       (documents demo_store))
               (filter (fun c => negb (Chunk.document_id c =? 1))
                       (chunks demo_store))
               (podcasts demo_store) (chats demo_store)
               (search_source_connectors demo_store))).
Proof.
  split; [reflexivity|].
  refine (f_equal fst (delete_document_removes_document_and_chunks 1
            demo_world alice
            (Document.mk 1 last_week "a" DocumentType.FILE None "alpha"
               (Some [1%float; 0%float; 0%float]) 1)
            eq_refl eq_refl _)).
  simpl. repeat constructor; simpl; intuition discriminate.
Defined.

(** Below a search space: the space, its documents, podcasts and chats, and
    the chunks of its documents. *)
Lemma descends_from_space (st : Store) (sid : Z) (r : Ref) :
  descends st (T_searchspaces, sid) r
  <-> r = (T_searchspaces, sid)
      \/ (exists d, In d (documents st) /\ r = (T_documents, Document.id d)
                    /\ Document.search_space_id d = sid)
      \/ (exists p, In p (podcasts st) /\ r = (T_podcasts, Podcast.id p)
                    /\ Podcast.search_space_id p = sid)
      \/ (exists c, In c (chats st) /\ r = (T_chats, Chat.id c)
                    /\ Chat.search_space_id c = sid)
      \/ (exists c d, In c (chunks st) /\ In d (documents st)
                      /\ r = (T_chunks, Chunk.id c)
                      /\ Chunk.document_id c = Document.id d
                      /\ Document.search_space_id d = sid).
Proof.
  split.
  - intros H. induction H as [|key parent _ IH Hrow Hrel]; [now left|].
    right. apply store_rows_parent in Hrow.
    destruct IH as [->|[(d0 & Hd0 & -> & Hs0)|[(p0 & _ & -> & _)
                   |[(c0 & _ & -> & _)|(c0 & d0 & _ & _ & -> & _)]]]];
      destruct Hrow as [(d & Hd & -> & Hp)|[(c & Hc & -> & Hp)
                       |[(p & Hpd & -> & Hp)|(c & Hc & -> & Hp)]]];
      try discriminate Hp; try discriminate Hrel; inversion Hp; subst.
    + left. eauto.
    + right. left. eauto.
    + right. right. left. eauto.
    + right. right. right. exists c, d0. auto.
  - intros [->|[(d & Hd & -> & Hs)|[(p & Hp & -> & Hs)
           |[(c & Hc & -> & Hs)|(c & d & Hc & Hd & -> & Hfk & Hs)]]]].
    + constructor.
    + apply (descends_child st _ _ (T_searchspaces, sid));
        [constructor | rewrite <- Hs; now apply store_rows_document
        | reflexivity].
    + apply (descends_child st _ _ (T_searchspaces, sid));
        [constructor | rewrite <- Hs; now apply store_rows_podcast
        | reflexivity].
    + apply (descends_child st _ _ (T_searchspaces, sid));
        [constructor | rewrite <- Hs; now apply store_rows_chat
        | reflexivity].
    + apply (descends_child st _ _ (T_documents, Document.id d));
        [| rewrite <- Hfk; now apply store_rows_chunk | reflexivity].
      apply (descends_child st _ _ (T_searchspaces, sid));
        [constructor | rewrite <- Hs; now apply store_rows_document
        | reflexivity].
Qed.

Lemma delete_refs_space (st : Store) (sid : Z) :
  primary_keys_ok st ->
  delete_refs st (doomed_with st (T_searchspaces, sid))
  = mkStore
      (filter (fun sp => negb (SearchSpace.id sp =? sid)) (searchspaces st))
      (filter (fun d => negb (Document.search_space_id d =? sid))
              (documents st))
      (filter (fun c => negb (chunk_in_space st sid c)) (chunks st))
      (filter (fun p => negb (Podcast.search_space_id p =? sid))
              (podcasts st))
      (filter (fun c => negb (Chat.search_space_id c =? sid)) (chats st))
      (search_source_connectors st).
Proof.
  intros (_ & Hdoc & Hchunk & Hpod & Hchat & _). unfold delete_refs. f_equal.
  - apply keep_ext. intros sp _. rewrite doomed_with_descends,
      descends_from_space, negb_false_iff, Z.eqb_eq. split.
    + intros [H|[(x & _ & H & _)|[(x & _ & H & _)|[(x & _ & H & _)
             |(x & y & _ & _ & H & _)]]]];
        [now inversion H | discriminate H ..].
    + intros ->. now left.
  - apply keep_ext. intros d Hd. rewrite doomed_with_descends,
      descends_from_space, negb_false_iff, Z.eqb_eq. split.
    + intros [H|[(x & Hx & H & Hs)|[(x & _ & H & _)|[(x & _ & H & _)
             |(x & y & _ & _ & H & _)]]]]; try discriminate H.
      inversion H as [Hid].
      now rewrite (NoDup_map_eq Document.id _ d x Hdoc Hd Hx Hid).
    + intros Hs. right. left. eauto.
  - apply keep_ext. intros c Hc. rewrite doomed_with_descends,
      descends_from_space, negb_false_iff. unfold chunk_in_space.
    rewrite existsb_exists. split.
    + intros [H|[(x & _ & H & _)|[(x & _ & H & _)|[(x & _ & H & _)
             |(x & y & Hx & Hy & H & Hfk & Hs)]]]]; try discriminate H.
      inversion H as [Hid].
      rewrite (NoDup_map_eq Chunk.id _ c x Hchunk Hc Hx Hid).
      exists y. split; [exact Hy|]. apply andb_true_iff.
      split; apply Z.eqb_eq; auto.
    + intros (y & Hy & H). apply andb_true_iff in H. destruct H as [H1 H2].
      apply Z.eqb_eq in H1, H2. right. right. right. right.
      exists c, y. auto.
  - apply keep_ext. intros p Hp. rewrite doomed_with_descends,
      descends_from_space, negb_false_iff, Z.eqb_eq. split.
    + intros [H|[(x & _ & H & _)|[(x & Hx & H & Hs)|[(x & _ & H & _)
             |(x & y & _ & _ & H & _)]]]]; try discriminate H.
      inversion H as [Hid].
      now rewrite (NoDup_map_eq Podcast.id _ p x Hpod Hp Hx Hid).
    + intros Hs. right. right. left. eauto.
  - apply keep_ext. intros c Hc. rewrite doomed_with_descends,
      descends_from_space, negb_false_iff, Z.eqb_eq. split.
    + intros [H|[(x & _ & H & _)|[(x & _ & H & _)|[(x & Hx & H & Hs)
             |(x & y & _ & _ & H & _)]]]]; try discriminate H.
      inversion H as [Hid].
      now rewrite (NoDup_map_eq Chat.id _ c x Hchat Hc Hx Hid).
    + intros Hs. right. right. right. left. eauto.
  - apply keep_all. intros c _ H. apply doomed_with_descends in H.
    apply descends_from_space in H.
    destruct H as [H|[(x & _ & H & _)|[(x & _ & H & _)|[(x & _ & H & _)
                  |(x & y & _ & _ & H & _)]]]]; discriminate H.
Qed.

(** X10: deleting a search space and committing, in a store whose primary
    keys are unique, removes exactly the space, the documents, podcasts and
    chats that point to it and the chunks of those documents; the rows of
    every other search space and all connectors are kept as they were. *)
Theorem delete_search_space_removes_only_its_rows (s : Session) (sid : Z) :
  primary_keys_ok (working s) ->
  unique_connector_type (working s) = true ->
  let st := working s in
  let st' :=
    mkStore
      (filter (fun sp => negb (SearchSpace.id sp =? sid)) (searchspaces st))
      (filter (fun d => negb (Document.search_space_id d =? sid))
              (documents st))
      (filter (fun c => negb (chunk_in_space st sid c)) (chunks st))
      (filter (fun p => negb (Podcast.search_space_id p =? sid))
              (podcasts st))
      (filter (fun c => negb (Chat.search_space_id c =? sid)) (chats st))
      (search_source_connectors st) in
  delete_search_space s sid = (mkSession st' st', Ok tt).
Proof.
  intros Hpk Hu st st'. subst st st'.
  unfold delete_search_space, commit, session_delete. cbn [working persisted].
  fold (doomed_with (working s) (T_searchspaces, sid)).
  rewrite (delete_refs_unique _ _ Hu).
  now rewrite (delete_refs_space _ sid Hpk).
Qed.

Lemma demo_primary_keys_ok : primary_keys_ok demo_store.
Proof.
  unfold primary_keys_ok. simpl.
  repeat split; repeat constructor; simpl; intuition discriminate.
Qed.

Lemma delete_search_space_removes_only_its_rows_witness :
  map Document.id (documents (persisted (fst (delete_search_space
                                                demo_session 2))))
  = [1; 2]
  /\ map Chunk.id (chunks (persisted (fst (delete_search_space
                                             demo_session 2))))
     = [1; 2; 3]
  /\ snd (delete_search_space demo_session 2) = Ok tt.
Proof.
  split; [reflexivity|]. split; [reflexivity|].
  exact (f_equal snd (delete_search_space_removes_only_its_rows demo_session
                        2 demo_primary_keys_ok eq_refl)).
Defined.

(** ** Creating connectors *)

Lemma nodupb_NoDup (l : list SearchSourceConnectorType.t) :
  nodupb SearchSourceConnectorType.eqb l = true <-> NoDup l.
Proof.
  induction l as [|x l IH]; simpl.
  - split; [constructor | reflexivity].
  - rewrite andb_true_iff, negb_true_iff, IH. split.
    + intros [Hx Hl]. constructor; [|exact Hl]. intros Hin.
      assert (existsb (SearchSourceConnectorType.eqb x) l = true);
        [|congruence].
      apply existsb_exists. exists x. split; [exact Hin|].
      now apply connector_type_eqb_eq.
    + intros H. inversion H as [|? ? Hnotin Hl]; subst. split; [|exact Hl].
      destruct (existsb (SearchSourceConnectorType.eqb x) l) eqn:E;
        [|reflexivity].
      apply existsb_exists in E. destruct E as [y [Hy He]].
      apply connector_type_eqb_eq in He. subst y. contradiction.
Qed.

Lemma unique_connector_type_NoDup (st : Store) :
  unique_connector_type st = true
  <-> NoDup (map SearchSourceConnector.connector_type
               (search_source_connectors st)).
Proof. apply nodupb_NoDup. Qed.

(** A serial key is above every key in use. *)
Lemma next_id_above (ids : list Z) (x : Z) : In x ids -> x < next_id ids.
Proof.
  unfold next_id. induction ids as [|a ids IH]; cbn [fold_right In];
    [contradiction|].
  intros [->|H]; [lia|]. specialize (IH H). lia.
Qed.

(** What a create that answers with a connector has done: the row is the one
    built from the request, it was appended to the table, and the commit
    went through, the unique constraint checked. *)
Lemma create_succeeded (connector : SearchSourceConnectorCreate.t)
    (w w' : World) (user : User.t) (c : SearchSourceConnector.t) :
  create_search_source_connector connector w user = (w', Ok c) ->
  c = new_connector connector w user
  /\ w' = committed (set_connectors w (connectors w ++ [c]))
  /\ NoDup (map SearchSourceConnector.connector_type (connectors w ++ [c])).
Proof.
  unfold create_search_source_connector.
  fold (new_connector connector w user).
  destruct (find _ (connectors w)) as [x|]; [simpl; discriminate|].
  unfold world_commit, commit.
  destruct (unique_connector_type _) eqn:Hu; simpl; [|discriminate].
  intros H. inversion H; subst c w'. split; [reflexivity|].
  split; [reflexivity|].
  apply unique_connector_type_NoDup in Hu. exact Hu.
Qed.

Lemma new_connector_fresh (connector : SearchSourceConnectorCreate.t)
    (w : World) (user : User.t) :
  ~ In (SearchSourceConnector.id (new_connector connector w user))
       (map SearchSourceConnector.id (connectors w)).
Proof.
  intros Hin. apply next_id_above in Hin.
  unfold new_connector in Hin. simpl in Hin. lia.
Qed.

(** X11: when a create request whose name fits the [String(100)] column is
    answered with a connector, that connector has a key no connector of the
    table had, the request's name, type and indexable flag, and the caller
    as owner; the persisted table is the table before with this one row
    appended, nothing is left uncommitted, the row is among those the
    caller's listing selects, and no connector of the table, of any owner,
    has its type. *)
Theorem create_stores_connector_for_caller
    (connector : SearchSourceConnectorCreate.t) (w w' : World)
    (user : User.t) (c : SearchSourceConnector.t) :
  create_search_source_connector connector w user = (w', Ok c) ->
  fits_String 100 (SearchSourceConnectorCreate.name connector) = true ->
  ~ In (SearchSourceConnector.id c)
       (map SearchSourceConnector.id (connectors w))
  /\ SearchSourceConnector.user_id c = User.id user
  /\ SearchSourceConnector.name c = SearchSourceConnectorCreate.name connector
  /\ SearchSourceConnector.connector_type c
     = SearchSourceConnectorCreate.connector_type connector
  /\ SearchSourceConnector.is_indexable c
     = SearchSourceConnectorCreate.is_indexable connector
  /\ search_source_connectors (persisted (session w')) = connectors w ++ [c]
  /\ working (session w') = persisted (session w')
  /\ In c (connectors_of w' user)
  /\ (forall x, In x (connectors w) ->
        SearchSourceConnector.connector_type x
          <> SearchSourceConnector.connector_type c).
Proof.
  intros Hcreate _.
  apply create_succeeded in Hcreate. destruct Hcreate as (Hc & Hw & Hnd).
  pose proof (new_connector_fresh connector w user) as Hfresh.
  rewrite <- Hc in Hfresh.
  split; [exact Hfresh|].
  do 4 (split; [now rewrite Hc|]).
  split; [now rewrite Hw|]. split; [now rewrite Hw|]. split.
  - apply connectors_of_In. split.
    + rewrite Hw. cbn. apply in_or_app. right. now left.
    + now rewrite Hc.
  - intros x Hx Hty. apply Hfresh.
    rewrite <- (NoDup_map_eq SearchSourceConnector.connector_type
                  (connectors w ++ [c]) x c Hnd); auto using in_map.
    + apply in_or_app. now left.
    + apply in_or_app. right. now left.
Qed.

Lemma create_stores_connector_for_caller_witness :
  exists c w',
    create_search_source_connector
      (SearchSourceConnectorCreate.mk "github"
         SearchSourceConnectorType.GITHUB_CONNECTOR true None "{}")
      demo_world bob
    = (w', Ok c)
    /\ ~ In (SearchSourceConnector.id c)
            (map SearchSourceConnector.id (connectors demo_world))
    /\ SearchSourceConnector.user_id c = User.id bob.
Proof.
  eexists. eexists. split; [reflexivity|].
  pose proof (create_stores_connector_for_caller
                (SearchSourceConnectorCreate.mk "github"
                   SearchSourceConnectorType.GITHUB_CONNECTOR true None "{}")
                demo_world _ bob _ eq_refl eq_refl) as (Hfresh & Hown & _).
  split; [exact Hfresh | exact Hown].
Defined.

(** A failed commit in a create or update handler leaves the world rolled
    back. *)
Lemma world_commit_refused (w : World) (cs : list SearchSourceConnector.t) :
  ~ NoDup (map SearchSourceConnector.connector_type cs) ->
  world_commit (set_connectors w cs)
  = (set_connectors w cs,
     Raise (IntegrityError "duplicate key value violates unique constraint")).
Proof.
  intros Hdup. unfold world_commit, commit.
  destruct (unique_connector_type (working (session (set_connectors w cs))))
    eqn:E.
  - exfalso. apply Hdup. now apply unique_connector_type_NoDup in E.
  - destruct w as [[p wk] c l]. reflexivity.
Qed.

(** X12: [connector_type] is unique in the whole table, not per owner: a
    create request, its name fitting the [String(100)] column, for a type
    that the caller does not have but some connector of the table has passes
    the handler's own check, is refused at the commit, and is answered 409
    "Integrity error"; the world is left rolled back, the persisted store as
    it was. *)
Theorem create_refused_across_owners
    (connector : SearchSourceConnectorCreate.t) (w : World) (user : User.t)
    (other : SearchSourceConnector.t) :
  In other (connectors w) ->
  SearchSourceConnector.connector_type other
    = SearchSourceConnectorCreate.connector_type connector ->
  (forall c, In c (connectors w) ->
     SearchSourceConnector.user_id c = User.id user ->
     SearchSourceConnector.connector_type c
       <> SearchSourceConnectorCreate.connector_type connector) ->
  fits_String 100 (SearchSourceConnectorCreate.name connector) = true ->
  exists m,
    create_search_source_connector connector w user
    = (world_rollback w,
       Raise (HTTPException 409
         ("Integrity error: A connector with this type already exists. "
          ++ m))).
Proof.
  intros Hin Hty Hnone _. unfold create_search_source_connector.
  fold (new_connector connector w user).
  rewrite find_none_of_all_false.
  2:{ intros c Hc.
      destruct (N.eqb (SearchSourceConnector.user_id c) (User.id user))
        eqn:Eu; [|reflexivity].
      apply N.eqb_eq in Eu. simpl.
      destruct (SearchSourceConnectorType.eqb _ _) eqn:E; [|reflexivity].
      apply connector_type_eqb_eq in E. exfalso. exact (Hnone c Hc Eu E). }
  rewrite world_commit_refused.
  - eexists. destruct w as [[p wk] c l]. reflexivity.
  - intros Hnd.
    assert (Heq : other = new_connector connector w user).
    { apply (NoDup_map_eq SearchSourceConnector.connector_type
               (connectors w ++ [new_connector connector w user]) _ _ Hnd).
      - apply in_or_app. now left.
      - apply in_or_app. right. now left.
      - exact Hty. }
    apply (Hnone other Hin); [now rewrite Heq | exact Hty].
Qed.

Lemma create_refused_across_owners_witness :
  exists m,
    create_search_source_connector
      (SearchSourceConnectorCreate.mk "slack"
         SearchSourceConnectorType.SLACK_CONNECTOR true None "{}")
      demo_world bob
    = (demo_world,
       Raise (HTTPException 409
         ("Integrity error: A connector with this type already exists. "
          ++ m))).
Proof.
  refine (create_refused_across_owners
            (SearchSourceConnectorCreate.mk "slack"
               SearchSourceConnectorType.SLACK_CONNECTOR true None "{}")
            demo_world bob demo_slack (or_introl eq_refl) eq_refl _ eq_refl).
  intros c [<-|[<-|[<-|[]]]]; simpl; intros Hu; discriminate.
Defined.

(** X13: a create that was answered with a connector cannot be repeated: a
    second request of the same caller for the same type, whatever its other
    attributes, is answered 409 at the handler's own check, before anything
    is written, and leaves the world the first create produced. *)
Theorem create_is_refused_the_second_time
    (first second : SearchSourceConnectorCreate.t) (w w' : World)
    (user : User.t) (c : SearchSourceConnector.t) :
  create_search_source_connector first w user = (w', Ok c) ->
  SearchSourceConnectorCreate.connector_type second
    = SearchSourceConnectorCreate.connector_type first ->
  create_search_source_connector second w' user
  = (w', Raise (already_exists
                  (SearchSourceConnectorCreate.connector_type first))).
Proof.
  intros Hfirst Hsame.
  apply create_succeeded in Hfirst. destruct Hfirst as (Hc & Hw & _).
  rewrite (create_rejects_duplicate second w' user c).
  - rewrite Hsame. f_equal. apply world_rollback_clean. now rewrite Hw.
  - rewrite Hw. cbn. apply in_or_app. right. now left.
  - now rewrite Hc.
  - now rewrite Hsame, Hc.
Qed.

Lemma create_is_refused_the_second_time_witness :
  snd (create_search_source_connector
         (SearchSourceConnectorCreate.mk "github again"
            SearchSourceConnectorType.GITHUB_CONNECTOR false None "{}")
         (fst (create_search_source_connector
                 (SearchSourceConnectorCreate.mk "github"
                    SearchSourceConnectorType.GITHUB_CONNECTOR true None "{}")
                 demo_world bob))
         bob)
  = Raise (already_exists SearchSourceConnectorType.GITHUB_CONNECTOR).
Proof.
  refine (f_equal snd (create_is_refused_the_second_time
            (SearchSourceConnectorCreate.mk "github"
               SearchSourceConnectorType.GITHUB_CONNECTOR true None "{}")
            (SearchSourceConnectorCreate.mk "github again"
               SearchSourceConnectorType.GITHUB_CONNECTOR false None "{}")
            demo_world _ bob _ eq_refl eq_refl)).
Defined.

(** ** Deleting and updating connectors *)

(** Nothing lies below a connector. *)
Lemma descends_from_connector (st : Store) (n : Z) (r : Ref) :
  descends st (T_search_source_connectors, n) r
  <-> r = (T_search_source_connectors, n).
Proof.
  split; [|intros ->; constructor].
  intros H. induction H as [|key parent _ IH Hrow Hrel]; [reflexivity|].
  subst parent. apply store_rows_parent in Hrow.
  destruct Hrow as [(x & _ & _ & Hp)|[(x & _ & _ & Hp)
                   |[(x & _ & _ & Hp)|(x & _ & _ & Hp)]]]; discriminate Hp.
Qed.

Lemma delete_refs_connector (st : Store) (n : Z) :
  delete_refs st (doomed_with st (T_search_source_connectors, n))
  = with_search_source_connectors st
      (filter (fun c => negb (SearchSourceConnector.id c =? n))
              (search_source_connectors st)).
Proof.
  unfold delete_refs, with_search_source_connectors. f_equal;
    try (apply keep_all; intros r _ H; apply doomed_with_descends in H;
         apply descends_from_connector in H; discriminate H).
  apply keep_ext. intros c _.
  rewrite doomed_with_descends, descends_from_connector, negb_false_iff,
    Z.eqb_eq.
  split; [intros H; now inversion H | intros ->; reflexivity].
Qed.

Lemma check_ownership_inv {A : Type} (denied : exn) (rows : list A)
    (id_of : A -> Z) (owner_of : A -> UUID) (item_id : Z) (user : User.t)
    (r : A) :
  check_ownership denied rows id_of owner_of item_id user = Ok r ->
  In r rows /\ id_of r = item_id /\ owner_of r = User.id user.
Proof.
  unfold check_ownership. intros H.
  destruct (find _ rows) as [x|] eqn:E; [|discriminate].
  inversion H; subst x. now apply check_ownership_sound.
Qed.

(** The delete handler on a connector the ownership check returns. *)
Lemma delete_connector_commits
    (denied : exn) (connector_id : Z) (w : World) (user : User.t)
    (c : SearchSourceConnector.t) :
  check_ownership denied (connectors w) SearchSourceConnector.id
    SearchSourceConnector.user_id connector_id user = Ok c ->
  unique_connector_type (working (session w)) = true ->
  delete_search_source_connector denied connector_id w user
  = (committed
       (set_connectors w
          (filter (fun x => negb (SearchSourceConnector.id x =? connector_id))
                  (connectors w))),
     Ok "Search source connector deleted successfully").
Proof.
  intros Hown Hu. unfold delete_search_source_connector. rewrite Hown.
  apply check_ownership_inv in Hown. destruct Hown as (_ & Hid & _).
  unfold world_commit, commit, session_delete.
  cbn [session set_session working persisted].
  fold (doomed_with (working (session w))
          (T_search_source_connectors, SearchSourceConnector.id c)).
  rewrite (delete_refs_unique _ _ Hu), Hid, delete_refs_connector.
  reflexivity.
Qed.

(** X14: DELETE /search-source-connectors/{connector_id}, for a connector
    the ownership check returns, commits a store in which the connectors
    with that key are gone and nothing else has changed: every other
    connector and every row of the other tables stays. *)
Theorem delete_connector_removes_only_it
    (denied : exn) (connector_id : Z) (w : World) (user : User.t)
    (c : SearchSourceConnector.t) :
  check_ownership denied (connectors w) SearchSourceConnector.id
    SearchSourceConnector.user_id connector_id user = Ok c ->
  unique_connector_type (working (session w)) = true ->
  let kept :=
    filter (fun x => negb (SearchSourceConnector.id x =? connector_id))
           (connectors w) in
  delete_search_source_connector denied connector_id w user
  = (committed (set_connectors w kept),
     Ok "Search source connector deleted successfully")
  /\ ~ In c kept
  /\ (forall x, In x (connectors w) ->
                SearchSourceConnector.id x <> connector_id -> In x kept)
  /\ documents (working (session (set_connectors w kept)))
     = documents (working (session w))
  /\ searchspaces (working (session (set_connectors w kept)))
     = searchspaces (working (session w)).
Proof.
  intros Hown Hu kept. subst kept.
  split; [now apply (delete_connector_commits denied _ _ _ c)|].
  apply check_ownership_inv in Hown. destruct Hown as (_ & Hid & _).
  split; [|split; [|split; reflexivity]].
  - intros H. apply filter_In in H. destruct H as [_ H].
    rewrite Hid, Z.eqb_refl in H. discriminate.
  - intros x Hx Hne. apply filter_In. split; [exact Hx|].
    apply negb_true_iff. now apply Z.eqb_neq.
Qed.

Lemma delete_connector_removes_only_it_witness :
  map SearchSourceConnector.id
    (search_source_connectors
       (persisted (session (fst (delete_search_source_connector demo_denied
                                   2 demo_world alice)))))
  = [1; 3]
  /\ snd (delete_search_source_connector demo_denied 2 demo_world alice)
     = Ok "Search source connector deleted successfully".
Proof.
  split; [reflexivity|].
  exact (f_equal snd (proj1 (delete_connector_removes_only_it demo_denied 2
                               demo_world alice demo_serper eq_refl
                               eq_refl))).
Defined.

Lemma find_app_new {A : Type} (f : A -> bool) (l : list A) (x : A) :
  (forall a, In a l -> f a = false) -> f x = true ->
  find f (l ++ [x]) = Some x.
Proof.
  intros Hl Hx. induction l as [|a l IH]; simpl.
  - now rewrite Hx.
  - rewrite (Hl a (or_introl eq_refl)). apply IH.
    intros b Hb. apply Hl. now right.
Qed.

Lemma filter_app_new (cs : list SearchSourceConnector.t)
    (c : SearchSourceConnector.t) :
  ~ In (SearchSourceConnector.id c) (map SearchSourceConnector.id cs) ->
  filter (fun x => negb (SearchSourceConnector.id x
                         =? SearchSourceConnector.id c)) (cs ++ [c])
  = cs.
Proof.
  intros Hfresh. rewrite filter_app. simpl. rewrite Z.eqb_refl. simpl.
  rewrite app_nil_r. rewrite <- (filter_true cs) at 2.
  apply filter_ext_in. intros a Ha. apply negb_true_iff, Z.eqb_neq.
  intros Heq. apply Hfresh. rewrite <- Heq. now apply in_map.
Qed.

(** X15: create and delete are inverse: deleting, as the same caller, the
    connector a create was answered with succeeds and commits the store the
    create started from. *)
Theorem create_then_delete_restores_store
    (denied : exn) (connector : SearchSourceConnectorCreate.t) (w w' : World)
    (user : User.t) (c : SearchSourceConnector.t) :
  create_search_source_connector connector w user = (w', Ok c) ->
  delete_search_source_connector denied (SearchSourceConnector.id c) w' user
  = (committed w, Ok "Search source connector deleted successfully").
Proof.
  intros Hcreate.
  apply create_succeeded in Hcreate. destruct Hcreate as (Hc & Hw & Hnd).
  pose proof (new_connector_fresh connector w user) as Hfresh.
  rewrite <- Hc in Hfresh.
  assert (Huser : SearchSourceConnector.user_id c = User.id user)
    by now rewrite Hc.
  clear Hc. subst w'.
  rewrite (delete_connector_commits denied _ _ user c).
  - f_equal.
    change (connectors (committed (set_connectors w (connectors w ++ [c]))))
      with (connectors w ++ [c]).
    rewrite (filter_app_new _ c Hfresh).
    destruct w as [[p [a b d e f g]] k l]. reflexivity.
  - unfold check_ownership.
    change (connectors (committed (set_connectors w (connectors w ++ [c]))))
      with (connectors w ++ [c]).
    rewrite (find_app_new _ (connectors w) c); [reflexivity | |].
    + intros a Ha. apply andb_false_iff. left. apply Z.eqb_neq.
      intros Heq. apply Hfresh. rewrite <- Heq. now apply in_map.
    + cbv beta. rewrite Z.eqb_refl, Huser. apply N.eqb_refl.
  - apply unique_connector_type_NoDup. exact Hnd.
Qed.

Lemma create_then_delete_restores_store_witness :
  exists c w',
    create_search_source_connector
      (SearchSourceConnectorCreate.mk "github"
         SearchSourceConnectorType.GITHUB_CONNECTOR true None "{}")
      demo_world bob
    = (w', Ok c)
    /\ delete_search_source_connector demo_denied
         (SearchSourceConnector.id c) w' bob
       = (demo_world, Ok "Search source connector deleted successfully").
Proof.
  eexists. eexists. split; [reflexivity|].
  exact (create_then_delete_restores_store demo_denied
           (SearchSourceConnectorCreate.mk "github"
              SearchSourceConnectorType.GITHUB_CONNECTOR true None "{}")
           demo_world _ bob _ eq_refl).
Defined.

(** What an update that answers with a connector has done: the row the
    ownership check returned was rewritten with the request's values, and
    the commit went through, the unique constraint checked. *)
Lemma update_succeeded (denied : exn) (connector_id : Z)
    (u : SearchSourceConnectorUpdate.t) (w w' : World) (user : User.t)
    (c c' : SearchSourceConnector.t) :
  check_ownership denied (connectors w) SearchSourceConnector.id
    SearchSourceConnector.user_id connector_id user = Ok c ->
  update_search_source_connector denied connector_id u w user = (w', Ok c') ->
  c' = apply_update u c
  /\ w' = committed (set_connectors w (replace_connector c' (connectors w)))
  /\ NoDup (map SearchSourceConnector.connector_type
              (replace_connector c' (connectors w))).
Proof.
  intros Hown. unfold update_search_source_connector. rewrite Hown.
  cbv zeta.
  match goal with
  | |- context [match ?e with Some _ => _ | None => _ end] =>
      destruct e as [existing|]
  end; [simpl; discriminate|].
  unfold world_commit, commit.
  destruct (unique_connector_type _) eqn:Hu; simpl; [|discriminate].
  intros H. inversion H; subst c' w'. split; [reflexivity|].
  split; [reflexivity|].
  apply unique_connector_type_NoDup in Hu. exact Hu.
Qed.

Lemma replace_connector_keeps (c' b : SearchSourceConnector.t)
    (cs : list SearchSourceConnector.t) :
  In b cs -> SearchSourceConnector.id b <> SearchSourceConnector.id c' ->
  In b (replace_connector c' cs).
Proof.
  intros Hb Hne. unfold replace_connector. apply in_map_iff. exists b.
  split; [|exact Hb].
  destruct (SearchSourceConnector.id b =? SearchSourceConnector.id c') eqn:E;
    [|reflexivity].
  apply Z.eqb_eq in E. contradiction.
Qed.

Lemma replace_connector_puts (c c' : SearchSourceConnector.t)
    (cs : list SearchSourceConnector.t) :
  In c cs -> SearchSourceConnector.id c = SearchSourceConnector.id c' ->
  In c' (replace_connector c' cs).
Proof.
  intros Hc Hid. unfold replace_connector. apply in_map_iff. exists c.
  split; [|exact Hc]. now rewrite Hid, Z.eqb_refl.
Qed.

(** X16: when an update of a connector of the caller, with a name that fits
    the [String(100)] column if it sets one, is answered with a connector,
    that connector keeps the key, the creation time and the owner, has the
    requested type, and has for its name and its indexable flag the
    request's value if the request sets it and the old value if not; the
    persisted table is the table before with the rows of that key rewritten,
    every other connector kept as it was, nothing is left uncommitted, and
    no other connector of the table, of any owner, has the new type. *)
Theorem update_rewrites_only_its_row
    (denied : exn) (connector_id : Z) (u : SearchSourceConnectorUpdate.t)
    (w w' : World) (user : User.t) (c c' : SearchSourceConnector.t) :
  check_ownership denied (connectors w) SearchSourceConnector.id
    SearchSourceConnector.user_id connector_id user = Ok c ->
  update_search_source_connector denied connector_id u w user = (w', Ok c') ->
  (forall v, SearchSourceConnectorUpdate.name u = Some v ->
             fits_String 100 v = true) ->
  (SearchSourceConnector.id c' = connector_id
   /\ SearchSourceConnector.created_at c' = SearchSourceConnector.created_at c
   /\ SearchSourceConnector.user_id c' = User.id user
   /\ SearchSourceConnector.connector_type c'
      = SearchSourceConnectorUpdate.connector_type u
   /\ SearchSourceConnector.name c'
      = match SearchSourceConnectorUpdate.name u with
        | Some v => v | None => SearchSourceConnector.name c end
   /\ SearchSourceConnector.is_indexable c'
      = match SearchSourceConnectorUpdate.is_indexable u with
        | Some v => v | None => SearchSourceConnector.is_indexable c end)
  /\ search_source_connectors (persisted (session w'))
     = map (fun x => if SearchSourceConnector.id x =? connector_id
                     then c' else x)
           (connectors w)
  /\ working (session w') = persisted (session w')
  /\ (forall b, In b (connectors w) ->
        SearchSourceConnector.id b <> connector_id ->
        In b (search_source_connectors (persisted (session w')))
        /\ SearchSourceConnector.connector_type b
           <> SearchSourceConnector.connector_type c').
Proof.
  intros Hown Hupd _.
  destruct (update_succeeded _ _ _ _ _ _ _ _ Hown Hupd) as (Hc' & Hw & Hnd).
  apply check_ownership_inv in Hown. destruct Hown as (Hin & Hid & Huser).
  assert (Hid' : SearchSourceConnector.id c' = connector_id)
    by now rewrite Hc'.
  split.
  { split; [exact Hid'|]. rewrite Hc'. simpl. repeat split. exact Huser. }
  assert (Hp : search_source_connectors (persisted (session w'))
               = replace_connector c' (connectors w)) by now rewrite Hw.
  split; [rewrite Hp; unfold replace_connector; now rewrite Hid'|].
  split; [now rewrite Hw|].
  intros b Hb Hne. rewrite Hp.
  assert (Hb' : In b (replace_connector c' (connectors w)))
    by (apply replace_connector_keeps; [exact Hb | now rewrite Hid']).
  split; [exact Hb'|].
  intros Hty. apply Hne. rewrite <- Hid'. f_equal.
  apply (NoDup_map_eq SearchSourceConnector.connector_type _ _ _ Hnd);
    [exact Hb' | | exact Hty].
  apply (replace_connector_puts c); [exact Hin | now rewrite Hid'].
Qed.

Lemma update_rewrites_only_its_row_witness :
  exists w',
    update_search_source_connector demo_denied 2
      (SearchSourceConnectorUpdate.mk (Some "tavily")
         SearchSourceConnectorType.TAVILY_API None None None)
      demo_world alice
    = (w', Ok (SearchSourceConnector.mk 2 last_week "tavily"
                 SearchSourceConnectorType.TAVILY_API false None "{}" 1%N))
    /\ search_source_connectors (persisted (session w'))
       = [demo_slack;
          SearchSourceConnector.mk 2 last_week "tavily"
            SearchSourceConnectorType.TAVILY_API false None "{}" 1%N;
          demo_notion].
Proof.
  eexists. split; [reflexivity|].
  refine (proj1 (proj2 (update_rewrites_only_its_row demo_denied 2
                          (SearchSourceConnectorUpdate.mk (Some "tavily")
                             SearchSourceConnectorType.TAVILY_API None None
                             None)
                          demo_world _ alice demo_serper _ eq_refl eq_refl
                          _))).
  intros v Hv. inversion Hv. reflexivity.
Defined.

(** X17: an update of a connector, with a name that fits the [String(100)]
    column if it sets one, to a type that a connector of another key has,
    none of them the caller's, passes the handler's own check, is refused at
    the commit by the table-wide unique constraint, and is answered 409
    "Integrity error"; the world is left rolled back. *)
Theorem update_refused_across_owners
    (denied : exn) (connector_id : Z) (u : SearchSourceConnectorUpdate.t)
    (w : World) (user : User.t) (c other : SearchSourceConnector.t) :
  check_ownership denied (connectors w) SearchSourceConnector.id
    SearchSourceConnector.user_id connector_id user = Ok c ->
  In other (connectors w) ->
  SearchSourceConnector.id other <> connector_id ->
  SearchSourceConnector.connector_type other
    = SearchSourceConnectorUpdate.connector_type u ->
  (forall b, In b (connectors w) ->
     SearchSourceConnector.id b <> connector_id ->
     SearchSourceConnector.user_id b = User.id user ->
     SearchSourceConnector.connector_type b
       <> SearchSourceConnectorUpdate.connector_type u) ->
  (forall v, SearchSourceConnectorUpdate.name u = Some v ->
             fits_String 100 v = true) ->
  exists m,
    update_search_source_connector denied connector_id u w user
    = (world_rollback w,
       Raise (HTTPException 409
         ("Integrity error: A connector with this type already exists. "
          ++ m))).
Proof.
  intros Hown Hin Hne Hty Hnone _.
  pose proof (check_ownership_inv _ _ _ _ _ _ _ Hown) as (Hc & Hid & Huser).
  unfold update_search_source_connector. rewrite Hown.
  assert (Hfind :
    (if negb (SearchSourceConnectorType.eqb
                (SearchSourceConnectorUpdate.connector_type u)
                (SearchSourceConnector.connector_type c))
     then find (fun x =>
                  N.eqb (SearchSourceConnector.user_id x) (User.id user)
                  && SearchSourceConnectorType.eqb
                       (SearchSourceConnector.connector_type x)
                       (SearchSourceConnectorUpdate.connector_type u)
                  && negb (SearchSourceConnector.id x =? connector_id))
               (connectors w)
     else None) = None).
  { destruct (negb _); [|reflexivity].
    apply find_none_of_all_false. intros b Hb.
    destruct (SearchSourceConnector.id b =? connector_id) eqn:E;
      [now rewrite andb_false_r|].
    apply Z.eqb_neq in E. rewrite andb_true_r.
    destruct (N.eqb (SearchSourceConnector.user_id b) (User.id user)) eqn:Eu;
      [|reflexivity].
    apply N.eqb_eq in Eu. simpl.
    destruct (SearchSourceConnectorType.eqb _ _) eqn:Et; [|reflexivity].
    apply connector_type_eqb_eq in Et. exfalso.
    exact (Hnone b Hb E Eu Et). }
  cbv zeta. rewrite Hfind. rewrite world_commit_refused.
  - eexists. destruct w as [[p wk] k l]. reflexivity.
  - intros Hnd.
    assert (Heq : other = apply_update u c).
    { apply (NoDup_map_eq SearchSourceConnector.connector_type
               (replace_connector (apply_update u c) (connectors w))
               _ _ Hnd).
      - apply replace_connector_keeps; [exact Hin|]. simpl. now rewrite Hid.
      - now apply (replace_connector_puts c).
      - exact Hty. }
    apply Hne. rewrite Heq. exact Hid.
Qed.

Lemma update_refused_across_owners_witness :
  exists m,
    update_search_source_connector demo_denied 2
      (SearchSourceConnectorUpdate.mk None
         SearchSourceConnectorType.NOTION_CONNECTOR None None None)
      demo_world alice
    = (demo_world,
       Raise (HTTPException 409
         ("Integrity error: A connector with this type already exists. "
          ++ m))).
Proof.
  refine (update_refused_across_owners demo_denied 2
            (SearchSourceConnectorUpdate.mk None
               SearchSourceConnectorType.NOTION_CONNECTOR None None None)
            demo_world alice demo_serper demo_notion eq_refl
            (or_intror (or_intror (or_introl eq_refl))) _ eq_refl _ _).
  - discriminate.
  - intros b [<-|[<-|[<-|[]]]]; simpl; intros Hid Hu; discriminate.
  - intros v Hv. discriminate Hv.
Defined.

(** ** What a background run leaves alone *)

(** The checkpoint write either persists nothing new about the connectors,
    or persists the session's table with the one row rewritten. *)
Lemma update_connector_last_indexed_cases (w : World) (connector_id : Z) :
  search_source_connectors
    (persisted (session (update_connector_last_indexed w connector_id)))
  = search_source_connectors (persisted (session w))
  \/ exists c,
       find (fun x => SearchSourceConnector.id x =? connector_id)
            (connectors w) = Some c
       /\ search_source_connectors
            (persisted (session (update_connector_last_indexed w
                                   connector_id)))
          = replace_connector (set_last_indexed_at c (Some (clock w)))
              (connectors w).
Proof.
  unfold update_connector_last_indexed.
  destruct (find _ (connectors w)) as [c|] eqn:Hfind; [|now left].
  cbn [datetime_now routes_datetime]. unfold world_commit, commit.
  destruct (unique_connector_type _) eqn:Hu.
  - right. exists c. split; reflexivity.
  - left. reflexivity.
Qed.

Lemma run_indexing_session (source : string) (indexer : Indexer) (w : World)
    (connector_id search_space_id : Z) :
  let w1 := fst (indexer w connector_id search_space_id false) in
  session (run_indexing source indexer w connector_id search_space_id)
  = session w1
  \/ session (run_indexing source indexer w connector_id search_space_id)
     = session (update_connector_last_indexed w1 connector_id).
Proof.
  unfold run_indexing.
  destruct (indexer w connector_id search_space_id false) as [w1 [[n m]|e]];
    simpl; [|now left].
  destruct (indexing_was_successful n m); [now right | now left].
Qed.

Lemma replace_connector_same_but_checkpoint (c : SearchSourceConnector.t)
    (t : option datetime.t) (cs : list SearchSourceConnector.t) :
  NoDup (map SearchSourceConnector.id cs) -> In c cs ->
  map (fun x => set_last_indexed_at x None)
      (replace_connector (set_last_indexed_at c t) cs)
  = map (fun x => set_last_indexed_at x None) cs.
Proof.
  intros Hpk Hin. unfold replace_connector. rewrite map_map.
  apply map_ext_in. intros a Ha. simpl.
  destruct (SearchSourceConnector.id a =? SearchSourceConnector.id c) eqn:E;
    [|reflexivity].
  apply Z.eqb_eq in E.
  now rewrite (NoDup_map_eq SearchSourceConnector.id cs a c Hpk Ha Hin E).
Qed.

Lemma run_indexing_frame (source : string) (indexer : Indexer) (w : World)
    (connector_id search_space_id : Z) :
  let before := search_source_connectors (persisted (session w)) in
  let after :=
    search_source_connectors
      (persisted (session (run_indexing source indexer w connector_id
                             search_space_id))) in
  NoDup (map SearchSourceConnector.id before) ->
  leaves_connectors w (fst (indexer w connector_id search_space_id false)) ->
  map (fun x => set_last_indexed_at x None) after
  = map (fun x => set_last_indexed_at x None) before
  /\ (forall x, In x before -> SearchSourceConnector.id x <> connector_id ->
                In x after)
  /\ (forall t, checkpoint (persisted (session w)) connector_id
                = Some (Some t) ->
                exists t',
                  checkpoint
                    (persisted (session (run_indexing source indexer w
                                           connector_id search_space_id)))
                    connector_id
                  = Some (Some t')).
Proof.
  intros before after Hpk [Hpers Hwork]. subst before after.
  set (w1 := fst (indexer w connector_id search_space_id false)) in *.
  assert (Hcases :
    search_source_connectors
      (persisted (session (run_indexing source indexer w connector_id
                             search_space_id)))
    = search_source_connectors (persisted (session w))
    \/ exists c,
         find (fun x => SearchSourceConnector.id x =? connector_id)
              (search_source_connectors (persisted (session w))) = Some c
         /\ search_source_connectors
              (persisted (session (run_indexing source indexer w
                                     connector_id search_space_id)))
            = replace_connector (set_last_indexed_at c (Some (clock w1)))
                (search_source_connectors (persisted (session w)))).
  { destruct (run_indexing_session source indexer w connector_id
                search_space_id) as [H|H]; fold w1 in H; rewrite H.
    - left. exact Hpers.
    - destruct (update_connector_last_indexed_cases w1 connector_id)
        as [H'|(c & Hf & H')]; rewrite H'.
      + left. exact Hpers.
      + right. exists c. unfold connectors in *. rewrite Hwork in *. auto. }
  unfold checkpoint.
  destruct Hcases as [->|(c & Hfind & ->)].
  - split; [reflexivity|]. split; [auto|]. intros t Ht. eauto.
  - pose proof (find_some _ _ Hfind) as [Hin Hid]. apply Z.eqb_eq in Hid.
    split; [now apply replace_connector_same_but_checkpoint|]. split.
    + intros x Hx Hne. unfold replace_connector. apply in_map_iff. exists x.
      split; [|exact Hx]. simpl.
      destruct (SearchSourceConnector.id x =? SearchSourceConnector.id c)
        eqn:E; [|reflexivity].
      apply Z.eqb_eq in E. exfalso. apply Hne. now rewrite E.
    + intros t _. exists (clock w1).
      now rewrite (find_replace_connector c
                     (set_last_indexed_at c (Some (clock w1))) _
                     connector_id Hfind eq_refl).
Qed.

(** X18: whatever an indexing run reports, it changes nothing of the
    connectors table but the checkpoint of its own connector: the table
    keeps its rows and every attribute other than last_indexed_at, every
    other connector is kept as it was, and a checkpoint that was set is
    never cleared. *)
Theorem run_changes_only_its_checkpoint
    (index_slack_messages index_notion_pages : Indexer) (w : World)
    (connector_id search_space_id : Z) :
  let before := search_source_connectors (persisted (session w)) in
  NoDup (map SearchSourceConnector.id before) ->
  (forall indexer,
     In indexer [index_slack_messages; index_notion_pages] ->
     leaves_connectors w
       (fst (indexer w connector_id search_space_id false))) ->
  forall w',
    w' = run_slack_indexing index_slack_messages w connector_id
           search_space_id
    \/ w' = run_notion_indexing index_notion_pages w connector_id
              search_space_id ->
    let after := search_source_connectors (persisted (session w')) in
    map (fun x => set_last_indexed_at x None) after
    = map (fun x => set_last_indexed_at x None) before
    /\ (forall x, In x before ->
                  SearchSourceConnector.id x <> connector_id -> In x after)
    /\ (forall t, checkpoint (persisted (session w)) connector_id
                  = Some (Some t) ->
                  exists t',
                    checkpoint (persisted (session w')) connector_id
                    = Some (Some t')).
Proof.
  intros before Hpk Hidx w' [->| ->].
  - apply run_indexing_frame; [exact Hpk|]. apply Hidx. now left.
  - apply run_indexing_frame; [exact Hpk|]. apply Hidx. right. now left.
Qed.

Lemma run_changes_only_its_checkpoint_witness :
  search_source_connectors
    (persisted (session (run_notion_indexing slow_indexer demo_world 3 2)))
  = [demo_slack; demo_serper;
     set_last_indexed_at demo_notion (Some (on_day 2025 3 7 13))]
  /\ exists t',
       checkpoint
         (persisted (session (run_notion_indexing slow_indexer demo_world
                                3 2))) 3
       = Some (Some t').
Proof.
  split; [reflexivity|].
  refine (proj2 (proj2 (run_changes_only_its_checkpoint slow_indexer
                          slow_indexer demo_world 3 2 _ _ _
                          (or_intror eq_refl)))
            this_morning eq_refl).
  - simpl. repeat constructor; simpl; intuition discriminate.
  - intros indexer [<-|[<-|[]]]; split; reflexivity.
Defined.

(** X19: a run whose connector is no longer in the session when the indexer
    returns (it was deleted meanwhile) writes nothing, even when the indexer
    reports success; the run still logs that indexing completed
    successfully. *)
Theorem run_on_missing_connector
    (index_slack_messages : Indexer) (w : World)
    (connector_id search_space_id : Z) (n : Z) (m : option string) :
  let w1 := fst (index_slack_messages w connector_id search_space_id false) in
  snd (index_slack_messages w connector_id search_space_id false)
    = Ok (n, m) ->
  indexing_was_successful n m = true ->
  find (fun x => SearchSourceConnector.id x =? connector_id) (connectors w1)
    = None ->
  run_slack_indexing index_slack_messages w connector_id search_space_id
  = logger INFO ("Slack indexing completed successfully: " ++ str_int n
                 ++ " documents indexed") w1.
Proof.
  intros w1 Hr Hs Hnone. subst w1.
  unfold run_slack_indexing, run_indexing.
  destruct (index_slack_messages w connector_id search_space_id false)
    as [w1 r].
  simpl in *. subst r. rewrite Hs.
  now rewrite (update_connector_last_indexed_missing w1 connector_id Hnone).
Qed.

Lemma run_on_missing_connector_witness :
  run_slack_indexing slow_indexer demo_world 9 1
  = logger INFO "Slack indexing completed successfully: 3 documents indexed"
      (mkWorld demo_session (on_day 2025 3 7 13) []).
Proof.
  exact (run_on_missing_connector slow_indexer demo_world 9 1 3 None
           eq_refl eq_refl eq_refl).
Defined.

(** ** What the indexing trigger never does *)

Ltac trigger_outcome :=
  cbn [datetime_now routes_datetime bind fst snd session clock logger];
  split; [reflexivity|]; split; [reflexivity|]; split;
  [ intros e0 H0;
    first [ discriminate H0
          | inversion H0; subst; split; [reflexivity | eauto] ]
  | intros resp0 H0;
    first [ discriminate H0
          | inversion H0; subst; cbn [success];
            first [ left; split; [reflexivity|]; do 2 eexists;
                    split; [reflexivity|]; split; [reflexivity|]; auto; fail
                  | right; repeat split; reflexivity ] ] ].

(** X20: whatever its arguments, the indexing trigger writes nothing to the
    session and reads the clock only; a call that fails reaches the caller
    as an HTTPException and queues nothing; a call that answers with
    success queued exactly one task, the Slack or the Notion run for the
    connector and search space asked for; a call that answers without
    success had no queue to add to. *)
Theorem trigger_never_writes
    (denied : exn) (connector_id search_space_id : Z) (w : World)
    (user : User.t) (background_tasks : option (list Task)) :
  let out := index_connector_content denied connector_id search_space_id w
               user background_tasks in
  session (fst (fst out)) = session w
  /\ clock (fst (fst out)) = clock w
  /\ (forall e, snd out = Raise e ->
        snd (fst out) = background_tasks
        /\ exists st d, e = HTTPException st d)
  /\ (forall resp, snd out = Ok resp ->
        (success resp = true
         /\ exists tasks queued,
              background_tasks = Some tasks
              /\ snd (fst out) = Some (tasks ++ [queued])
              /\ (queued = run_slack_indexing_task connector_id
                             search_space_id
                  \/ queued = run_notion_indexing_task connector_id
                                search_space_id))
        \/ (success resp = false
            /\ background_tasks = None /\ snd (fst out) = None)).
Proof.
  intros out. subst out. unfold index_connector_content.
  destruct (check_ownership denied (connectors w) _ _ _ user) as [c|e1];
    [|destruct e1; trigger_outcome].
  destruct (check_ownership denied (searchspaces _) _ _ _ user) as [sp|e2];
    [|destruct e2; trigger_outcome].
  destruct (SearchSourceConnector.connector_type c); try trigger_outcome;
    (destruct (start_date_of c w) as [start|e3];
     [destruct background_tasks as [tasks|] | destruct e3]);
    trigger_outcome.
Qed.

(** X21: without a background-task facility the trigger, on a Slack or
    Notion connector and a search space of the caller, answers
    success = false "Background tasks not available" with the connector type
    and no window bounds, and queues nothing; the window start is computed
    first all the same, so a connector last indexed on the current day makes
    this call fail with status 500 too. *)
Theorem trigger_without_background_tasks
    (denied : exn) (connector_id search_space_id : Z) (w : World)
    (user : User.t) (connector : SearchSourceConnector.t)
    (space : SearchSpace.t) :
  check_ownership denied (connectors w) SearchSourceConnector.id
    SearchSourceConnector.user_id connector_id user = Ok connector ->
  check_ownership denied (searchspaces (working (session w)))
    SearchSpace.id SearchSpace.user_id search_space_id user = Ok space ->
  SearchSourceConnector.connector_type connector
    = SearchSourceConnectorType.SLACK_CONNECTOR
  \/ SearchSourceConnector.connector_type connector
     = SearchSourceConnectorType.NOTION_CONNECTOR ->
  let out := index_connector_content denied connector_id search_space_id w
               user None in
  (forall start,
     start_date_of connector w = Ok start ->
     out = (w, None,
            Ok (mkIndexResponse false "Background tasks not available"
                  (SearchSourceConnector.connector_type connector)
                  None None None)))
  /\ (forall t,
        SearchSourceConnector.last_indexed_at connector = Some t ->
        datetime.date t = datetime.date (clock w) ->
        out = (logger ERROR
                 ("Failed to start indexing: " ++ str_exn no_timedelta) w,
               None,
               Raise (HTTPException 500
                        ("Failed to start indexing: "
                         ++ str_exn no_timedelta)))).
Proof.
  intros Hc Hs Hty out. subst out. unfold index_connector_content.
  rewrite Hc, Hs. split.
  - intros start Hstart.
    destruct Hty as [Hty|Hty]; rewrite Hty, Hstart; reflexivity.
  - intros t Hlast Hday.
    rewrite (start_date_of_same_day connector w t Hlast Hday).
    destruct Hty as [Hty|Hty]; rewrite Hty; reflexivity.
Qed.

Lemma trigger_without_background_tasks_witness :
  index_connector_content demo_denied 1 1 demo_world alice None
  = (demo_world, None,
     Ok (mkIndexResponse false "Background tasks not available"
           SearchSourceConnectorType.SLACK_CONNECTOR None None None)).
Proof.
  exact (proj1 (trigger_without_background_tasks demo_denied 1 1 demo_world
                  alice demo_slack
                  (SearchSpace.mk 1 last_week "research" None 1%N)
                  eq_refl eq_refl (or_introl eq_refl))
           "365 days ago" eq_refl).
Defined.

(** ** Updating documents *)

(** What an update of a document that answers with a document has done. *)
Lemma update_document_succeeded (document_id : Z) (u : DocumentUpdate.t)
    (w w' : World) (user : User.t) (r : DocumentRead.t) :
  update_document document_id u w user = (w', Ok r) ->
  exists d,
    select_document w document_id user = Some d
    /\ r = to_DocumentRead (apply_document_update u d)
    /\ w' = committed
              (set_documents w
                 (map (fun x => if Document.id x =? Document.id d
                                then apply_document_update u d else x)
                      (documents (working (session w))))).
Proof.
  unfold update_document.
  destruct (select_document w document_id user) as [d|];
    [|simpl; discriminate].
  change (Document.id (apply_document_update u d)) with (Document.id d).
  unfold world_commit, commit.
  destruct (unique_connector_type _); simpl; [|discriminate].
  intros H. inversion H; subst r w'. exists d. auto.
Qed.

(** X22: when PUT /documents/{document_id} is answered with a document, the
    answer is the API form of the row now stored under that id, which lay in
    a search space of the caller and keeps its key, creation time and
    embedding; the persisted documents are the documents before with the
    rows of that id rewritten, every other document kept as it was; the
    chunks and every other table are as before, and nothing is left
    uncommitted.  So neither the embedding nor the chunks follow a change
    of the content. *)
Theorem update_document_rewrites_only_its_row
    (document_id : Z) (u : DocumentUpdate.t) (w w' : World) (user : User.t)
    (r : DocumentRead.t) :
  update_document document_id u w user = (w', Ok r) ->
  let st := working (session w) in
  let st' := persisted (session w') in
  exists d d',
    In d (documents_of w user)
    /\ Document.id d = document_id
    /\ r = to_DocumentRead d'
    /\ Document.id d' = document_id
    /\ Document.created_at d' = Document.created_at d
    /\ Document.embedding d' = Document.embedding d
    /\ documents st'
       = map (fun x => if Document.id x =? document_id then d' else x)
             (documents st)
    /\ (forall x, In x (documents st) -> Document.id x <> document_id ->
                  In x (documents st'))
    /\ chunks st' = chunks st
    /\ searchspaces st' = searchspaces st
    /\ podcasts st' = podcasts st
    /\ chats st' = chats st
    /\ search_source_connectors st' = search_source_connectors st
    /\ working (session w') = st'.
Proof.
  intros Hupd st st'. subst st st'.
  apply update_document_succeeded in Hupd.
  destruct Hupd as (d & Hsel & Hr & Hw).
  apply select_document_some in Hsel. destruct Hsel as [Hin Hid].
  exists d, (apply_document_update u d).
  split; [exact Hin|]. split; [exact Hid|]. split; [exact Hr|].
  split; [exact Hid|]. split; [reflexivity|]. split; [reflexivity|].
  rewrite Hw, Hid. cbn.
  split; [reflexivity|]. split; [|repeat split].
  intros x Hx Hne. apply in_map_iff. exists x. split; [|exact Hx].
  destruct (Document.id x =? document_id) eqn:E; [|reflexivity].
  apply Z.eqb_eq in E. contradiction.
Qed.

Lemma update_document_rewrites_only_its_row_witness :
  exists w',
    update_document 2
      (DocumentUpdate.mk None None None (Some "new text") None)
      demo_world alice
    = (w', Ok (DocumentRead.mk 2 "b" DocumentType.CRAWLED_URL None "new text"
                 last_week 1))
    /\ chunks (persisted (session w')) = chunks demo_store
    /\ map Document.embedding (documents (persisted (session w')))
       = map Document.embedding (documents demo_store).
Proof.
  eexists. split; [reflexivity|].
  destruct (update_document_rewrites_only_its_row 2
              (DocumentUpdate.mk None None None (Some "new text") None)
              demo_world _ alice _ eq_refl)
    as (d & d' & _ & _ & _ & _ & _ & _ & _ & _ & Hchunks & _).
  split; [exact Hchunks | reflexivity].
Defined.
